(** * ShipSure: the PR risk pipeline, embedded and verified

    A shallow embedding of the parts of ShipSure that its specification
    makes claims about, and of the code around them:

    - [pr_processor.py]: the orchestrator ([process_pr]), the comment
      classifier ([_extract_review_info]) and the sandbox run
      ([_run_tests_in_daytona]);
    - [gpt_analyzer.py]: the risk scorer ([analyze_pr]);
    - [run_tests_daytona.py] and [test_runner.py]: import extraction, source
      resolution, the sandbox wrapper ([TestRunner]);
    - [main.py]: the batch loop, the repository argument and the selection
      of the pull requests;
    - [github_client.py]: the detection and the harvest of the bot's
      comments, and the search for the companion pull request.

    Conventions of the embedding.

    - Python [str] is [string], read as the UTF-8 encoding of the text:
      [len] and slices count code points ([Py.len], [Py.take]);
      [str.lower] and the whitespace class act on the ASCII range.
    - A Python [dict] with string keys is a [gmap string _]; a [set] of
      strings is a [gset string]; a JSON array handed over by a
      collaborator is a [list].
    - A collaborator call (GitHub, Daytona, OpenAI) is an input of the
      model: its outcome, [Ok v] or [Raise e], is read from a record of
      outcomes.  [Raise e] stands for a Python exception of class
      [Exception]; [e] is its [str(e)].
    - Code that can raise returns a [result]. *)

From Stdlib Require Import Ascii String.
From stdpp Require Import gmap strings list fin_maps pretty.

Set Default Proof Using "Type".
Set Warnings "-register-all".

(** ** Outcomes of fallible code *)

Definition exn := string.

Inductive result (A : Type) : Type :=
  | Ok (a : A)
  | Raise (e : exn).
Arguments Ok {A} a.
Arguments Raise {A} e.

Global Instance result_ret : MRet result := fun A a => Ok a.
Global Instance result_bind : MBind result := fun A B k m =>
  match m with
  | Ok a => k a
  | Raise e => Raise e
  end.

Global Instance result_fmap : FMap result := fun A B f m =>
  match m with
  | Ok a => Ok (f a)
  | Raise e => Raise e
  end.

Definition is_ok {A : Type} (m : result A) : bool :=
  match m with Ok _ => true | Raise _ => false end.

(** ** The Python string operations the program uses *)

Module Py.

(** [str.lower] on ASCII. *)
Definition lower_char (c : ascii) : ascii :=
  let n := nat_of_ascii c in
  if (65 <=? n) && (n <=? 90) then ascii_of_nat (n + 32) else c.

Fixpoint lower (s : string) : string :=
  match s with
  | "" => ""
  | String c t => String (lower_char c) (lower t)
  end.

(** [needle in hay]. *)
Fixpoint contains (needle hay : string) : bool :=
  String.prefix needle hay ||
  match hay with
  | "" => false
  | String _ t => contains needle t
  end.

(** [any(k in s for k in keywords)]. *)
Definition contains_any (keywords : list string) (s : string) : bool :=
  existsb (fun k => contains k s) keywords.

(** [s.endswith(suffix)]. *)
Definition endswith (s suffix : string) : bool :=
  let n := String.length s in
  let k := String.length suffix in
  (k <=? n) && String.eqb (String.substring (n - k) k s) suffix.

(** A code point starts at every byte that is not a continuation byte
    (one of the form 10xxxxxx). *)
Definition is_continuation (c : ascii) : bool :=
  let n := nat_of_ascii c in (128 <=? n) && (n <? 192).

(** [len(s)]: the number of code points. *)
Fixpoint len (s : string) : nat :=
  match s with
  | "" => 0
  | String c t => if is_continuation c then len t else S (len t)
  end.

(** [s[:n]]: the first [n] code points, each with all its bytes. *)
Fixpoint take (n : nat) (s : string) : string :=
  match s with
  | "" => ""
  | String c t =>
      if is_continuation c then String c (take n t)
      else match n with
           | 0 => ""
           | S n' => String c (take n' t)
           end
  end.

(** [s[n:]]: what follows the first [n] code points. *)
Fixpoint drop (n : nat) (s : string) : string :=
  match s with
  | "" => ""
  | String c t =>
      if is_continuation c then drop n t
      else match n with
           | 0 => s
           | S n' => drop n' t
           end
  end.

(** [s[i]] for an integer [i]; [None] is an [IndexError]. *)
Definition item (i : Z) (s : string) : option string :=
  let n := Z.of_nat (len s) in
  let j := if (i <? 0)%Z then (i + n)%Z else i in
  if (0 <=? j)%Z && (j <? n)%Z then Some (take 1 (drop (Z.to_nat j) s))
  else None.

(** [s.split(sep)] for a one-character separator. *)
Fixpoint split (sep : ascii) (s : string) : list string :=
  match s with
  | "" => [""]
  | String c t =>
      if Ascii.eqb c sep then "" :: split sep t
      else match split sep t with
           | [] => [String c ""]
           | w :: ws => String c w :: ws
           end
  end.

(** [s.replace(old, new)] for a one-character [old]. *)
Fixpoint replace_char (old : ascii) (new : string) (s : string) : string :=
  match s with
  | "" => ""
  | String c t =>
      if Ascii.eqb c old then new +:+ replace_char old new t
      else String c (replace_char old new t)
  end.

(** The characters [str.strip] removes and the pattern [\s] matches,
    within ASCII. *)
Definition is_space (c : ascii) : bool :=
  let n := nat_of_ascii c in
  ((9 <=? n) && (n <=? 13)) || ((28 <=? n) && (n <=? 32)).

Fixpoint lstrip (s : string) : string :=
  match s with
  | "" => ""
  | String c t => if is_space c then lstrip t else s
  end.

Definition rstrip (s : string) : string :=
  String.rev (lstrip (String.rev s)).

Definition strip (s : string) : string := rstrip (lstrip s).

(** [os.path.basename] (POSIX): what follows the last slash. *)
Definition basename (p : string) : string := List.last (split "/" p) "".

(** [os.path.splitext(name)[0]]: the name up to its last dot, unless
    only dots precede that dot. *)
Fixpoint split_last_dot (s : string) : option (string * string) :=
  match s with
  | "" => None
  | String c t =>
      match split_last_dot t with
      | Some (b, e) => Some (String c b, e)
      | None => if Ascii.eqb c "." then Some ("", s) else None
      end
  end.

Fixpoint all_dots (s : string) : bool :=
  match s with
  | "" => true
  | String c t => Ascii.eqb c "." && all_dots t
  end.

Definition splitext_root (name : string) : string :=
  match split_last_dot name with
  | Some (b, _) => if all_dots b then name else b
  | None => name
  end.

End Py.

(** ** JSON values

    What [json.loads] and the GitHub client hand to the program: [None],
    booleans, integers, strings and objects.  Non-integer numbers and
    arrays nested inside these values are outside the embedding. *)

Inductive json : Type :=
  | JNull
  | JBool (b : bool)
  | JNum (n : Z)
  | JStr (s : string)
  | JObj (o : gmap string json).

(** [type(v).__name__], as the interpreter's error messages show it. *)
Definition py_type_name (v : json) : string :=
  match v with
  | JNull => "NoneType"
  | JBool _ => "bool"
  | JNum _ => "int"
  | JStr _ => "str"
  | JObj _ => "dict"
  end.

(** [d.get(key, default)]. *)
Definition dict_get {V : Type} (d : gmap string V) (key : string) (dflt : V) : V :=
  default dflt (d !! key).

(** ** Bot interaction tracker: classification of a bot comment
    ([pr_processor.py], [PRProcessor._extract_review_info]) *)

(** A comment as the GitHub client returns it; only the author's login and
    the body are read. *)
Record comment : Type := Comment {
  c_login : string;
  c_body : string;
}.

(** A review finding is the Python [dict] built by the tracker; the scorer
    may later add or overwrite keys, so it stays a dictionary. *)
Abbreviation finding := (gmap string json).

Module Tracker.

Definition bot_marker : string := "coderabbit".
Definition finding_name : string := "Coderabbit Review".

Definition danger_keywords : list string :=
  ["error"; "bug"; "security"; "vulnerability"].
Definition warning_keywords : list string :=
  ["warning"; "suggestion"; "improvement"].
Definition success_keywords : list string :=
  ["good"; "approved"; "passed"].

(** [body[:200] + "..." if len(body) > 200 else body] *)
Definition describe (body : string) : string :=
  if 200 <? Py.len body then Py.take 200 body +:+ "..." else body.

Definition _extract_review_info (c : comment) : option finding :=
  let body := c_body c in
  let user := c_login c in
  if negb (Py.contains bot_marker (Py.lower user)) then None
  else
    let review_info : finding :=
      <["description" := JStr (describe body)]>
        (<["type" := JStr "info"]>
           (<["name" := JStr finding_name]> ∅)) in
    let body_lower := Py.lower body in
    Some
      (if Py.contains_any danger_keywords body_lower
       then <["type" := JStr "danger"]> review_info
       else if Py.contains_any warning_keywords body_lower
       then <["type" := JStr "warning"]> review_info
       else if Py.contains_any success_keywords body_lower
       then <["type" := JStr "success"]> review_info
       else review_info).

(** The loop of [process_pr] over the harvested comments: the findings
    of the comments that yield one, in order. *)
Definition collect_findings (comments : list comment) : list finding :=
  omap _extract_review_info comments.

(** The classification rule as the specification words it: an ordered
    list of (keywords, outcome) pairs, first match wins, [info]
    otherwise. *)
Inductive severity : Type := danger | warning | success | info.

Definition severity_label (s : severity) : string :=
  match s with
  | danger => "danger"
  | warning => "warning"
  | success => "success"
  | info => "info"
  end.

Definition spec_rules : list (list string * severity) :=
  [ (["error"; "bug"; "security"; "vulnerability"], danger);
    (["warning"; "suggestion"; "improvement"], warning);
    (["good"; "approved"; "passed"], success) ].

Fixpoint first_match (rules : list (list string * severity)) (text : string)
  : severity :=
  match rules with
  | [] => info
  | (kws, out) :: rest =>
      if Py.contains_any kws text then out else first_match rest text
  end.

Definition spec_classify (body : string) : severity :=
  first_match spec_rules (Py.lower body).

End Tracker.

(** ** File sets *)

(** A FileSet: relative path ↦ text content. *)
Abbreviation fileset := (gmap string string).

(** [{**a, **b}]: a fresh dictionary receives the items of [a], then the
    items of [b]. *)
Definition dict_insert_all {V : Type} (src dst : gmap string V) : gmap string V :=
  map_fold (fun k v acc => <[k := v]> acc) dst src.

Definition dict_unpack2 {V : Type} (a b : gmap string V) : gmap string V :=
  dict_insert_all b (dict_insert_all a ∅).

(** ** Sandbox test executor ([test_runner.py], class [TestRunner]) *)

Module TestRunner.

(** A sandbox handle, as returned by the Daytona client. *)
Definition handle := nat.

(** What the runner asks of the sandbox service, in order. *)
Inductive event : Type :=
  | EvCreate (h : handle)
  | EvMaterialize (h : handle) (files : fileset)
  | EvInstall (h : handle) (packages : list string)
  | EvExecute (h : handle) (snippet : string)
  | EvDelete (h : handle) (deleted : bool).

(** The Daytona collaborator: the outcome of each call. [code_run]
    answers with an exit code and the captured output. *)
Record daytona : Type := Daytona {
  create_out : result handle;
  materialize_out : fileset → result (Z * string);
  install_out : list string → result (Z * string);
  execute_out : string → result (Z * string);
  delete_out : handle → result unit;
}.

(** The runner object: its [sandbox] attribute, and the calls it has
    issued so far. *)
Record runner : Type := Runner {
  sandbox : option handle;
  trace : list event;
}.

Definition log (ev : event) (r : runner) : runner :=
  Runner (sandbox r) (trace r ++ [ev]).

(** Methods act on the runner and may raise; the runner keeps the
    changes made before the exception. *)
Definition M (A : Type) : Type := runner → result A * runner.

Definition ret {A : Type} (a : A) : M A := fun r => (Ok a, r).
Definition raise {A : Type} (e : exn) : M A := fun r => (Raise e, r).
Definition bind {A B : Type} (m : M A) (k : A → M B) : M B :=
  fun r =>
    match m r with
    | (Ok a, r') => k a r'
    | (Raise e, r') => (Raise e, r')
    end.
Definition lift {A : Type} (o : result A) : M A := fun r => (o, r).

(** [try: body / except Exception as e: handler(e)] *)
Definition try_except {A : Type} (body : M A) (handler : exn → M A) : M A :=
  fun r =>
    match body r with
    | (Ok a, r') => (Ok a, r')
    | (Raise e, r') => handler e r'
    end.

(** [try: body / finally: fin] *)
Definition try_finally {A : Type} (body : M A) (fin : M unit) : M A :=
  fun r =>
    match body r with
    | (o, r') =>
        match fin r' with
        | (Ok _, r'') => (o, r'')
        | (Raise e, r'') => (Raise e, r'')
        end
    end.

Global Instance M_ret : MRet M := @ret.
Global Instance M_bind : MBind M := fun A B k m => bind m k.

Section Methods.
Variable d : daytona.

(** [self.sandbox.<call>] when no sandbox was ever created. *)
Definition no_sandbox : exn :=
  "'NoneType' object has no attribute 'process'".

Definition create_sandbox : M handle :=
  fun r =>
    match create_out d with
    | Ok h => (Ok h, Runner (Some h) (trace r ++ [EvCreate h]))
    | Raise e => (Raise e, r)
    end.

Definition install_dependencies (packages : option (list string)) : M bool :=
  let packages := default ["pytest"] packages in
  fun r =>
    match sandbox r with
    | None => (Raise no_sandbox, r)
    | Some h =>
        let r' := log (EvInstall h packages) r in
        match install_out d packages with
        | Ok (exit_code, _) => (Ok (exit_code =? 0)%Z, r')
        | Raise e => (Raise e, r')
        end
    end.

Definition setup_environment (code_files test_files : fileset) : M bool :=
  let all_files := dict_unpack2 code_files test_files in
  fun r =>
    match sandbox r with
    | None => (Raise no_sandbox, r)
    | Some h =>
        let r' := log (EvMaterialize h all_files) r in
        match materialize_out d all_files with
        | Ok (exit_code, _) => (Ok (exit_code =? 0)%Z, r')
        | Raise e => (Raise e, r')
        end
    end.

(** The text of the execution snippet around the command. *)
Definition snippet_head : string :=
  "import subprocess" +:+ String "010" "import sys" +:+ String "010" "" +:+
  String "010" "try:" +:+
  String "010" "    result = subprocess.run(" +:+
  String "010" "        ".

Definition snippet_tail : string :=
  "," +:+
  String "010" "        shell=True," +:+
  String "010" "        capture_output=True," +:+
  String "010" "        text=True," +:+
  String "010" "        timeout=300" +:+
  String "010" "    )" +:+
  String "010" "    print(result.stdout)" +:+
  String "010" "    if result.stderr:" +:+
  String "010" "        print(result.stderr, file=sys.stderr)" +:+
  String "010" "    sys.exit(result.returncode)" +:+
  String "010" "except subprocess.TimeoutExpired:" +:+
  String "010" "    print(" +:+ String "034"
    "Test execution timed out after 5 minutes" +:+ String "034"
    ", file=sys.stderr)" +:+
  String "010" "    sys.exit(1)" +:+
  String "010" "except Exception as e:" +:+
  String "010" "    print(f" +:+ String "034"
    "Error running tests: {e}" +:+ String "034" ", file=sys.stderr)" +:+
  String "010" "    sys.exit(1)" +:+ String "010" "".

(** [test_command.replace("'", "'\"'\"'")] *)
Definition quote_replacement : string :=
  String "'" (String "034" (String "'" (String "034" (String "'" "")))).

Definition escape_command (test_command : string) : string :=
  Py.replace_char "'" quote_replacement test_command.

Definition test_code (test_command : string) : string :=
  snippet_head +:+ String "'" (escape_command test_command) +:+
  String "'" snippet_tail.

Definition run_tests (test_command : string) : M (Z * string) :=
  let code := test_code test_command in
  fun r =>
    match sandbox r with
    | None => (Raise no_sandbox, r)
    | Some h =>
        let r' := log (EvExecute h code) r in
        match execute_out d code with
        | Ok response => (Ok response, r')
        | Raise e => (Raise e, r')
        end
    end.

(** [if self.sandbox: try: self.sandbox.delete() except Exception: pass] *)
Definition delete_sandbox (h : handle) : M unit :=
  fun r =>
    match delete_out d h with
    | Ok _ => (Ok tt, log (EvDelete h true) r)
    | Raise e => (Raise e, log (EvDelete h false) r)
    end.

Definition cleanup : M unit :=
  fun r =>
    match sandbox r with
    | Some h => try_except (delete_sandbox h) (fun _ => ret tt) r
    | None => (Ok tt, r)
    end.

End Methods.

(** The events of one sandbox run: none, or the life of one sandbox from
    its creation to its deletion. *)
Definition one_sandbox (d : daytona) (evs : list event) : Prop :=
  evs = [] ∨
  ∃ h mid, create_out d = Ok h ∧ evs = EvCreate h :: mid ∧
           last mid = Some (EvDelete h (is_ok (delete_out d h))).

End TestRunner.

(** ** Source resolver ([run_tests_daytona.py]) *)

Module Resolver.

(** *** Import extraction *)

(** What the syntax-tree walk of [parse_imports_from_test_files] reads
    off a parsed file: [import a.b, c] and [from m import x]. *)
Inductive import_node : Type :=
  | Import (names : list string)
  | ImportFrom (module : option string).

(** The module and, when it is dotted, its first segment. *)
Definition with_first_segment (module : string) : gset string :=
  {[module]} ∪
  (if Py.contains "." module
   then {[ List.hd "" (Py.split "." module) ]} else ∅).

Definition node_imports (n : import_node) : gset string :=
  match n with
  | Import names => ⋃ (with_first_segment <$> names)
  | ImportFrom (Some module) =>
      if String.eqb module "" then ∅ else with_first_segment module
  | ImportFrom None => ∅
  end.

(** The fallback pattern, anchored at the start of the stripped line:
    an optional [from] keyword with its white space, then, captured, an
    identifier followed by any number of dot-identifier pairs. *)
Definition is_ident_start (c : ascii) : bool :=
  let n := nat_of_ascii c in
  ((97 <=? n) && (n <=? 122)) || ((65 <=? n) && (n <=? 90)) || (n =? 95).

Definition is_ident_char (c : ascii) : bool :=
  let n := nat_of_ascii c in
  is_ident_start c || ((48 <=? n) && (n <=? 57)).

(** Inside a dotted name: the longest continuation. *)
Fixpoint scan_dotted (s : string) : string :=
  match s with
  | "" => ""
  | String c t =>
      if is_ident_char c then String c (scan_dotted t)
      else if Ascii.eqb c "." then
        match t with
        | String c' _ =>
            if is_ident_start c' then String "." (scan_dotted t) else ""
        | "" => ""
        end
      else ""
  end.

Definition dotted_name (s : string) : option string :=
  match s with
  | String c t =>
      if is_ident_start c then Some (String c (scan_dotted t)) else None
  | "" => None
  end.

(** The optional prefix: the text after [from] and its white space. *)
Definition after_from (s : string) : option string :=
  match s with
  | String "f" (String "r" (String "o" (String "m" (String c t)))) =>
      if Py.is_space c then Some (Py.lstrip t) else None
  | _ => None
  end.

(** [re.match(import_pattern, line)], group 1. *)
Definition match_import_pattern (line : string) : option string :=
  match after_from line with
  | Some rest =>
      match dotted_name rest with
      | Some m => Some m
      | None => dotted_name line
      end
  | None => dotted_name line
  end.

Definition line_imports (line : string) : gset string :=
  match match_import_pattern (Py.strip line) with
  | Some module => with_first_segment module
  | None => ∅
  end.

Section Imports.
(** [ast.parse] followed by [ast.walk], restricted to the import
    nodes; [None] is a [SyntaxError]. The Python parser itself is
    not part of the repository and stays a parameter. A content on
    which it raises anything else (a [ValueError] for a NUL byte up to
    Python 3.11, a [RecursionError]) is not a value of this parameter:
    there [parse_imports_from_test_files] raises, and nothing is stated
    here about it. *)
Variable ast_parse : string → option (list import_node).

Definition file_imports (file_path content : string) : gset string :=
  if negb (Py.endswith file_path ".py") then ∅
  else
    match ast_parse content with
    | Some nodes => ⋃ (node_imports <$> nodes)
    | None => ⋃ (line_imports <$> Py.split "010" content)
    end.

Definition parse_imports_from_test_files (test_files : fileset) : gset string :=
  ⋃ ((fun kv => file_imports kv.1 kv.2) <$> map_to_list test_files).
End Imports.

(** *** Source resolution *)

Definition stdlib_modules : list string :=
  ["sys"; "os"; "json"; "base64"; "subprocess"; "unittest"; "pytest";
   "typing"; "re"; "ast"; "collections"; "datetime"; "time"; "random";
   "math"].

(** The GitHub collaborator as the resolver uses it. The content of a
    file is asked for at a given moment (the number of content requests
    made before), so that a request may fail once and succeed later. *)
Record github : Type := Github {
  head_sha_out : result string;
  tree_out : result (list string);
  pr_files_out : result (list string);
  content_out : nat → string → result string;
}.

(** One content request: for which file, on behalf of which module, and
    whether it delivered. *)
Record fetch : Type := Fetch {
  f_path : string;
  f_module : string;
  f_fetched : bool;
}.

Record state : Type := State {
  source_files : fileset;
  matched_modules : gset string;
  fetches : list fetch;
}.

Definition init : state := State ∅ ∅ [].

Section Resolve.
Variable gh : github.
Variable existing_files : fileset.

(** [try: content = client.get_file_content(...); source_files[...] =
    content; ...; break / except Exception: ...] *)
Definition try_fetch (file_path module : string) (record_match : bool)
    (st : state) : bool * state :=
  match content_out gh (length (fetches st)) file_path with
  | Ok content =>
      (true,
       State (<[file_path := content]> (source_files st))
             (if record_match then {[module]} ∪ matched_modules st
              else matched_modules st)
             (fetches st ++ [Fetch file_path module true]))
  | Raise _ =>
      (false,
       State (source_files st) (matched_modules st)
             (fetches st ++ [Fetch file_path module false]))
  end.

Definition matches_file (file_name file_name_no_ext module : string) : bool :=
  String.eqb file_name_no_ext module || String.eqb file_name (module +:+ ".py").

Definition path_parts (file_path : string) : list string :=
  Py.split "/" (Py.replace_char "\" "/" file_path).

(** The inner loop over the modules, branch listing. *)
Fixpoint scan_modules (file_path : string) (modules : list string)
    (st : state) : state :=
  match modules with
  | [] => st
  | module :: rest =>
      let file_name := Py.basename file_path in
      let file_name_no_ext := Py.splitext_root file_name in
      if matches_file file_name file_name_no_ext module
         || bool_decide (module ∈ path_parts file_path)
      then
        match try_fetch file_path module true st with
        | (true, st') => st'
        | (false, st') => scan_modules file_path rest st'
        end
      else scan_modules file_path rest st
  end.

(** The inner loop over the modules, changed-files fallback. *)
Fixpoint scan_modules_fallback (file_path : string) (modules : list string)
    (st : state) : state :=
  match modules with
  | [] => st
  | module :: rest =>
      let file_name := Py.basename file_path in
      let file_name_no_ext := Py.splitext_root file_name in
      if matches_file file_name file_name_no_ext module
         || bool_decide (module ∈ path_parts file_path)
      then
        match try_fetch file_path module false st with
        | (true, st') => st'
        | (false, st') => scan_modules_fallback file_path rest st'
        end
      else scan_modules_fallback file_path rest st
  end.

Definition already_fetched (file_path : string) (st : state) : bool :=
  bool_decide (is_Some (existing_files !! file_path))
  || bool_decide (is_Some (source_files st !! file_path)).

Definition is_test_path (file_path : string) : bool :=
  Py.contains "test" (Py.lower file_path)
  || Py.endswith file_path "_test.py"
  || Py.endswith file_path "tests.py".

(** One turn of the loop over the branch listing. *)
Definition visit (modules : list string) (st : state) (file_path : string)
    : state :=
  if already_fetched file_path st then st
  else if is_test_path file_path then st
  else if negb (Py.endswith file_path ".py") then st
  else scan_modules file_path modules st.

(** One turn of the loop over the changed files. *)
Definition visit_fallback (modules : list string) (st : state)
    (file_path : string) : state :=
  if already_fetched file_path st then st
  else if Py.contains "test" (Py.lower file_path) then st
  else if negb (Py.endswith file_path ".py") then st
  else scan_modules_fallback file_path modules st.

(** [imported_modules] is the set in the order Python iterates it. *)
Definition resolve (imported_modules : list string) : result state :=
  match imported_modules with
  | [] => Ok init
  | _ =>
      _ ← head_sha_out gh;
      let filtered_modules :=
        filter (fun m => m ∉ stdlib_modules) imported_modules in
      match filtered_modules with
      | [] => Ok init
      | _ =>
          match tree_out gh with
          | Ok tree => Ok (foldl (visit filtered_modules) init tree)
          | Raise _ =>
              pr_files ← pr_files_out gh;
              Ok (foldl (visit_fallback filtered_modules) init pr_files)
          end
      end
  end.

Definition fetch_source_files_from_imports (imported_modules : list string)
    : result fileset :=
  source_files <$> resolve imported_modules.

End Resolve.

(** The files a log of requests delivered, in order; and those it
    delivered on behalf of one module. *)
Definition fetched_paths (log : list fetch) : list string :=
  f_path <$> filter (fun f => f_fetched f = true) log.

Definition fetched_for (module : string) (log : list fetch) : list string :=
  f_path <$> filter (fun f => f_fetched f = true ∧ f_module f = module) log.

(** What holds of the resolver's state all along: no file was delivered
    twice, the delivered files are the collected ones, and a collected
    file is a Python file that is neither a test file nor among the
    files fetched beforehand. *)
Definition sound (existing_files : fileset) (st : state) : Prop :=
  NoDup (fetched_paths (fetches st)) ∧
  (∀ p, p ∈ fetched_paths (fetches st) → is_Some (source_files st !! p)) ∧
  (∀ p, is_Some (source_files st !! p) →
        Py.contains "test" (Py.lower p) = false ∧
        existing_files !! p = None ∧
        Py.endswith p ".py" = true).

(** *** Choice of the test command *)

Definition detect_test_command (files : fileset) : string :=
  let test_files :=
    filter (fun f => Py.contains "test" (Py.lower f)
                     || Py.contains "spec" (Py.lower f))
           (map_to_list files).*1 in
  let text f := dict_get files f "" in
  if existsb (fun f => Py.endswith f ".py") test_files then
    if existsb (fun f => Py.contains "pytest" (text f)
                         || Py.contains "import pytest" (text f)) test_files
    then "python -m pytest"
    else if existsb (fun f => Py.contains "unittest" (text f)
                              || Py.contains "import unittest" (text f))
                    test_files
    then "python -m unittest discover"
    else "python -m pytest"
  else if existsb (fun f => Py.endswith f ".js" || Py.endswith f ".ts") test_files
  then "npm test"
  else if existsb (fun f => Py.endswith f ".java") test_files
  then "mvn test"
  else "python -m pytest".

End Resolver.

(** ** Records exchanged between the stages *)

(** A generated-test descriptor: display name and provenance note. *)
Record test_descr : Type := TestDescr {
  d_test : string;
  d_reason : string;
}.

(** The dictionary returned by [_run_tests_in_daytona]. *)
Record exec_result : Type := ExecResult {
  t_status : string;
  t_exitCode : option Z;
  t_output : string;
  t_generatedTests : list test_descr;
  t_error : option string;
}.

(** The dictionary returned by [process_pr]; [testError] and [gptError]
    are keys that may be absent. *)
Record pipeline_result : Type := PipelineResult {
  r_id : nat;
  r_title : json;
  r_link : json;
  r_risk : json;
  r_coderabbitReviews : list finding;
  r_generatedTests : list test_descr;
  r_testResults : option exec_result;
  r_testError : option string;
  r_gptError : option string;
}.

(** ** Risk scorer ([gpt_analyzer.py], class [GPTAnalyzer]) *)

Module Scorer.

(** The pattern [(\d+)\s+word], searched from the left: the number in
    front of the first occurrence. *)
Definition is_digit (c : ascii) : bool :=
  let n := nat_of_ascii c in (48 <=? n) && (n <=? 57).

Fixpoint digits (acc : N) (s : string) : N * string :=
  match s with
  | String c t =>
      if is_digit c
      then digits (10 * acc + N.of_nat (nat_of_ascii c - 48)) t
      else (acc, s)
  | "" => (acc, s)
  end.

Definition count_at (word s : string) : option N :=
  match s with
  | String c _ =>
      if is_digit c then
        match digits 0 s with
        | (n, String w rest) =>
            if Py.is_space w && String.prefix word (Py.lstrip rest)
            then Some n else None
        | _ => None
        end
      else None
  | "" => None
  end.

Fixpoint search_count (word s : string) : option N :=
  match s with
  | "" => None
  | String _ t =>
      match count_at word s with
      | Some n => Some n
      | None => search_count word t
      end
  end.

Definition counted (word output : string) : N :=
  if Py.contains word output
  then default 0%N (search_count word output) else 0%N.

(** The values interpolated into the prompt. The code-type label and
    the list of the first ten file names depend on the insertion order
    of [code_files] and are left out; neither can raise. *)
Record prompt : Type := Prompt {
  p_title : json;
  p_description : string;
  p_reviews : list finding;
  p_status : string;
  p_total : N;
  p_passed : N;
  p_failed : N;
  p_output : string;
  p_code_file_count : nat;
}.

(** [pr_info.get('body', 'N/A')[:500]] *)
Definition description_of (pr_info : gmap string json) : result string :=
  match dict_get pr_info "body" (JStr "N/A") with
  | JStr s => Ok (Py.take 500 s)
  | JNull => Raise "'NoneType' object is not subscriptable"
  | JBool _ => Raise "'bool' object is not subscriptable"
  | JNum _ => Raise "'int' object is not subscriptable"
  | JObj _ => Raise "unhashable type: 'slice'"
  end.

Definition _build_analysis_prompt (pr_info : gmap string json)
    (coderabbit_reviews : list finding) (test_results : option exec_result)
    (code_files : fileset) : result prompt :=
  let passed_tests := from_option (fun t => counted "passed" (t_output t)) 0%N test_results in
  let failed_tests := from_option (fun t => counted "failed" (t_output t)) 0%N test_results in
  let test_count := (passed_tests + failed_tests)%N in
  description ← description_of pr_info;
  Ok {| p_title := dict_get pr_info "title" (JStr "N/A");
        p_description := description;
        p_reviews := coderabbit_reviews;
        p_status := from_option t_status "no_tests" test_results;
        p_total := test_count;
        p_passed := passed_tests;
        p_failed := failed_tests;
        p_output := from_option (fun t => Py.take 1000 (t_output t)) "N/A" test_results;
        p_code_file_count := size code_files |}.

(** The record returned when the scoring call fails. *)
Definition default_analysis (e : exn) : json :=
  JObj (<["risk" := JNum 50]>
          (<["confidence" := JNum 0]>
             (<["reasoning" := JStr ("Error in GPT analysis: " +:+ e)]> ∅))).

Section Analyze.
(** The body of the [try]: the completion request, the extraction of
    the answer and [json.loads]; a failure of any of them is one
    [Raise]. *)
Variable scoring_call : prompt → result json.

Definition analyze_pr (pr_info : gmap string json)
    (coderabbit_reviews : list finding) (test_results : option exec_result)
    (code_files : fileset) : result json :=
  prompt ← _build_analysis_prompt pr_info coderabbit_reviews test_results code_files;
  match scoring_call prompt with
  | Ok analysis => Ok analysis
  | Raise e => Ok (default_analysis e)
  end.
End Analyze.

End Scorer.

(** ** The orchestrator ([pr_processor.py], class [PRProcessor]) *)

Module Pipeline.
Import TestRunner.

(** *** Stage 3: the sandbox run *)

(** What [_run_tests_in_daytona] receives from its collaborators. *)
Record test_stage : Type := TestStage {
  code_files_out : result fileset;
  test_files_out : result fileset;
  source_github : Resolver.github;
  sandbox_service : daytona;
}.

Definition initial_test_result : exec_result :=
  ExecResult "unknown" None "" [] None.

Section Run.
Variable ast_parse : string → option (list Resolver.import_node).
(** The display names derived from the test sources (a scan for
    [def test_...] in the order of the dictionary); it cannot raise. *)
Variable describe_tests : fileset → list test_descr.

Definition sandbox_run (d : daytona) (code_files test_files : fileset)
    : M exec_result :=
  _ ← create_sandbox d;
  try_finally
    (_ ← setup_environment d code_files test_files;
     _ ← install_dependencies d None;
     let test_command :=
       Resolver.detect_test_command (dict_unpack2 code_files test_files) in
     test_result ← run_tests d test_command;
     ret (ExecResult
            (if (test_result.1 =? 0)%Z then "passed" else "failed")
            (Some test_result.1)
            test_result.2
            (describe_tests test_files)
            None))
    (cleanup d).

Definition _run_tests_in_daytona (w : test_stage) : M exec_result :=
  try_except
    (code_files ← lift (code_files_out w);
     test_files ← lift (test_files_out w);
     if bool_decide (test_files = ∅) then
       ret (ExecResult "no_tests" None "" [] None)
     else
       let imported_modules :=
         Resolver.parse_imports_from_test_files ast_parse test_files in
       code_files ←
         (if bool_decide (imported_modules = ∅) then ret code_files
          else
            source_files ←
              lift (Resolver.fetch_source_files_from_imports
                      (source_github w) code_files
                      (elements imported_modules));
            ret (dict_insert_all source_files code_files));
       sandbox_run (sandbox_service w) code_files test_files)
    (fun e => ret (ExecResult "error" None "" [] (Some e))).

(** *** Stage 4: application of the scorer's answer *)

(** [name in updates] *)
Definition py_in (name updates : json) : result bool :=
  match updates, name with
  | JObj m, JStr s => Ok (bool_decide (is_Some (m !! s)))
  | JObj _, JObj _ => Raise "unhashable type: 'dict'"
  | JObj _, _ => Ok false
  | JStr t, JStr s => Ok (Py.contains s t)
  | JStr _, _ =>
      Raise ("'in <string>' requires string as left operand, not "
             +:+ py_type_name name)
  | _, _ =>
      Raise ("argument of type '" +:+ py_type_name updates
             +:+ "' is not iterable")
  end.

(** [updates[name]]; the text of a [KeyError] is the key as [repr]
    shows it (for a string key: between quotes, here without the escapes
    of [repr]). *)
Definition py_index (updates name : json) : result json :=
  match updates, name with
  | JObj m, JStr s =>
      match m !! s with
      | Some v => Ok v
      | None => Raise ("'" +:+ s +:+ "'")
      end
  | JObj _, JObj _ => Raise "unhashable type: 'dict'"
  | JObj _, JNull => Raise "None"
  | JObj _, JBool b => Raise (if b then "True" else "False")
  | JObj _, JNum n => Raise (pretty n)
  | JStr t, JNum n =>
      match Py.item n t with
      | Some c => Ok (JStr c)
      | None => Raise "string index out of range"
      end
  | JStr t, JBool b =>
      match Py.item (if b then 1 else 0) t with
      | Some c => Ok (JStr c)
      | None => Raise "string index out of range"
      end
  | JStr _, _ =>
      Raise ("string indices must be integers, not '"
             +:+ py_type_name name +:+ "'")
  | _, _ =>
      Raise ("'" +:+ py_type_name updates +:+ "' object is not subscriptable")
  end.

(** [review.update(u)] *)
Definition dict_update (review : finding) (u : json) : result finding :=
  match u with
  | JObj o => Ok (dict_insert_all o review)
  | JStr "" => Ok review
  | JStr _ =>
      Raise "dictionary update sequence element #0 has length 1; 2 is required"
  | _ => Raise ("'" +:+ py_type_name u +:+ "' object is not iterable")
  end.

(** One turn of [for review in result["coderabbitReviews"]]. *)
Definition update_review (analysis : gmap string json) (review : finding)
    : result finding :=
  hit ← py_in (dict_get review "name" JNull)
              (dict_get analysis "reviewUpdates" (JObj ∅));
  if hit : bool then
    updates ← match analysis !! "reviewUpdates" with
              | Some u => Ok u
              | None => Raise "'reviewUpdates'"
              end;
    name ← match review !! "name" with
           | Some n => Ok n
           | None => Raise "'name'"
           end;
    u ← py_index updates name;
    dict_update review u
  else Ok review.

(** The loop: the reviews are updated in place, one after the other;
    an exception leaves the later ones as they were. *)
Fixpoint update_reviews (analysis : gmap string json) (reviews : list finding)
    : list finding * option exn :=
  match reviews with
  | [] => ([], None)
  | review :: rest =>
      match update_review analysis review with
      | Ok review' =>
          let '(rest', e) := update_reviews analysis rest in
          (review' :: rest', e)
      | Raise e => (review :: rest, Some e)
      end
  end.

(** *** One PR *)

(** What [process_pr] receives from its collaborators. *)
Record pr_world : Type := PRWorld {
  pr_info_out : result (gmap string json);
  has_review_out : result bool;
  comments_out : result (list comment);
  trigger_out : result (gmap string json);
  test_pr_out : result (option nat);
  stage : test_stage;
  pr_files_out : result fileset;
  scoring_call : Scorer.prompt → result json;
}.

(** Step 2 and 3, inside their [try]. *)
Definition test_step (w : pr_world) (res : pipeline_result) : M pipeline_result :=
  try_except
    (_ ← lift (trigger_out w);
     test_pr ← lift (test_pr_out w);
     match test_pr with
     | Some _ =>
         test_results ← _run_tests_in_daytona (stage w);
         ret (PipelineResult (r_id res) (r_title res) (r_link res) (r_risk res)
                (r_coderabbitReviews res)
                (t_generatedTests test_results)
                (Some test_results)
                (r_testError res) (r_gptError res))
     | None => ret res
     end)
    (fun e =>
       ret (PipelineResult (r_id res) (r_title res) (r_link res) (r_risk res)
              (r_coderabbitReviews res) (r_generatedTests res)
              (r_testResults res) (Some e) (r_gptError res))).

Definition with_gpt_error (e : exn) (res : pipeline_result) : pipeline_result :=
  PipelineResult (r_id res) (r_title res) (r_link res) (r_risk res)
    (r_coderabbitReviews res) (r_generatedTests res) (r_testResults res)
    (r_testError res) (Some e).

(** Step 4, inside its [try]. *)
Definition gpt_step (w : pr_world) (pr_info : gmap string json)
    (res : pipeline_result) : pipeline_result :=
  match
    code_files ← pr_files_out w;
    Scorer.analyze_pr (scoring_call w) pr_info (r_coderabbitReviews res)
      (r_testResults res) code_files
  with
  | Raise e => with_gpt_error e res
  | Ok (JObj analysis) =>
      let '(reviews, e) :=
        update_reviews analysis (r_coderabbitReviews res) in
      PipelineResult (r_id res) (r_title res) (r_link res)
        (dict_get analysis "risk" (JNum 0))
        reviews (r_generatedTests res) (r_testResults res)
        (r_testError res)
        (match e with Some e => Some e | None => r_gptError res end)
  | Ok analysis =>
      with_gpt_error
        ("'" +:+ py_type_name analysis +:+ "' object has no attribute 'get'") res
  end.

Definition process_pr (w : pr_world) (has_test_runner has_gpt_analyzer : bool)
    (pr_number : nat) (skip_tests skip_gpt : bool) : M pipeline_result :=
  pr_info ← lift (pr_info_out w);
  let result :=
    PipelineResult pr_number
      (dict_get pr_info "title" (JStr "N/A"))
      (dict_get pr_info "html_url" (JStr ""))
      (JNum 0) [] [] None None None in
  has_review ← lift (has_review_out w);
  reviews ←
    (if has_review : bool then
       coderabbit_comments ← lift (comments_out w);
       ret (Tracker.collect_findings coderabbit_comments)
     else ret []);
  let result :=
    PipelineResult (r_id result) (r_title result) (r_link result)
      (r_risk result) reviews (r_generatedTests result)
      (r_testResults result) (r_testError result) (r_gptError result) in
  result ←
    (if negb skip_tests && has_test_runner then test_step w result
     else ret result);
  ret (if negb skip_gpt && has_gpt_analyzer
       then gpt_step w pr_info result else result).

End Run.

End Pipeline.

(** ** The batch driver ([main.py], the loop of [main]) *)

Module Batch.
Import TestRunner.

(** One pull request of the listing, with what the world answers while
    it is processed and when the checkpoint after it is written. *)
Record item : Type := Item {
  it_number : nat;
  it_title : json;
  it_link : json;
  it_world : Pipeline.pr_world;
  it_save_out : result unit;
}.

(** An element of [results["pullRequests"]]: the dictionary returned by
    [process_pr], or the error entry built by the [except] branch. *)
Inductive entry : Type :=
  | Processed (r : pipeline_result)
  | ErrorEntry (id : nat) (title link : json) (error : string) (risk : json).

Definition entry_id (e : entry) : nat :=
  match e with
  | Processed r => r_id r
  | ErrorEntry id _ _ _ _ => id
  end.

Definition entry_risk (e : entry) : json :=
  match e with
  | Processed r => r_risk r
  | ErrorEntry _ _ _ _ risk => risk
  end.

Section Loop.
Variable ast_parse : string → option (list Resolver.import_node).
Variable describe_tests : fileset → list test_descr.
Variables skip_tests skip_gpt : bool.

Definition error_entry (it : item) (e : exn) : entry :=
  ErrorEntry (it_number it) (it_title it) (it_link it) e (JNum 0).

(** The body of the loop for the [i]-th pull request (from 1): what it
    appends to the results, and the runner it leaves. *)
Definition step (i : nat) (it : item) (rn : runner) : list entry * runner :=
  match
    Pipeline.process_pr ast_parse describe_tests (it_world it)
      (negb skip_tests) (negb skip_gpt) (it_number it) skip_tests skip_gpt rn
  with
  | (Ok pr_result, rn') =>
      if i mod 5 =? 0 then
        match it_save_out it with
        | Ok _ => ([Processed pr_result], rn')
        | Raise e => ([Processed pr_result; error_entry it e], rn')
        end
      else ([Processed pr_result], rn')
  | (Raise e, rn') => ([error_entry it e], rn')
  end.

Fixpoint loop (i : nat) (prs : list item) (rn : runner) : list entry * runner :=
  match prs with
  | [] => ([], rn)
  | it :: rest =>
      let '(appended, rn') := step i it rn in
      let '(later, rn'') := loop (S i) rest rn' in
      (appended ++ later, rn'')
  end.

(** [results["pullRequests"]] when the loop is over. *)
Definition pull_requests (prs : list item) (rn : runner) : list entry :=
  (loop 1 prs rn).1.
End Loop.

End Batch.

(** ** How Python reads the command back

    The execution snippet is Python source; the command sits in it as one
    or more adjacent string literals, which the interpreter concatenates.
    [PyLex.scan] reads plain (unprefixed, single-line) literals the way the
    Python tokenizer does. *)

Module PyLex.

Inductive outcome : Type :=
  | Parsed (value rest : string)
  | SyntaxErr
  | Unmodelled.

Definition push (c : ascii) (o : outcome) : outcome :=
  match o with
  | Parsed v rest => Parsed (String c v) rest
  | _ => o
  end.

Definition is_quote (c : ascii) : bool :=
  Ascii.eqb c "'" || Ascii.eqb c "034".

(** Two more quotes of the same kind open a triple-quoted literal. *)
Definition opens_triple (q : ascii) (s : string) : bool :=
  match s with
  | String c1 s' =>
      Ascii.eqb c1 q &&
      match s' with
      | String c2 _ => Ascii.eqb c2 q
      | "" => false
      end
  | "" => false
  end.

Definition ends_line (c : ascii) : bool :=
  Ascii.eqb c "010" || Ascii.eqb c "013" || Ascii.eqb c "000".

Inductive escape : Type :=
  | EscChar (c : ascii)
  | EscJoin
  | EscKept
  | EscOther.

(** The character after a backslash. Octal, hexadecimal and Unicode
    escapes are not modelled. *)
Definition escape_of (c : ascii) : escape :=
  let n := nat_of_ascii c in
  if Ascii.eqb c "\" || Ascii.eqb c "'" || Ascii.eqb c "034" then EscChar c
  else if Ascii.eqb c "a" then EscChar "007"
  else if Ascii.eqb c "b" then EscChar "008"
  else if Ascii.eqb c "f" then EscChar "012"
  else if Ascii.eqb c "n" then EscChar "010"
  else if Ascii.eqb c "r" then EscChar "013"
  else if Ascii.eqb c "t" then EscChar "009"
  else if Ascii.eqb c "v" then EscChar "011"
  else if Ascii.eqb c "010" then EscJoin
  else if (48 <=? n) && (n <=? 55) then EscOther
  else if Ascii.eqb c "x" || Ascii.eqb c "N" || Ascii.eqb c "u"
          || Ascii.eqb c "U" || Ascii.eqb c "013" || Ascii.eqb c "000"
  then EscOther
  else EscKept.

(** [scan None s]: [s] starts a sequence of adjacent literals, which
    ends at a comma. [scan (Some q) s]: inside a literal opened by [q]. *)
Fixpoint scan (inside : option ascii) (s : string) : outcome :=
  match inside, s with
  | None, "" => Unmodelled
  | None, String c t =>
      if is_quote c then
        if opens_triple c t then Unmodelled else scan (Some c) t
      else if Ascii.eqb c "," then Parsed "" s
      else Unmodelled
  | Some _, "" => SyntaxErr
  | Some q, String c t =>
      if Ascii.eqb c q then scan None t
      else if ends_line c then SyntaxErr
      else if Ascii.eqb c "\" then
        match t with
        | "" => SyntaxErr
        | String e t' =>
            match escape_of e with
            | EscChar x => push x (scan (Some q) t')
            | EscJoin => scan (Some q) t'
            | EscKept => push "\" (push e (scan (Some q) t'))
            | EscOther => Unmodelled
            end
        end
      else push c (scan (Some q) t)
  end.

Fixpoint strip_prefix (p s : string) : option string :=
  match p, s with
  | "", _ => Some s
  | String a p', String b s' =>
      if Ascii.eqb a b then strip_prefix p' s' else None
  | _, "" => None
  end.

(** The command [subprocess.run] receives when the snippet is run: the
    first argument of the call, read back from the source text. *)
Definition command_in (code : string) : outcome :=
  match strip_prefix TestRunner.snippet_head code with
  | Some argument => scan None argument
  | None => SyntaxErr
  end.

(** The characters the quoting of [run_tests] does not take care of. *)
Definition is_plain (c : ascii) : bool :=
  negb (Ascii.eqb c "\" || ends_line c).

Fixpoint all_plain (s : string) : bool :=
  match s with
  | "" => true
  | String c t => is_plain c && all_plain t
  end.

End PyLex.

(** ** The GitHub client ([github_client.py], class [GitHubAPIClient]) *)

Module Github.

(** The three comment surfaces of a pull request, as the API answers. *)
Record surfaces : Type := Surfaces {
  issue_comments_out : result (list comment);
  review_comments_out : result (list comment);
  reviews_out : result (list comment);
}.

Definition by_bot (c : comment) : bool :=
  Py.contains "coderabbit" (Py.lower (c_login c)).

Definition check_coderabbit_review (s : surfaces) : result bool :=
  comments ← issue_comments_out s;
  if existsb by_bot comments then Ok true
  else
    review_comments ← review_comments_out s;
    if existsb by_bot review_comments then Ok true
    else
      reviews ← reviews_out s;
      Ok (existsb by_bot reviews).

Definition get_coderabbit_comments (s : surfaces) : result (list comment) :=
  comments ← issue_comments_out s;
  review_comments ← review_comments_out s;
  Ok (filter (fun c => by_bot c = true) comments
      ++ filter (fun c => by_bot c = true) review_comments).

(** A pull request of a listing: number, title, body (absent, or any JSON
    value: GitHub sends [null] for an empty description) and the author's
    login. *)
Record pull : Type := Pull {
  p_number : nat;
  p_title : string;
  p_body : option json;
  p_login : string;
}.

Definition keywords (original_pr_number : nat) : list string :=
  ["unit test"; "test for pr"; "generated test"; "coderabbit";
   "pr #" +:+ pretty original_pr_number;
   "pr " +:+ pretty original_pr_number].

(** [pr.get('body', '').lower()] *)
Definition body_lower (pr : pull) : result string :=
  match p_body pr with
  | None => Ok ""
  | Some (JStr s) => Ok (Py.lower s)
  | Some JNull => Raise "'NoneType' object has no attribute 'lower'"
  | Some (JBool _) => Raise "'bool' object has no attribute 'lower'"
  | Some (JNum _) => Raise "'int' object has no attribute 'lower'"
  | Some (JObj _) => Raise "'dict' object has no attribute 'lower'"
  end.

Definition mentions_tests (original_pr_number : nat) (title body : string) : bool :=
  existsb (fun keyword => Py.contains keyword title || Py.contains keyword body)
    (keywords original_pr_number).

Definition by_some_bot (pr : pull) : bool :=
  let user := Py.lower (p_login pr) in
  Py.contains "coderabbit" user || Py.contains "bot" user.

(** What makes the loop return a pull request: it is not the original
    one, its title or body has a keyword, and its author looks like a
    bot. *)
Definition qualifies (original_pr_number : nat) (pr : pull) : bool :=
  negb (p_number pr =? original_pr_number) &&
  match body_lower pr with
  | Ok body =>
      mentions_tests original_pr_number (Py.lower (p_title pr)) body
      && by_some_bot pr
  | Raise _ => false
  end.

(** One of the two loops of [find_coderabbit_test_pr]. *)
Fixpoint search (original_pr_number : nat) (prs : list pull) : result (option pull) :=
  match prs with
  | [] => Ok None
  | pr :: rest =>
      let title := Py.lower (p_title pr) in
      body ← body_lower pr;
      if p_number pr =? original_pr_number then search original_pr_number rest
      else if mentions_tests original_pr_number title body && by_some_bot pr
      then Ok (Some pr)
      else search original_pr_number rest
  end.

(** What [find_coderabbit_test_pr] receives. *)
Record listing : Type := Listing {
  original_out : result unit;
  open_out : result (list pull);
  closed_out : result (list pull);
}.

Definition find_coderabbit_test_pr (w : listing) (original_pr_number : nat)
    : result (option pull) :=
  _ ← original_out w;
  prs ← open_out w;
  found ← search original_pr_number prs;
  match found with
  | Some pr => Ok (Some pr)
  | None =>
      prs ← closed_out w;
      search original_pr_number (take 10 prs)
  end.

End Github.

(** ** The command line of the batch ([main.py]) *)

Module Main.

(** [sep.join(parts)] *)
Fixpoint join (sep : string) (parts : list string) : string :=
  match parts with
  | [] => ""
  | [part] => part
  | part :: rest => part +:+ sep +:+ join sep rest
  end.

Definition invalid_repo (repo_name : string) : exn :=
  "Invalid repo format: " +:+ repo_name +:+ ". Expected format: 'owner/repo'".

Definition parse_repo_name (repo_name : string) : result (string * string) :=
  if Py.contains "/" repo_name then
    match Py.split "/" repo_name with
    | [owner; repo] => Ok (owner, repo)
    | _ => Raise (invalid_repo repo_name)
    end
  else Raise (invalid_repo repo_name).

(** [if args.max_prs: prs = prs[:args.max_prs]] *)
Definition select_prs {A : Type} (max_prs : option Z) (prs : list A) : list A :=
  match max_prs with
  | None => prs
  | Some n =>
      if (n =? 0)%Z then prs
      else if (0 <? n)%Z then take (Z.to_nat n) prs
      else take (length prs - Z.to_nat (- n)) prs
  end.

End Main.

(** ** Fetching the files of a pull request
    ([run_tests_daytona.py], [prepare_files_from_pr]) *)

Module Files.

Record changed_file : Type := ChangedFile {
  cf_filename : string;
  cf_status : string;
}.

(** The GitHub collaborator as [prepare_files_from_pr] uses it: the
    head commit read off the pull request ([info_out] fails when the
    request or the lookup of [head.sha] does), the paths of the branch
    listing, and the changed files, each with the name and the status
    GitHub sends for it. The content of a file is asked for at a given
    moment, as in [Resolver]. *)
Record source : Type := Source {
  info_out : result string;
  tree_out : result (list string);
  changed_out : result (list changed_file);
  content_out : nat → string → result string;
}.

Record state : Type := State {
  files : fileset;
  requests : list (string * bool);
}.

Definition init : state := State ∅ [].

(** [try: files[file_path] = client.get_file_content(...) / except: ...] *)
Definition fetch (w : source) (st : state) (file_path : string) : state :=
  match content_out w (length (requests st)) file_path with
  | Ok content =>
      State (<[file_path := content]> (files st))
            (requests st ++ [(file_path, true)])
  | Raise _ => State (files st) (requests st ++ [(file_path, false)])
  end.

Definition is_source_path (file_path : string) : bool :=
  Py.endswith file_path ".py" && negb (Py.contains "test" (Py.lower file_path)).

Definition is_kept (f : changed_file) : bool :=
  bool_decide (cf_status f ∈ ["added"; "modified"]).

Definition changed_files (w : source) (st : state) : result state :=
  pr_files ← changed_out w;
  Ok (foldl (fetch w) st
        (cf_filename <$> filter (fun f => is_kept f = true) pr_files)).

Definition prepare (w : source) (fetch_all : bool) : result state :=
  _ ← info_out w;
  if fetch_all then
    match tree_out w with
    | Ok tree =>
        Ok (foldl (fetch w) init
              (filter (fun p => is_source_path p = true) tree))
    | Raise _ => changed_files w init
    end
  else changed_files w init.

Definition prepare_files_from_pr (w : source) (fetch_all : bool) : result fileset :=
  files <$> prepare w fetch_all.

End Files.

(** ** The code-type label ([gpt_analyzer.py], [_analyze_code_type])

    The label depends on the order of the dictionary (the content sample
    is made of its first three values), so here [code_files] is the list
    of its items in insertion order. *)

Module CodeType.

Definition _analyze_code_type (code_files : list (string * string)) : string :=
  let file_names := Py.lower (Main.join " " code_files.*1) in
  let content_sample :=
    match code_files with
    | [] => ""
    | _ => Py.lower (Main.join " " (take 3 code_files.*2))
    end in
  let combined := file_names +:+ " " +:+ content_sample in
  if Py.contains_any ["auth"; "login"; "token"; "password"; "session"] combined
  then "authentication"
  else if Py.contains_any ["db"; "database"; "sql"; "query"; "model"] combined
  then "database"
  else if Py.contains_any ["api"; "endpoint"; "route"; "handler"] combined
  then "api"
  else if Py.contains_any ["payment"; "stripe"; "paypal"; "billing"] combined
  then "payment"
  else "general".

End CodeType.

(** ** Well-formed sequences of sandbox calls

    [bracketed None evs]: the calls come in runs, each the creation of a
    sandbox, calls addressed to that sandbox, and its deletion. *)

Module Calls.
Import TestRunner.

Fixpoint bracketed (current : option handle) (evs : list event) : bool :=
  match evs with
  | [] => match current with None => true | Some _ => false end
  | EvCreate h :: rest =>
      match current with
      | None => bracketed (Some h) rest
      | Some _ => false
      end
  | EvDelete h _ :: rest =>
      match current with
      | Some h' => (h =? h') && bracketed None rest
      | None => false
      end
  | EvMaterialize h _ :: rest | EvInstall h _ :: rest | EvExecute h _ :: rest =>
      match current with
      | Some h' => (h =? h') && bracketed current rest
      | None => false
      end
  end.

End Calls.

(** * Properties *)

(** ** Dictionaries *)

Lemma dict_insert_all_union {V : Type} (src dst : gmap string V) :
  dict_insert_all src dst = src ∪ dst.
Proof.
  unfold dict_insert_all.
  apply (map_fold_weak_ind (fun r m => r = m ∪ dst)).
  - by rewrite (left_id_L ∅ (∪)).
  - intros i x m r _ ->. by rewrite insert_union_l.
Qed.

Lemma dict_unpack2_union {V : Type} (a b : gmap string V) :
  dict_unpack2 a b = b ∪ a.
Proof.
  unfold dict_unpack2. rewrite !dict_insert_all_union.
  by rewrite (right_id_L ∅ (∪)).
Qed.


(** ** Strings *)

Lemma take_length (n : nat) (s : string) :
  n ≤ Py.len s → Py.len (Py.take n s) = n.
Proof.
  revert n. induction s as [|c s IH]; intros n Hn; simpl in *.
  - lia.
  - destruct (Py.is_continuation c) eqn:Hc; simpl; rewrite ?Hc.
    + by apply IH.
    + destruct n as [|n]; [done|]. simpl. rewrite Hc, IH; [done|lia].
Qed.

Lemma take_prefix (n : nat) (s : string) :
  String.prefix (Py.take n s) s = true.
Proof.
  revert n. induction s as [|c s IH]; intros n; simpl; [done|].
  destruct (Py.is_continuation c).
  - simpl. destruct (ascii_dec c c); [apply IH | done].
  - destruct n as [|n]; [done|]. simpl.
    destruct (ascii_dec c c); [apply IH | done].
Qed.

Lemma take_all (n : nat) (s : string) :
  Py.len s ≤ n → Py.take n s = s.
Proof.
  revert n. induction s as [|c s IH]; intros n Hn; simpl in *; [done|].
  destruct (Py.is_continuation c).
  - f_equal. by apply IH.
  - destruct n as [|n]; [lia|]. f_equal. apply IH. lia.
Qed.

(** ** Merging the two file sets (C9) *)

(** C9. When the code files and the test files are merged before
    materialization, a path present in both maps to the test file's
    content, and a path present in exactly one of the two keeps its
    content; nothing else is in the merged set. This is the file set that
    [setup_environment] hands to the sandbox. *)
Theorem merged_files_test_precedence (code_files test_files : fileset) (path : string) :
  let all_files := dict_unpack2 code_files test_files in
  (∀ t, test_files !! path = Some t → all_files !! path = Some t) ∧
  (∀ c, code_files !! path = Some c → test_files !! path = None →
        all_files !! path = Some c) ∧
  (code_files !! path = None → test_files !! path = None →
   all_files !! path = None) ∧
  (∀ d h r, TestRunner.sandbox r = Some h →
     (TestRunner.setup_environment d code_files test_files r).2 =
     TestRunner.log (TestRunner.EvMaterialize h all_files) r).
Proof.
  cbn zeta. rewrite dict_unpack2_union. repeat split.
  - intros t Ht. by rewrite lookup_union, Ht, union_Some_l.
  - intros c Hc Ht. by rewrite lookup_union_r.
  - intros Hc Ht. by rewrite lookup_union_r.
  - intros d h r Hr. unfold TestRunner.setup_environment.
    rewrite Hr, dict_unpack2_union.
    destruct (TestRunner.materialize_out d _) as [[? ?]|]; done.
Qed.

(** ** Classification of bot comments (C6, C10) *)

Lemma extract_review_info_bot (c : comment) :
  Py.contains Tracker.bot_marker (Py.lower (c_login c)) = true →
  ∃ f, Tracker._extract_review_info c = Some f ∧
       f !! "name" = Some (JStr Tracker.finding_name) ∧
       f !! "type" =
         Some (JStr (Tracker.severity_label (Tracker.spec_classify (c_body c)))) ∧
       f !! "description" = Some (JStr (Tracker.describe (c_body c))).
Proof.
  intros Hbot. unfold Tracker._extract_review_info. rewrite Hbot. simpl negb.
  cbv iota. eexists. split; [reflexivity|].
  unfold Tracker.spec_classify, Tracker.spec_rules, Tracker.first_match.
  change ["error"; "bug"; "security"; "vulnerability"] with Tracker.danger_keywords.
  change ["warning"; "suggestion"; "improvement"] with Tracker.warning_keywords.
  change ["good"; "approved"; "passed"] with Tracker.success_keywords.
  destruct (Py.contains_any Tracker.danger_keywords _);
    [|destruct (Py.contains_any Tracker.warning_keywords _);
      [|destruct (Py.contains_any Tracker.success_keywords _)]];
    repeat split; by simplify_map_eq.
Qed.

Lemma contains_any_elem (kws : list string) (k s : string) :
  k ∈ kws → Py.contains k s = true → Py.contains_any kws s = true.
Proof.
  intros Hk Hs. unfold Py.contains_any. apply existsb_exists.
  exists k. split; [by apply list_elem_of_In|done].
Qed.

(** C6. For a comment of the bot, the finding's severity is the outcome of
    the ordered rule list (danger, warning, success, else info) on the
    lower-cased body, so a body containing "security", or any other danger
    keyword, is classified danger whatever else it contains; and the
    description is the body when it has at most 200 characters, and else
    its first 200 characters followed by the ellipsis marker. Characters
    are counted as Python counts them, by code point. *)
Theorem classification_first_match_wins (c : comment) :
  Py.contains Tracker.bot_marker (Py.lower (c_login c)) = true →
  ∃ f ty descr,
    Tracker._extract_review_info c = Some f ∧
    f !! "type" = Some (JStr ty) ∧
    f !! "description" = Some (JStr descr) ∧
    let body := Py.lower (c_body c) in
    ty = Tracker.severity_label (Tracker.spec_classify (c_body c)) ∧
    (Py.contains "security" body = true → ty = "danger") ∧
    (Py.contains_any ["error"; "bug"; "security"; "vulnerability"] body = true →
     ty = "danger") ∧
    (Py.contains_any ["error"; "bug"; "security"; "vulnerability"] body = false →
     Py.contains_any ["warning"; "suggestion"; "improvement"] body = true →
     ty = "warning") ∧
    (Py.contains_any ["error"; "bug"; "security"; "vulnerability"] body = false →
     Py.contains_any ["warning"; "suggestion"; "improvement"] body = false →
     Py.contains_any ["good"; "approved"; "passed"] body = true →
     ty = "success") ∧
    (Py.contains_any ["error"; "bug"; "security"; "vulnerability"] body = false →
     Py.contains_any ["warning"; "suggestion"; "improvement"] body = false →
     Py.contains_any ["good"; "approved"; "passed"] body = false →
     ty = "info") ∧
    (Py.len (c_body c) ≤ 200 → descr = c_body c) ∧
    (200 < Py.len (c_body c) →
     ∃ head, descr = head +:+ "..." ∧ Py.len head = 200 ∧
             String.prefix head (c_body c) = true).
Proof.
  intros Hbot.
  destruct (extract_review_info_bot c Hbot) as (f & Hf & _ & Hty & Hd).
  exists f, (Tracker.severity_label (Tracker.spec_classify (c_body c))),
    (Tracker.describe (c_body c)).
  split; [done|]. split; [done|]. split; [done|]. cbn zeta.
  assert (Hdanger :
    Py.contains_any ["error"; "bug"; "security"; "vulnerability"]
      (Py.lower (c_body c)) = true →
    Tracker.severity_label (Tracker.spec_classify (c_body c)) = "danger").
  { intros H. unfold Tracker.spec_classify, Tracker.spec_rules. simpl.
    unfold Py.contains_any in H. simpl in H. by rewrite H. }
  split; [done|]. split.
  { intros Hsec. apply Hdanger.
    apply (contains_any_elem _ "security"); [set_solver|done]. }
  split; [done|].
  unfold Tracker.spec_classify, Tracker.spec_rules, Tracker.first_match.
  split; [by intros -> ->|]. split; [by intros -> -> ->|].
  split; [by intros -> -> ->|].
  unfold Tracker.describe. split.
  - intros Hlen. by destruct (Nat.ltb_spec 200 (Py.len (c_body c))); [lia|].
  - intros Hlen. destruct (Nat.ltb_spec 200 (Py.len (c_body c))); [|lia].
    exists (Py.take 200 (c_body c)). split; [done|].
    split; [apply take_length; lia | apply take_prefix].
Qed.

Lemma classification_first_match_wins_witness :
  ∃ f ty descr,
    Tracker._extract_review_info
      (Comment "coderabbitai[bot]" "Looks good, approved. One SECURITY warning.")
      = Some f ∧
    f !! "type" = Some (JStr ty) ∧ f !! "description" = Some (JStr descr) ∧
    ty = "danger".
Proof.
  destruct (classification_first_match_wins
              (Comment "coderabbitai[bot]"
                 "Looks good, approved. One SECURITY warning."))
    as (f & ty & descr & Hf & Hty & Hd & _ & Hsec & _).
  - vm_compute. reflexivity.
  - exists f, ty, descr. repeat split; try done. apply Hsec.
    vm_compute. reflexivity.
Defined.

(** A body of 150 accented letters takes 300 bytes and is kept whole; one
    of 201 is cut after the 200th letter, not in the middle of one. *)
Lemma describe_counts_code_points :
  let e_acute := String "195" (String "169" "") in
  let body n := String.concat "" (replicate n e_acute) in
  String.length (body 150) = 300 ∧
  Tracker.describe (body 150) = body 150 ∧
  Tracker.describe (body 201) = body 200 +:+ "...".
Proof. cbn zeta. repeat split; vm_compute; reflexivity. Qed.

Lemma merged_files_test_precedence_witness :
  let code_files : fileset := <["app/auth.py" := "code"]> (<["conftest.py" := "old"]> ∅) in
  let test_files : fileset := <["conftest.py" := "new"]> (<["test_auth.py" := "test"]> ∅) in
  dict_unpack2 code_files test_files !! "conftest.py" = Some "new" ∧
  dict_unpack2 code_files test_files !! "app/auth.py" = Some "code".
Proof.
  cbn zeta.
  pose proof (merged_files_test_precedence
                (<["app/auth.py" := "code"]> (<["conftest.py" := "old"]> ∅))
                (<["conftest.py" := "new"]> (<["test_auth.py" := "test"]> ∅))
                "conftest.py") as [Hboth _].
  pose proof (merged_files_test_precedence
                (<["app/auth.py" := "code"]> (<["conftest.py" := "old"]> ∅))
                (<["conftest.py" := "new"]> (<["test_auth.py" := "test"]> ∅))
                "app/auth.py") as (_ & Hone & _).
  split; [apply Hboth | apply Hone]; reflexivity.
Defined.







(** ** Sandbox disposal (C8) *)

Section Disposal.
Import TestRunner.
Variable ast_parse : string → option (list Resolver.import_node).
Variable describe_tests : fileset → list test_descr.

Lemma cleanup_total (d : daytona) (r : runner) :
  ∃ r', cleanup d r = (Ok tt, r') ∧
        sandbox r' = sandbox r ∧
        trace r' =
          trace r ++
          match sandbox r with
          | Some h => [EvDelete h (is_ok (delete_out d h))]
          | None => []
          end.
Proof.
  unfold cleanup, try_except, delete_sandbox.
  destruct (sandbox r) as [h|] eqn:Hs.
  - destruct (delete_out d h); eexists; (split; [reflexivity|]); done.
  - eexists. split; [reflexivity|]. by rewrite app_nil_r.
Qed.

(** Once the sandbox exists, the run ends with its deletion, however the
    steps in between go. *)
Lemma sandbox_run_disposes (d : daytona) (code_files test_files : fileset)
    (r : runner) (h : handle) :
  create_out d = Ok h →
  ∃ o r' evs,
    Pipeline.sandbox_run describe_tests d code_files test_files r = (o, r') ∧
    trace r' = trace r ++ EvCreate h :: evs ∧
    last evs = Some (EvDelete h (is_ok (delete_out d h))) ∧
    (is_ok (materialize_out d (dict_unpack2 code_files test_files)) = false →
     is_ok o = false) ∧
    (is_ok (install_out d ["pytest"]) = false → is_ok o = false).
Proof.
  intros Hc.
  unfold Pipeline.sandbox_run, mbind, M_bind, bind, create_sandbox, try_finally.
  rewrite Hc.
  unfold setup_environment, install_dependencies, run_tests, cleanup, try_except,
    delete_sandbox, log, ret; simpl.
  destruct (materialize_out d _) as [[? ?]|?]; simpl;
    [destruct (install_out d _) as [[? ?]|?]; simpl;
     [destruct (execute_out d _) as [[? ?]|?]; simpl|]|];
    destruct (delete_out d h); simpl;
    do 3 eexists; (split; [reflexivity|]); simpl;
    rewrite <- ?app_assoc; simpl; (split; [reflexivity|]);
    (split; [reflexivity|]); split; intros; done.
Qed.

Lemma sandbox_run_no_sandbox (d : daytona) (code_files test_files : fileset)
    (r : runner) (e : exn) :
  create_out d = Raise e →
  Pipeline.sandbox_run describe_tests d code_files test_files r = (Raise e, r).
Proof.
  intros Hc.
  unfold Pipeline.sandbox_run, mbind, M_bind, bind, create_sandbox.
  by rewrite Hc.
Qed.

Lemma run_tests_in_daytona_total (w : Pipeline.test_stage) (r : runner) :
  ∃ res r' evs,
    Pipeline._run_tests_in_daytona ast_parse describe_tests w r = (Ok res, r') ∧
    trace r' = trace r ++ evs ∧
    one_sandbox (Pipeline.sandbox_service w) evs.
Proof.
  unfold Pipeline._run_tests_in_daytona, try_except, mbind, M_bind, bind, lift, ret.
  assert (Hnone : ∀ res : exec_result,
    ∃ res' r' evs, (Ok res, r) = (Ok res', r') ∧ trace r' = trace r ++ evs ∧
                   one_sandbox (Pipeline.sandbox_service w) evs).
  { intros res. exists res, r, []. rewrite app_nil_r. repeat split. by left. }
  destruct (Pipeline.code_files_out w) as [code_files|e]; [|apply Hnone].
  destruct (Pipeline.test_files_out w) as [test_files|e]; [|apply Hnone].
  case_bool_decide; [apply Hnone|].
  assert (Hrun : ∀ cf,
    ∃ res r' evs,
      match Pipeline.sandbox_run describe_tests (Pipeline.sandbox_service w)
              cf test_files r with
      | (Ok a, r') => (Ok a, r')
      | (Raise e, r') =>
          (Ok (ExecResult "error" None "" [] (Some e)), r')
      end = (Ok res, r') ∧
      trace r' = trace r ++ evs ∧
      one_sandbox (Pipeline.sandbox_service w) evs).
  { intros cf.
    destruct (create_out (Pipeline.sandbox_service w)) as [h|e] eqn:Hc.
    - destruct (sandbox_run_disposes _ cf test_files r h Hc)
        as (o & r' & evs & -> & Htr & Hlast & _).
      destruct o as [res|e]; eexists _, r', _;
        (split; [reflexivity|]); (split; [exact Htr|]);
        right; exists h, evs; by rewrite Hc.
    - rewrite (sandbox_run_no_sandbox _ cf test_files r e Hc).
      eexists _, r, []. rewrite app_nil_r. repeat split. by left. }
  case_bool_decide; [apply Hrun|].
  destruct (Resolver.fetch_source_files_from_imports _ _ _) as [src|e];
    [apply Hrun | apply Hnone].
Qed.

(** C8. Disposal is best-effort and total: [cleanup] returns normally
    whether or not the deletion fails. And once provisioning has
    succeeded, the run ends with the deletion of that sandbox on every
    path, in particular when materializing the files, installing the
    dependencies or executing the tests raises; the sandbox stage as a
    whole never raises and leaves no sandbox behind. *)
Theorem dispose_on_every_exit_path :
  (∀ d r, ∃ r', cleanup d r = (Ok tt, r')) ∧
  (∀ d code_files test_files r h,
     create_out d = Ok h →
     ∃ o r' evs,
       Pipeline.sandbox_run describe_tests d code_files test_files r = (o, r') ∧
       trace r' = trace r ++ EvCreate h :: evs ∧
       last evs = Some (EvDelete h (is_ok (delete_out d h))) ∧
       (is_ok (materialize_out d (dict_unpack2 code_files test_files)) = false →
        is_ok o = false) ∧
       (is_ok (install_out d ["pytest"]) = false → is_ok o = false)) ∧
  (∀ w r,
     ∃ res r' evs,
       Pipeline._run_tests_in_daytona ast_parse describe_tests w r = (Ok res, r') ∧
       trace r' = trace r ++ evs ∧
       one_sandbox (Pipeline.sandbox_service w) evs).
Proof.
  split; [|split].
  - intros d r. destruct (cleanup_total d r) as (r' & Hr' & _). eauto.
  - apply sandbox_run_disposes.
  - apply run_tests_in_daytona_total.
Qed.

End Disposal.

Lemma dispose_on_every_exit_path_witness :
  let d : TestRunner.daytona :=
    TestRunner.Daytona (Ok 7) (fun _ => Raise "upload failed")
      (fun _ => Ok (0%Z, "")) (fun _ => Ok (0%Z, "1 passed"))
      (fun _ => Raise "gone") in
  ∃ o r' evs,
    Pipeline.sandbox_run (fun _ => []) d ∅ ∅ (TestRunner.Runner None []) = (o, r') ∧
    is_ok o = false ∧
    TestRunner.trace r' = TestRunner.EvCreate 7 :: evs ∧
    last evs = Some (TestRunner.EvDelete 7 false).
Proof.
  cbn zeta.
  destruct (dispose_on_every_exit_path (fun _ => None) (fun _ => []))
    as (_ & Hrun & _).
  destruct (Hrun
              (TestRunner.Daytona (Ok 7) (fun _ => Raise "upload failed")
                 (fun _ => Ok (0%Z, "")) (fun _ => Ok (0%Z, "1 passed"))
                 (fun _ => Raise "gone"))
              ∅ ∅ (TestRunner.Runner None []) 7 eq_refl)
    as (o & r' & evs & Hrun' & Htr & Hlast & Hmat & _).
  exists o, r', evs. split; [exact Hrun'|]. split; [by apply Hmat|].
  split; [exact Htr | exact Hlast].
Defined.

(** ** The risk field (C1) *)

(** A record returned by [analyze_pr] is the answer of the scoring call
    or, when the call failed, the default record, whose risk is 50. *)
Lemma analyze_pr_answer (scoring_call : Scorer.prompt → result json)
    (pr_info : gmap string json) (reviews : list finding)
    (test_results : option exec_result) (code_files : fileset)
    (analysis : gmap string json) :
  Scorer.analyze_pr scoring_call pr_info reviews test_results code_files
  = Ok (JObj analysis) →
  ∃ prompt,
    Scorer._build_analysis_prompt pr_info reviews test_results code_files
    = Ok prompt ∧
    (scoring_call prompt = Ok (JObj analysis) ∨
     ∃ e, scoring_call prompt = Raise e ∧
          dict_get analysis "risk" (JNum 0) = JNum 50).
Proof.
  unfold Scorer.analyze_pr.
  destruct (Scorer._build_analysis_prompt _ _ _ _) as [prompt|]; [|done].
  simpl. intros Han. exists prompt. split; [done|].
  destruct (scoring_call prompt) as [answer|e].
  - injection Han as ->. by left.
  - unfold Scorer.default_analysis in Han. injection Han as <-.
    right. exists e. split; [done|]. unfold dict_get. by rewrite lookup_insert_eq.
Qed.

Section Orchestration.
Import TestRunner.
Variable ast_parse : string → option (list Resolver.import_node).
Variable describe_tests : fileset → list test_descr.

(** The test stage never raises and leaves the risk alone. *)
Lemma test_step_total (w : Pipeline.pr_world) (res : pipeline_result) (r : runner) :
  ∃ res' r',
    Pipeline.test_step ast_parse describe_tests w res r = (Ok res', r') ∧
    r_risk res' = r_risk res ∧
    r_id res' = r_id res ∧
    r_gptError res' = r_gptError res ∧
    r_coderabbitReviews res' = r_coderabbitReviews res.
Proof.
  unfold Pipeline.test_step, try_except, mbind, M_bind, bind, lift, ret.
  destruct (Pipeline.trigger_out w); [|by eexists _, _].
  destruct (Pipeline.test_pr_out w) as [[n|]|]; [|by eexists _, _..].
  destruct (run_tests_in_daytona_total ast_parse describe_tests
              (Pipeline.stage w) r) as (tr & r' & evs & -> & _).
  by eexists _, _.
Qed.

(** The scoring stage changes the risk only by taking it from the
    scorer's answer. *)
Lemma gpt_step_risk (w : Pipeline.pr_world) (pr_info : gmap string json)
    (res : pipeline_result) :
  let res' := Pipeline.gpt_step w pr_info res in
  r_id res' = r_id res ∧
  r_testResults res' = r_testResults res ∧
  (r_risk res' = r_risk res ∨
   ∃ code_files analysis,
     Pipeline.pr_files_out w = Ok code_files ∧
     Scorer.analyze_pr (Pipeline.scoring_call w) pr_info
       (r_coderabbitReviews res) (r_testResults res) code_files
     = Ok (JObj analysis) ∧
     r_risk res' = dict_get analysis "risk" (JNum 0)).
Proof.
  cbn zeta. unfold Pipeline.gpt_step.
  destruct (Pipeline.pr_files_out w) as [code_files|e]; simpl;
    [|repeat split; by left].
  destruct (Scorer.analyze_pr _ _ _ _ _) as [[|b|n|s|analysis]|e] eqn:Han;
    simpl; try (repeat split; by left).
  destruct (Pipeline.update_reviews analysis _) as [reviews e]. simpl.
  repeat split. right. by exists code_files, analysis.
Qed.

Lemma process_pr_risk (w : Pipeline.pr_world) (has_test_runner has_gpt_analyzer : bool)
    (pr_number : nat) (skip_tests skip_gpt : bool) (rn rn' : runner)
    (res : pipeline_result) :
  Pipeline.process_pr ast_parse describe_tests w has_test_runner has_gpt_analyzer
    pr_number skip_tests skip_gpt rn = (Ok res, rn') →
  r_id res = pr_number ∧
  (r_risk res = JNum 0 ∨
   skip_gpt = false ∧ has_gpt_analyzer = true ∧
   ∃ pr_info reviews code_files analysis,
     Pipeline.pr_info_out w = Ok pr_info ∧
     Pipeline.pr_files_out w = Ok code_files ∧
     Scorer.analyze_pr (Pipeline.scoring_call w) pr_info reviews
       (r_testResults res) code_files = Ok (JObj analysis) ∧
     r_risk res = dict_get analysis "risk" (JNum 0)).
Proof.
  unfold Pipeline.process_pr, mbind, M_bind, bind, lift, ret.
  destruct (Pipeline.pr_info_out w) as [pr_info|]; [|done].
  destruct (Pipeline.has_review_out w) as [has_review|]; [|done].
  set (reviews_m := if has_review then _ else _).
  destruct (reviews_m rn) as [[reviews|] rn0] eqn:Hrev; [|done].
  set (res0 := PipelineResult _ _ _ _ reviews _ _ _ _).
  set (tests_m := if negb skip_tests && has_test_runner then _ else _).
  assert (Htests : ∃ res1 rn1, tests_m rn0 = (Ok res1, rn1) ∧
                     r_risk res1 = JNum 0 ∧ r_id res1 = pr_number).
  { subst tests_m. destruct (negb skip_tests && has_test_runner).
    - destruct (test_step_total w res0 rn0) as (res1 & rn1 & -> & Hr & Hi & _).
      by exists res1, rn1.
    - by exists res0, rn0. }
  destruct Htests as (res1 & rn1 & -> & Hrisk & Hid).
  intros [= <- <-].
  destruct (negb skip_gpt && has_gpt_analyzer) eqn:Hgpt; [|by split; [|left]].
  apply andb_true_iff in Hgpt as [Hskip Hhas]. apply negb_true_iff in Hskip.
  destruct (gpt_step_risk w pr_info res1) as (Hid' & Htr & Hr).
  split; [congruence|].
  destruct Hr as [Hr | (code_files & analysis & Hf & Han & Hr)].
  - left. congruence.
  - right. repeat split; [done..|].
    exists pr_info, (r_coderabbitReviews res1), code_files, analysis.
    rewrite Htr. done.
Qed.

(** The loop goes on after each pull request, whatever happened to it. *)
Lemma loop_cons (skip_tests skip_gpt : bool) (i : nat) (it : Batch.item)
    (rest : list Batch.item) (rn : runner) :
  let s := Batch.step ast_parse describe_tests skip_tests skip_gpt i it rn in
  let l := Batch.loop ast_parse describe_tests skip_tests skip_gpt (S i) rest s.2 in
  Batch.loop ast_parse describe_tests skip_tests skip_gpt i (it :: rest) rn
  = (s.1 ++ l.1, l.2).
Proof.
  cbn zeta. cbn [Batch.loop].
  destruct (Batch.step _ _ _ _ i it rn) as [appended rn']. cbn [fst snd].
  by destruct (Batch.loop _ _ _ _ (S i) rest rn').
Qed.

Lemma step_entries (skip_tests skip_gpt : bool) (i : nat) (it : Batch.item)
    (rn : runner) (e : Batch.entry) :
  e ∈ (Batch.step ast_parse describe_tests skip_tests skip_gpt i it rn).1 →
  (∃ err, e = Batch.ErrorEntry (Batch.it_number it) (Batch.it_title it)
                (Batch.it_link it) err (JNum 0)) ∨
  (∃ res rn',
     Pipeline.process_pr ast_parse describe_tests (Batch.it_world it)
       (negb skip_tests) (negb skip_gpt) (Batch.it_number it)
       skip_tests skip_gpt rn = (Ok res, rn') ∧
     e = Batch.Processed res).
Proof.
  unfold Batch.step, Batch.error_entry.
  destruct (Pipeline.process_pr _ _ _ _ _ _ _ _ rn) as [[res|err] rn'].
  - intros He.
    assert (He' : e = Batch.Processed res ∨
                  ∃ err, e = Batch.ErrorEntry (Batch.it_number it)
                               (Batch.it_title it) (Batch.it_link it) err (JNum 0)).
    { destruct (i mod 5 =? 0); [destruct (Batch.it_save_out it) as [|err]|];
        simpl in He; rewrite ?elem_of_cons, elem_of_nil in He;
        destruct He as [He|He]; try (by left); try done.
      destruct He as [He|[]]. right. eauto. }
    destruct He' as [->|He']; [right; eauto | by left].
  - simpl. rewrite list_elem_of_singleton. intros ->. left. eauto.
Qed.

Lemma loop_entries (skip_tests skip_gpt : bool) (prs : list Batch.item)
    (i : nat) (rn : runner) (e : Batch.entry) :
  e ∈ (Batch.loop ast_parse describe_tests skip_tests skip_gpt i prs rn).1 →
  ∃ it j rn0, it ∈ prs ∧
    e ∈ (Batch.step ast_parse describe_tests skip_tests skip_gpt j it rn0).1.
Proof.
  revert i rn. induction prs as [|it rest IH]; intros i rn.
  - simpl. by rewrite elem_of_nil.
  - rewrite loop_cons. simpl. rewrite elem_of_app. intros [He|He].
    + exists it, i, rn. split; [set_solver|done].
    + destruct (IH _ _ He) as (it' & j & rn0 & Hin & He').
      exists it', j, rn0. split; [set_solver|done].
Qed.

Lemma step_covers (skip_tests skip_gpt : bool) (i : nat) (it : Batch.item)
    (rn : runner) :
  ∃ e, e ∈ (Batch.step ast_parse describe_tests skip_tests skip_gpt i it rn).1 ∧
       Batch.entry_id e = Batch.it_number it.
Proof.
  unfold Batch.step.
  destruct (Pipeline.process_pr _ _ _ _ _ _ _ _ rn) as [[res|err] rn'] eqn:Hp.
  - exists (Batch.Processed res). split.
    + destruct (i mod 5 =? 0); [destruct (Batch.it_save_out it)|]; simpl;
        apply elem_of_cons; by left.
    + simpl. by destruct (process_pr_risk _ _ _ _ _ _ _ _ _ Hp) as [-> _].
  - eexists. split; [simpl; apply list_elem_of_singleton; reflexivity|done].
Qed.

Lemma loop_covers (skip_tests skip_gpt : bool) (prs : list Batch.item)
    (i : nat) (rn : runner) (it : Batch.item) :
  it ∈ prs →
  ∃ e, e ∈ (Batch.loop ast_parse describe_tests skip_tests skip_gpt i prs rn).1 ∧
       Batch.entry_id e = Batch.it_number it.
Proof.
  revert i rn. induction prs as [|it0 rest IH]; intros i rn Hin.
  - by apply elem_of_nil in Hin.
  - rewrite loop_cons. cbn [fst]. apply elem_of_cons in Hin as [->|Hin].
    + destruct (step_covers skip_tests skip_gpt i it0 rn) as (e & He & Hid).
      exists e. split; [apply elem_of_app; by left|done].
    + destruct (IH (S i)
                   (Batch.step ast_parse describe_tests skip_tests skip_gpt
                      i it0 rn).2 Hin) as (e & He & Hid).
      exists e. split; [apply elem_of_app; by right|done].
Qed.

(** C1, as the code has it. The risk of a pipeline result is nonzero
    only if the scoring stage ran (it was not skipped and a scorer is
    configured) and the scorer returned a record, from which the risk was
    taken: the answer of the scoring call or, when that call failed, the
    scorer's default record, whose risk is 50. The record starts at 0
    and no other stage assigns it. When the processing of one pull
    request raises, the batch loop records an error entry with risk 0
    for it and goes on with the next one: the loop never fails, every
    pull request of the listing has an entry, and an entry with a
    nonzero risk is a result that [process_pr] returned. *)
Theorem risk_nonzero_only_after_scoring :
  (∀ w has_test_runner has_gpt_analyzer pr_number skip_tests skip_gpt rn rn' res,
     Pipeline.process_pr ast_parse describe_tests w has_test_runner
       has_gpt_analyzer pr_number skip_tests skip_gpt rn = (Ok res, rn') →
     r_risk res ≠ JNum 0 →
     skip_gpt = false ∧ has_gpt_analyzer = true ∧
     ∃ pr_info reviews code_files prompt,
       Pipeline.pr_info_out w = Ok pr_info ∧
       Pipeline.pr_files_out w = Ok code_files ∧
       Scorer._build_analysis_prompt pr_info reviews (r_testResults res)
         code_files = Ok prompt ∧
       ((∃ analysis,
           Pipeline.scoring_call w prompt = Ok (JObj analysis) ∧
           r_risk res = dict_get analysis "risk" (JNum 0)) ∨
        (∃ e, Pipeline.scoring_call w prompt = Raise e ∧
              r_risk res = JNum 50))) ∧
  (∀ skip_tests skip_gpt i it rest rn,
     let s := Batch.step ast_parse describe_tests skip_tests skip_gpt i it rn in
     let l := Batch.loop ast_parse describe_tests skip_tests skip_gpt (S i) rest s.2 in
     Batch.loop ast_parse describe_tests skip_tests skip_gpt i (it :: rest) rn
     = (s.1 ++ l.1, l.2) ∧
     ∀ e rn',
       Pipeline.process_pr ast_parse describe_tests (Batch.it_world it)
         (negb skip_tests) (negb skip_gpt) (Batch.it_number it)
         skip_tests skip_gpt rn = (Raise e, rn') →
       s.1 = [Batch.ErrorEntry (Batch.it_number it) (Batch.it_title it)
                (Batch.it_link it) e (JNum 0)]) ∧
  (∀ skip_tests skip_gpt prs rn,
     let results :=
       Batch.pull_requests ast_parse describe_tests skip_tests skip_gpt prs rn in
     (∀ it, it ∈ prs →
            ∃ e, e ∈ results ∧ Batch.entry_id e = Batch.it_number it) ∧
     (∀ e, e ∈ results → Batch.entry_risk e ≠ JNum 0 →
           ∃ it rn0 rn1 res,
             it ∈ prs ∧
             Pipeline.process_pr ast_parse describe_tests (Batch.it_world it)
               (negb skip_tests) (negb skip_gpt) (Batch.it_number it)
               skip_tests skip_gpt rn0 = (Ok res, rn1) ∧
             e = Batch.Processed res ∧ r_risk res ≠ JNum 0)).
Proof.
  split; [|split].
  - intros w htr hga n st sg rn rn' res Hp Hrisk.
    destruct (process_pr_risk _ _ _ _ _ _ _ _ _ Hp)
      as [_ [H0|(Hsg & Hga & pr_info & reviews & code_files & analysis
                 & Hinfo & Hfiles & Han & Hr)]]; [done|].
    split; [done|]. split; [done|].
    destruct (analyze_pr_answer _ _ _ _ _ _ Han) as (prompt & Hprompt & Hcall).
    exists pr_info, reviews, code_files, prompt. repeat split; try done.
    destruct Hcall as [Hcall|(e & Hcall & H50)].
    + left. by exists analysis.
    + right. exists e. split; [done|]. by rewrite Hr.
  - intros st sg i it rest rn. cbn zeta. split; [apply loop_cons|].
    intros e rn' Hp. unfold Batch.step. by rewrite Hp.
  - intros st sg prs rn. cbn zeta. unfold Batch.pull_requests. split.
    + intros it Hin. by apply loop_covers.
    + intros e He Hrisk.
      destruct (loop_entries _ _ _ _ _ _ He) as (it & j & rn0 & Hin & Hstep).
      destruct (step_entries _ _ _ _ _ _ Hstep)
        as [[err ->] | (res & rn1 & Hp & ->)]; [done|].
      by exists it, rn0, rn1, res.
Qed.

End Orchestration.

Lemma risk_nonzero_only_after_scoring_witness :
  let quiet : Pipeline.test_stage :=
    Pipeline.TestStage (Raise "") (Raise "")
      (Resolver.Github (Raise "") (Raise "") (Raise "") (fun _ _ => Raise ""))
      (TestRunner.Daytona (Raise "") (fun _ => Raise "") (fun _ => Raise "")
         (fun _ => Raise "") (fun _ => Raise "")) in
  let w : Pipeline.pr_world :=
    Pipeline.PRWorld
      (Ok (<["title" := JStr "Fix login"]> (<["body" := JStr "Adds a check"]> ∅)))
      (Ok false) (Ok []) (Raise "") (Ok None) quiet (Ok ∅)
      (fun _ => Ok (JObj (<["risk" := JNum 80]> ∅))) in
  ∃ res rn' prompt analysis,
    Pipeline.process_pr (fun _ => None) (fun _ => []) w false true 3 true false
      (TestRunner.Runner None []) = (Ok res, rn') ∧
    r_risk res = JNum 80 ∧
    Pipeline.scoring_call w prompt = Ok (JObj analysis) ∧
    r_risk res = dict_get analysis "risk" (JNum 0).
Proof.
  cbn zeta.
  destruct (risk_nonzero_only_after_scoring (fun _ => None) (fun _ => []))
    as (Hrun & _).
  set (w := Pipeline.PRWorld _ _ _ _ _ _ _ _).
  destruct (Pipeline.process_pr (fun _ => None) (fun _ => []) w false true 3
              true false (TestRunner.Runner None [])) as [[res|e] rn'] eqn:Hp.
  - assert (Hrisk : r_risk res = JNum 80).
    { vm_compute in Hp. by injection Hp as <- <-. }
    destruct (Hrun _ _ _ _ _ _ _ _ _ Hp)
      as (_ & _ & pr_info & reviews & files & prompt & _ & _ & _ & Hsrc).
    { rewrite Hrisk. discriminate. }
    destruct Hsrc as [(analysis & Hcall & Hr) | (e & Hcall & Hr)].
    + by exists res, rn', prompt, analysis.
    + rewrite Hrisk in Hr. discriminate.
  - vm_compute in Hp. discriminate.
Defined.

(** C1, as the specification words it, fails. A scoring call that fails
    is a scoring stage that did not complete successfully; the scorer
    then answers with its default record and [process_pr] returns the
    nonzero risk 50, with no [gptError]. And a scoring stage that ends in
    an error keeps a nonzero risk: when the answer's review update is not
    an object the stage records [gptError], and the risk 80 read from the
    answer before stays. *)
Lemma risk_nonzero_without_successful_scoring :
  let quiet : Pipeline.test_stage :=
    Pipeline.TestStage (Raise "") (Raise "")
      (Resolver.Github (Raise "") (Raise "") (Raise "") (fun _ _ => Raise ""))
      (TestRunner.Daytona (Raise "") (fun _ => Raise "") (fun _ => Raise "")
         (fun _ => Raise "") (fun _ => Raise "")) in
  let pr_info : gmap string json :=
    <["title" := JStr "Fix login"]> (<["body" := JStr "Adds a check"]> ∅) in
  let failing : Pipeline.pr_world :=
    Pipeline.PRWorld (Ok pr_info) (Ok true)
      (Ok [Comment "coderabbitai" "Possible bug"]) (Raise "") (Ok None)
      quiet (Ok ∅) (fun _ => Raise "rate limit exceeded") in
  let answer : gmap string json :=
    <["risk" := JNum 80]>
      (<["reviewUpdates" := JObj (<["Coderabbit Review" := JStr "high"]> ∅)]> ∅) in
  let answering : Pipeline.pr_world :=
    Pipeline.PRWorld (Ok pr_info) (Ok true)
      (Ok [Comment "coderabbitai" "Possible bug"]) (Raise "") (Ok None)
      quiet (Ok ∅) (fun _ => Ok (JObj answer)) in
  (∃ res rn',
     Pipeline.process_pr (fun _ => None) (fun _ => []) failing false true 3
       true false (TestRunner.Runner None []) = (Ok res, rn') ∧
     r_risk res = JNum 50 ∧ r_risk res ≠ JNum 0 ∧ r_gptError res = None) ∧
  (∃ res rn',
     Pipeline.process_pr (fun _ => None) (fun _ => []) answering false true 3
       true false (TestRunner.Runner None []) = (Ok res, rn') ∧
     r_risk res = JNum 80 ∧ r_risk res ≠ JNum 0 ∧
     r_gptError res =
       Some "dictionary update sequence element #0 has length 1; 2 is required").
Proof.
  cbn zeta. split.
  - eexists _, _. split; [vm_compute; reflexivity|]. by repeat split.
  - eexists _, _. split; [vm_compute; reflexivity|]. by repeat split.
Qed.

(** ** The risk scorer (C2) *)



(** C2 (where the code departs from the claim). For a pull request
    without description, whose [body] GitHub reports as [null], the
    scorer's [analyze_pr] raises instead of returning the default record:
    the prompt is built before the [try] that guards the scoring call,
    and slicing the missing body fails. *)
Theorem analyze_pr_raises_on_null_body (scoring_call : Scorer.prompt → result json)
    (reviews : list finding) (test_results : option exec_result)
    (code_files : fileset) :
  Scorer.analyze_pr scoring_call
    (<["title" := JStr "Fix login"]> (<["body" := JNull]> ∅))
    reviews test_results code_files
  = Raise "'NoneType' object is not subscriptable".
Proof. reflexivity. Qed.

(** ** Source resolution (C3, C7) *)

Section Resolution.
Import Resolver.
Variable gh : github.
Variable existing_files : fileset.

Lemma fetched_paths_snoc (log : list fetch) (f : fetch) :
  fetched_paths (log ++ [f]) =
  fetched_paths log ++ (if f_fetched f then [f_path f] else []).
Proof.
  unfold fetched_paths. rewrite filter_app, fmap_app. f_equal.
  rewrite filter_cons. destruct (f_fetched f) eqn:Hf.
  - by rewrite decide_True.
  - by rewrite decide_False by done.
Qed.

Lemma init_sound : sound existing_files init.
Proof.
  split; [constructor|]. split.
  - intros p Hp. by apply elem_of_nil in Hp.
  - intros p [x Hx]. unfold init in Hx. simpl in Hx.
    by rewrite lookup_empty in Hx.
Qed.

(** A request for an eligible file that is not yet collected keeps the
    state sound, and does not collect it when it fails. *)
Lemma try_fetch_sound (file_path module : string) (record_match : bool) (st : state) :
  sound existing_files st →
  source_files st !! file_path = None →
  Py.contains "test" (Py.lower file_path) = false →
  existing_files !! file_path = None →
  Py.endswith file_path ".py" = true →
  let r := try_fetch gh file_path module record_match st in
  sound existing_files r.2 ∧
  (r.1 = false → source_files r.2 !! file_path = None).
Proof.
  intros (Hnd & Hlog & Hsrc) Hfresh Htest Hex Hpy. cbn zeta.
  unfold try_fetch.
  destruct (content_out gh _ file_path) as [content|e]; simpl.
  - split; [|done]. split; [|split]; simpl.
    + rewrite fetched_paths_snoc. simpl. apply NoDup_app. split; [done|].
      split; [|apply NoDup_singleton].
      intros p Hp ->%list_elem_of_singleton.
      destruct (Hlog _ Hp) as [x Hx]. congruence.
    + intros p. rewrite fetched_paths_snoc. simpl.
      rewrite elem_of_app, list_elem_of_singleton. intros [Hp| ->].
      * destruct (decide (file_path = p)) as [->|Hne].
        -- rewrite lookup_insert_eq. eauto.
        -- rewrite lookup_insert_ne by done. by apply Hlog.
      * rewrite lookup_insert_eq. eauto.
    + intros p. destruct (decide (file_path = p)) as [<-|Hne].
      * done.
      * rewrite lookup_insert_ne by done. apply Hsrc.
  - split; [|done]. split; [|split]; simpl; [| |done].
    + rewrite fetched_paths_snoc. simpl. by rewrite app_nil_r.
    + intros p. rewrite fetched_paths_snoc. simpl. rewrite app_nil_r. apply Hlog.
Qed.

Lemma scan_modules_sound (file_path : string) (modules : list string) (st : state) :
  sound existing_files st →
  source_files st !! file_path = None →
  Py.contains "test" (Py.lower file_path) = false →
  existing_files !! file_path = None →
  Py.endswith file_path ".py" = true →
  sound existing_files (scan_modules gh file_path modules st).
Proof.
  intros Hs Hfresh Htest Hex Hpy. revert st Hs Hfresh.
  induction modules as [|module rest IH]; intros st Hs Hfresh; [done|].
  simpl. destruct (_ || _); [|by apply IH].
  destruct (try_fetch_sound file_path module true st Hs Hfresh Htest Hex Hpy)
    as [Hs' Hstill].
  destruct (try_fetch gh file_path module true st) as [[|] st']; simpl in *.
  - done.
  - apply IH; [done|]. by apply Hstill.
Qed.

Lemma scan_modules_fallback_sound (file_path : string) (modules : list string)
    (st : state) :
  sound existing_files st →
  source_files st !! file_path = None →
  Py.contains "test" (Py.lower file_path) = false →
  existing_files !! file_path = None →
  Py.endswith file_path ".py" = true →
  sound existing_files (scan_modules_fallback gh file_path modules st).
Proof.
  intros Hs Hfresh Htest Hex Hpy. revert st Hs Hfresh.
  induction modules as [|module rest IH]; intros st Hs Hfresh; [done|].
  simpl. destruct (_ || _); [|by apply IH].
  destruct (try_fetch_sound file_path module false st Hs Hfresh Htest Hex Hpy)
    as [Hs' Hstill].
  destruct (try_fetch gh file_path module false st) as [[|] st']; simpl in *.
  - done.
  - apply IH; [done|]. by apply Hstill.
Qed.

Lemma not_already_fetched (file_path : string) (st : state) :
  already_fetched existing_files file_path st = false →
  existing_files !! file_path = None ∧ source_files st !! file_path = None.
Proof.
  unfold already_fetched. intros [H1 H2]%orb_false_iff.
  apply bool_decide_eq_false in H1, H2.
  split; apply eq_None_not_Some; done.
Qed.

Lemma visit_sound (modules : list string) (st : state) (file_path : string) :
  sound existing_files st →
  sound existing_files (visit gh existing_files modules st file_path).
Proof.
  intros Hs. unfold visit.
  destruct (already_fetched _ _ _) eqn:Hfetched; [done|].
  destruct (is_test_path file_path) eqn:Htest; [done|].
  destruct (Py.endswith file_path ".py") eqn:Hpy; [|done]. simpl.
  apply not_already_fetched in Hfetched as [Hex Hfresh].
  unfold is_test_path in Htest.
  apply orb_false_iff in Htest as [[Htest _]%orb_false_iff _].
  by apply scan_modules_sound.
Qed.

Lemma visit_fallback_sound (modules : list string) (st : state) (file_path : string) :
  sound existing_files st →
  sound existing_files (visit_fallback gh existing_files modules st file_path).
Proof.
  intros Hs. unfold visit_fallback.
  destruct (already_fetched _ _ _) eqn:Hfetched; [done|].
  destruct (Py.contains "test" (Py.lower file_path)) eqn:Htest; [done|].
  destruct (Py.endswith file_path ".py") eqn:Hpy; [|done]. simpl.
  apply not_already_fetched in Hfetched as [Hex Hfresh].
  by apply scan_modules_fallback_sound.
Qed.

Lemma foldl_sound (f : state → string → state) (paths : list string) (st : state) :
  (∀ st p, sound existing_files st → sound existing_files (f st p)) →
  sound existing_files st →
  sound existing_files (foldl f st paths).
Proof.
  intros Hf. revert st. induction paths as [|p rest IH]; intros st Hs; [done|].
  simpl. apply IH. by apply Hf.
Qed.

Lemma resolve_sound (imported_modules : list string) (st : state) :
  resolve gh existing_files imported_modules = Ok st →
  sound existing_files st.
Proof.
  unfold resolve.
  destruct imported_modules as [|m ms]; [intros [= <-]; apply init_sound|].
  destruct (head_sha_out gh); [|done]. simpl.
  destruct (filter _ _) as [|m' ms'] eqn:Hf; [intros [= <-]; apply init_sound|].
  destruct (tree_out gh) as [tree|].
  - intros [= <-]. apply foldl_sound; [|apply init_sound].
    intros. by apply visit_sound.
  - destruct (pr_files_out gh) as [pr_files|]; [|done]. simpl.
    intros [= <-]. apply foldl_sound; [|apply init_sound].
    intros. by apply visit_fallback_sound.
Qed.

(** C7. A file returned by source resolution never has "test" in its
    lower-cased path, whatever its name matches, and is never one of the
    files fetched beforehand; this holds of the scan of the branch
    listing, of the scan of the changed files that replaces it when the
    listing fails, and so of the function as a whole. *)
Theorem resolved_files_exclude_tests_and_fetched :
  (∀ modules tree p,
     is_Some (source_files (foldl (visit gh existing_files modules) init tree) !! p) →
     Py.contains "test" (Py.lower p) = false ∧ existing_files !! p = None) ∧
  (∀ modules pr_files p,
     is_Some (source_files
                (foldl (visit_fallback gh existing_files modules) init pr_files) !! p) →
     Py.contains "test" (Py.lower p) = false ∧ existing_files !! p = None) ∧
  (∀ imported_modules files p,
     fetch_source_files_from_imports gh existing_files imported_modules = Ok files →
     is_Some (files !! p) →
     Py.contains "test" (Py.lower p) = false ∧ existing_files !! p = None).
Proof.
  split; [|split].
  - intros modules tree p Hp.
    assert (Hs : sound existing_files (foldl (visit gh existing_files modules) init tree)).
    { apply foldl_sound; [|apply init_sound]. intros. by apply visit_sound. }
    destruct Hs as (_ & _ & Hsrc). destruct (Hsrc p Hp) as (? & ? & _). done.
  - intros modules pr_files p Hp.
    assert (Hs : sound existing_files
                   (foldl (visit_fallback gh existing_files modules) init pr_files)).
    { apply foldl_sound; [|apply init_sound]. intros. by apply visit_fallback_sound. }
    destruct Hs as (_ & _ & Hsrc). destruct (Hsrc p Hp) as (? & ? & _). done.
  - intros mods files p Hf Hp. unfold fetch_source_files_from_imports in Hf.
    destruct (resolve gh existing_files mods) as [st|] eqn:Hr; [|done].
    injection Hf as <-.
    destruct (resolve_sound _ _ Hr) as (_ & _ & Hsrc).
    destruct (Hsrc p Hp) as (? & ? & _). done.
Qed.

(** C3, as the code has it. For a given file of the listing, the scan
    over the imported modules stops once that file is fetched: no file
    is fetched twice, and every fetched file is in the returned set. (One
    module may bring in several files.) *)
Theorem each_file_fetched_once (imported_modules : list string) (st : state) :
  resolve gh existing_files imported_modules = Ok st →
  NoDup (fetched_paths (fetches st)) ∧
  ∀ p, p ∈ fetched_paths (fetches st) → is_Some (source_files st !! p).
Proof.
  intros Hr. destruct (resolve_sound _ _ Hr) as (Hnd & Hlog & _). done.
Qed.

End Resolution.

Lemma resolved_files_exclude_tests_and_fetched_witness :
  let gh : Resolver.github :=
    Resolver.Github (Ok "4f2a")
      (Ok ["app/auth.py"; "tests/auth.py"; "auth_test.py"; "lib/auth.py"; "README.md"])
      (Ok []) (fun _ p => Ok ("# " +:+ p)) in
  let existing_files : fileset := <["lib/auth.py" := "# known"]> ∅ in
  ∃ files,
    Resolver.fetch_source_files_from_imports gh existing_files ["auth"; "pytest"]
    = Ok files ∧
    files !! "app/auth.py" = Some "# app/auth.py" ∧
    Py.contains "test" (Py.lower "app/auth.py") = false ∧
    existing_files !! "app/auth.py" = None.
Proof.
  cbn zeta.
  set (gh := Resolver.Github _ _ _ _).
  set (existing_files := <["lib/auth.py" := "# known"]> ∅ : fileset).
  destruct (Resolver.fetch_source_files_from_imports gh existing_files
              ["auth"; "pytest"]) as [files|e] eqn:Hf.
  - assert (Hin : files !! "app/auth.py" = Some "# app/auth.py").
    { vm_compute in Hf. by injection Hf as <-. }
    destruct (resolved_files_exclude_tests_and_fetched gh existing_files)
      as (_ & _ & Hfiles).
    destruct (Hfiles ["auth"; "pytest"] files "app/auth.py" Hf) as [Ht Hex].
    { rewrite Hin. eauto. }
    by exists files.
  - vm_compute in Hf. discriminate.
Defined.

Lemma each_file_fetched_once_witness :
  let gh : Resolver.github :=
    Resolver.Github (Ok "4f2a") (Ok ["app/auth.py"; "app/auth.py"; "app/models.py"])
      (Ok []) (fun n p => if n =? 0 then Raise "timeout" else Ok ("# " +:+ p)) in
  ∃ st,
    Resolver.resolve gh ∅ ["app.auth"; "app"] = Ok st ∧
    Resolver.fetched_paths (Resolver.fetches st) = ["app/auth.py"; "app/models.py"] ∧
    NoDup (Resolver.fetched_paths (Resolver.fetches st)).
Proof.
  cbn zeta.
  set (gh := Resolver.Github _ _ _ _).
  destruct (Resolver.resolve gh ∅ ["app.auth"; "app"]) as [st|e] eqn:Hr.
  - assert (Hlog : Resolver.fetched_paths (Resolver.fetches st)
                   = ["app/auth.py"; "app/models.py"]).
    { vm_compute in Hr. by injection Hr as <-. }
    destruct (each_file_fetched_once gh ∅ ["app.auth"; "app"] st Hr) as [Hnd _].
    by exists st.
  - vm_compute in Hr. discriminate.
Defined.

(** C3, as the specification words it, fails: with a package directory
    [app/] holding two modules and the one import [app], both files are
    fetched for that module. *)
Lemma one_file_per_module_fails :
  let gh : Resolver.github :=
    Resolver.Github (Ok "4f2a") (Ok ["app/auth.py"; "app/models.py"])
      (Ok []) (fun _ p => Ok ("# " +:+ p)) in
  ∃ st,
    Resolver.resolve gh ∅ ["app"] = Ok st ∧
    Resolver.fetched_for "app" (Resolver.fetches st)
    = ["app/auth.py"; "app/models.py"] ∧
    ¬ length (Resolver.fetched_for "app" (Resolver.fetches st)) ≤ 1.
Proof.
  cbn zeta. eexists. split; [vm_compute; reflexivity|].
  split; [vm_compute; reflexivity|]. vm_compute. lia.
Qed.

(** ** Quoting of the test command (C4) *)

Lemma append_cons (c : ascii) (s t : string) : String c s +:+ t = String c (s +:+ t).
Proof. reflexivity. Qed.

Lemma append_nil_l (t : string) : "" +:+ t = t.
Proof. reflexivity. Qed.

Lemma append_assoc (s t u : string) : (s +:+ t) +:+ u = s +:+ (t +:+ u).
Proof. induction s as [|c s IH]; [done|]. by rewrite !append_cons, IH. Qed.

Lemma strip_prefix_app (p s : string) : PyLex.strip_prefix p (p +:+ s) = Some s.
Proof.
  induction p as [|c p IH]; [by destruct s|].
  rewrite append_cons. simpl. by rewrite Ascii.eqb_refl.
Qed.

Lemma escape_command_cons (c : ascii) (t : string) :
  TestRunner.escape_command (String c t) =
  if Ascii.eqb c "'"
  then TestRunner.quote_replacement +:+ TestRunner.escape_command t
  else String c (TestRunner.escape_command t).
Proof. reflexivity. Qed.

(** After an escaped command and the closing quote, no triple quote
    opens. *)
Lemma no_triple_quote (cmd tail : string) :
  PyLex.opens_triple "'"
    (TestRunner.escape_command cmd +:+ String "'" (String "," tail)) = false.
Proof.
  destruct cmd as [|c t]; [done|].
  rewrite escape_command_cons. destruct (Ascii.eqb c "'") eqn:Hc.
  - done.
  - rewrite append_cons. simpl. by rewrite Hc.
Qed.

Lemma scan_escaped (cmd tail : string) :
  PyLex.all_plain cmd = true →
  PyLex.scan (Some "'"%char)
    (TestRunner.escape_command cmd +:+ String "'" (String "," tail))
  = PyLex.Parsed cmd (String "," tail).
Proof.
  induction cmd as [|c t IH]; intros Hplain; [done|].
  simpl in Hplain. apply andb_true_iff in Hplain as [Hc Ht].
  specialize (IH Ht).
  rewrite escape_command_cons. destruct (Ascii.eqb c "'") eqn:Hq.
  - apply Ascii.eqb_eq in Hq as ->.
    unfold TestRunner.quote_replacement. rewrite !append_cons, append_nil_l.
    cbn [PyLex.scan]. cbn -[PyLex.scan String.append TestRunner.escape_command].
    rewrite no_triple_quote. by rewrite IH.
  - rewrite append_cons. cbn [PyLex.scan]. rewrite Hq.
    unfold PyLex.is_plain in Hc. apply negb_true_iff, orb_false_iff in Hc as [Hb Hl].
    by rewrite Hl, Hb, IH.
Qed.

(** C4, as the code has it. For every test command without backslash,
    line break or NUL character, and whatever single or double quotes it
    contains, the quoted command in the execution snippet reads back as
    the original command: the command that runs is the command given.
    This holds for any text that follows the argument and starts with a
    comma, so for the snippets of both runners. *)
Theorem quoted_command_reads_back (test_command : string) :
  PyLex.all_plain test_command = true →
  (∀ tail,
     PyLex.scan None
       (String "'" (TestRunner.escape_command test_command) +:+
        String "'" (String "," tail))
     = PyLex.Parsed test_command (String "," tail)) ∧
  PyLex.command_in (TestRunner.test_code test_command)
  = PyLex.Parsed test_command TestRunner.snippet_tail.
Proof.
  intros Hplain.
  assert (Hscan : ∀ tail,
    PyLex.scan None
      (String "'" (TestRunner.escape_command test_command) +:+
       String "'" (String "," tail))
    = PyLex.Parsed test_command (String "," tail)).
  { intros tail. rewrite append_cons. cbn [PyLex.scan].
    cbn -[PyLex.scan String.append TestRunner.escape_command].
    rewrite no_triple_quote. by apply scan_escaped. }
  split; [exact Hscan|].
  unfold PyLex.command_in, TestRunner.test_code.
  rewrite strip_prefix_app.
  assert (Htail : ∃ t, TestRunner.snippet_tail = String "," t)
    by (eexists; vm_compute; reflexivity).
  destruct Htail as [t ->]. apply Hscan.
Qed.

Lemma quoted_command_reads_back_witness :
  let test_command :=
    "python -m pytest -k 'not slow' -m " +:+ String "034" ("unit" +:+ String "034" "") in
  PyLex.command_in (TestRunner.test_code test_command)
  = PyLex.Parsed test_command TestRunner.snippet_tail.
Proof.
  cbn zeta.
  apply (quoted_command_reads_back
           ("python -m pytest -k 'not slow' -m " +:+
            String "034" ("unit" +:+ String "034" ""))).
  vm_compute. reflexivity.
Defined.

(** C4, as the specification words it, fails: a backslash in the command
    is read as the start of an escape sequence. The command
    [pytest C:\tests] reaches the shell with a tab in place of [\t]. *)
Lemma quoted_command_backslash_fails :
  PyLex.command_in (TestRunner.test_code "pytest C:\tests")
  = PyLex.Parsed ("pytest C:" +:+ String "009" "ests") TestRunner.snippet_tail ∧
  PyLex.command_in (TestRunner.test_code "pytest C:\tests")
  ≠ PyLex.Parsed "pytest C:\tests" TestRunner.snippet_tail.
Proof.
  split; [vm_compute; reflexivity|]. vm_compute. discriminate.
Qed.

(** ** Import extraction (C5) *)

Lemma with_first_segment_spec (module : string) :
  module ∈ Resolver.with_first_segment module ∧
  (Py.contains "." module = true →
   List.hd "" (Py.split "." module) ∈ Resolver.with_first_segment module).
Proof.
  unfold Resolver.with_first_segment. split; [set_solver|].
  intros ->. set_solver.
Qed.

Lemma file_imports_subset (ast_parse : string → option (list Resolver.import_node))
    (test_files : fileset) (file_path content : string) :
  test_files !! file_path = Some content →
  Resolver.file_imports ast_parse file_path content
  ⊆ Resolver.parse_imports_from_test_files ast_parse test_files.
Proof.
  intros Hf m Hm. unfold Resolver.parse_imports_from_test_files.
  apply elem_of_union_list. eexists. split; [|exact Hm].
  apply list_elem_of_fmap. exists (file_path, content). split; [done|].
  by apply elem_of_map_to_list.
Qed.

(** In both modes a captured dotted module enters the set together with
    its first segment. *)
Lemma dotted_import_adds_both (ast_parse : string → option (list Resolver.import_node))
    (test_files : fileset) (file_path content module : string) :
  test_files !! file_path = Some content →
  Py.endswith file_path ".py" = true →
  (∃ nodes, ast_parse content = Some nodes ∧
            (Resolver.ImportFrom (Some module) ∈ nodes ∧ module ≠ "" ∨
             ∃ names, Resolver.Import names ∈ nodes ∧ module ∈ names)) ∨
  (ast_parse content = None ∧
   ∃ line, line ∈ Py.split "010" content ∧
           Resolver.match_import_pattern (Py.strip line) = Some module) →
  let imported := Resolver.parse_imports_from_test_files ast_parse test_files in
  module ∈ imported ∧
  (Py.contains "." module = true → List.hd "" (Py.split "." module) ∈ imported).
Proof.
  intros Hf Hpy Hcap. cbn zeta.
  pose proof (file_imports_subset ast_parse test_files file_path content Hf) as Hsub.
  destruct (with_first_segment_spec module) as [Hfull Hfirst].
  assert (Hin : Resolver.with_first_segment module
                ⊆ Resolver.file_imports ast_parse file_path content).
  { unfold Resolver.file_imports. rewrite Hpy. simpl.
    destruct Hcap as [(nodes & -> & Hnode) | (-> & line & Hline & Hm)].
    - intros x Hx. apply elem_of_union_list.
      destruct Hnode as [[Hnode Hne] | (names & Hnode & Hname)].
      + exists (Resolver.node_imports (Resolver.ImportFrom (Some module))).
        split; [by apply list_elem_of_fmap_2|]. simpl.
        by rewrite (proj2 (String.eqb_neq module "")).
      + exists (Resolver.node_imports (Resolver.Import names)).
        split; [by apply list_elem_of_fmap_2|]. simpl.
        apply elem_of_union_list. exists (Resolver.with_first_segment module).
        split; [by apply list_elem_of_fmap_2|done].
    - intros x Hx. apply elem_of_union_list.
      exists (Resolver.line_imports line).
      split; [by apply list_elem_of_fmap_2|].
      unfold Resolver.line_imports. by rewrite Hm. }
  split; [apply Hsub, Hin, Hfull|].
  intros Hdot. apply Hsub, Hin, Hfirst, Hdot.
Qed.

(** The example of the specification, in the fallback mode. *)
Lemma from_import_line_example :
  Resolver.line_imports "from app.auth import login" = {["app.auth"; "app"]}.
Proof. vm_compute. reflexivity. Qed.

(** C5 (where the code departs from the claim). In the fallback mode the
    pattern has no [import] keyword in it: on a line [import app.auth] it
    captures the word [import], not the module, and it captures the first
    word of any line that starts with an identifier, import or not. A test
    file with a syntax error and the lines below yields the set
    [import], [def], [pass], without [app.auth] or [app]. *)
Theorem fallback_captures_first_words
    (ast_parse : string → option (list Resolver.import_node)) :
  let content :=
    "import app.auth" +:+ String "010" "def test_login(:" +:+
    String "010" "    pass" in
  ast_parse content = None →
  Resolver.parse_imports_from_test_files ast_parse
    (<["tests/test_auth.py" := content]> ∅)
  = {["import"; "def"; "pass"]}.
Proof.
  cbn zeta. intros Hsyntax.
  unfold Resolver.parse_imports_from_test_files.
  rewrite insert_empty, map_to_list_singleton. simpl.
  unfold Resolver.file_imports. rewrite Hsyntax.
  vm_compute. reflexivity.
Qed.

Lemma fallback_captures_first_words_witness :
  Resolver.parse_imports_from_test_files (fun _ => None)
    (<["tests/test_auth.py" :=
         "import app.auth" +:+ String "010" "def test_login(:" +:+
         String "010" "    pass"]> ∅)
  = {["import"; "def"; "pass"]}.
Proof.
  apply (fallback_captures_first_words (fun _ => None)). reflexivity.
Defined.

(** * Further properties of the code *)

(** ** The bot interaction tracker ([github_client.py]) *)

Lemma existsb_app_bool {A : Type} (f : A → bool) (l k : list A) :
  existsb f (l ++ k) = existsb f l || existsb f k.
Proof. induction l as [|x l IH]; [done|]. simpl. by rewrite IH, orb_assoc. Qed.

(** X1. [check_coderabbit_review] is the union of the three surfaces:
    when all three are read, it answers whether any comment or review on
    any of them is by the bot. It stops at the first surface with a bot
    comment: the later surfaces are then not asked, so their failure does
    not matter. *)
Theorem check_review_union (s : Github.surfaces) (comments : list comment) :
  Github.issue_comments_out s = Ok comments →
  (existsb Github.by_bot comments = true →
   Github.check_coderabbit_review s = Ok true) ∧
  (∀ review_comments,
     Github.review_comments_out s = Ok review_comments →
     (existsb Github.by_bot review_comments = true →
      Github.check_coderabbit_review s = Ok true) ∧
     ∀ reviews,
       Github.reviews_out s = Ok reviews →
       Github.check_coderabbit_review s
       = Ok (existsb Github.by_bot (comments ++ review_comments ++ reviews))).
Proof.
  intros H1. unfold Github.check_coderabbit_review. rewrite H1. simpl.
  split; [by intros ->|].
  intros l2 H2. rewrite H2. destruct (existsb Github.by_bot comments) eqn:E1.
  - split; [done|]. intros l3 _. by rewrite existsb_app_bool, E1.
  - simpl. split; [by intros ->|].
    intros l3 H3. rewrite H3. rewrite !existsb_app_bool, E1.
    by destruct (existsb Github.by_bot l2).
Qed.

Lemma check_review_union_witness :
  let s := Github.Surfaces (Ok [Comment "octocat" "nice"])
             (Ok [Comment "CodeRabbitAI" "Possible bug"]) (Raise "502") in
  Github.check_coderabbit_review s = Ok true.
Proof.
  cbn zeta.
  destruct (check_review_union
              (Github.Surfaces (Ok [Comment "octocat" "nice"])
                 (Ok [Comment "CodeRabbitAI" "Possible bug"]) (Raise "502"))
              [Comment "octocat" "nice"] eq_refl) as [_ H].
  destruct (H [Comment "CodeRabbitAI" "Possible bug"] eq_refl) as [Hbot _].
  apply Hbot. vm_compute. reflexivity.
Defined.

Lemma filter_by_bot_none (l : list comment) :
  existsb Github.by_bot l = false →
  filter (fun c => Github.by_bot c = true) l = [].
Proof.
  induction l as [|c l IH]; [done|]. simpl.
  intros [Hc Hl]%orb_false_iff. rewrite filter_cons, decide_False; [by apply IH|].
  by rewrite Hc.
Qed.

(** X2. The harvest reads fewer surfaces than the detection: when the
    bot has only submitted formal reviews (no issue comment, no review
    comment), [check_coderabbit_review] says there is a review while
    [get_coderabbit_comments] returns nothing, so no finding is
    produced. *)
Theorem formal_reviews_yield_no_finding (s : Github.surfaces)
    (comments review_comments reviews : list comment) :
  Github.issue_comments_out s = Ok comments →
  Github.review_comments_out s = Ok review_comments →
  Github.reviews_out s = Ok reviews →
  existsb Github.by_bot comments = false →
  existsb Github.by_bot review_comments = false →
  existsb Github.by_bot reviews = true →
  Github.check_coderabbit_review s = Ok true ∧
  Github.get_coderabbit_comments s = Ok [] ∧
  ∀ cs, Github.get_coderabbit_comments s = Ok cs →
        Tracker.collect_findings cs = [].
Proof.
  intros H1 H2 H3 E1 E2 E3.
  unfold Github.check_coderabbit_review, Github.get_coderabbit_comments.
  rewrite H1, H2, H3. simpl. rewrite E1, E2, E3. simpl.
  rewrite !filter_by_bot_none by done. split; [done|]. split; [done|].
  by intros cs [= <-].
Qed.

Lemma formal_reviews_yield_no_finding_witness :
  let s := Github.Surfaces (Ok []) (Ok [Comment "octocat" "nit"])
             (Ok [Comment "coderabbitai[bot]" "Changes requested"]) in
  Github.check_coderabbit_review s = Ok true ∧
  Github.get_coderabbit_comments s = Ok [].
Proof.
  cbn zeta.
  destruct (formal_reviews_yield_no_finding
              (Github.Surfaces (Ok []) (Ok [Comment "octocat" "nit"])
                 (Ok [Comment "coderabbitai[bot]" "Changes requested"]))
              [] [Comment "octocat" "nit"]
              [Comment "coderabbitai[bot]" "Changes requested"]
              eq_refl eq_refl eq_refl eq_refl eq_refl eq_refl)
    as (Hc & Hg & Hnone).
  split; [exact Hc | exact Hg].
Defined.

Lemma collect_findings_all_bot (cs : list comment) :
  Forall (fun c => Github.by_bot c = true) cs →
  Tracker._extract_review_info <$> cs = Some <$> Tracker.collect_findings cs.
Proof.
  induction 1 as [|c cs Hc _ IH]; [done|].
  destruct (extract_review_info_bot c Hc) as (f & Hf & _).
  unfold Tracker.collect_findings in *.
  rewrite fmap_cons. cbn [omap list_omap]. rewrite Hf, fmap_cons. by rewrite IH.
Qed.

(** X3. Every comment that [get_coderabbit_comments] returns is by the
    bot, comes from the issue comments or the review comments and keeps
    its place; and each of them yields a finding: the classifier's own
    author check rejects none, so there are as many findings as harvested
    comments, in the same order. *)
Theorem harvested_comments_all_classified (s : Github.surfaces) (cs : list comment) :
  Github.get_coderabbit_comments s = Ok cs →
  (∃ comments review_comments,
     Github.issue_comments_out s = Ok comments ∧
     Github.review_comments_out s = Ok review_comments ∧
     cs = filter (fun c => Github.by_bot c = true) comments
          ++ filter (fun c => Github.by_bot c = true) review_comments) ∧
  Forall (fun c => Github.by_bot c = true) cs ∧
  Tracker._extract_review_info <$> cs = Some <$> Tracker.collect_findings cs ∧
  length (Tracker.collect_findings cs) = length cs.
Proof.
  unfold Github.get_coderabbit_comments.
  destruct (Github.issue_comments_out s) as [l1|]; [|done].
  destruct (Github.review_comments_out s) as [l2|]; [|done]. simpl.
  intros [= <-].
  assert (Hall : Forall (fun c => Github.by_bot c = true)
                   (filter (fun c => Github.by_bot c = true) l1
                    ++ filter (fun c => Github.by_bot c = true) l2)).
  { apply Forall_app. split; apply Forall_forall; intros c Hc;
      by apply list_elem_of_filter in Hc as [? _]. }
  split; [by exists l1, l2|]. split; [done|].
  pose proof (collect_findings_all_bot _ Hall) as Heq.
  split; [done|].
  apply (f_equal length) in Heq. by rewrite !length_fmap in Heq.
Qed.

Lemma harvested_comments_all_classified_witness :
  let s := Github.Surfaces
             (Ok [Comment "coderabbitai" "Possible bug"; Comment "octocat" "ok"])
             (Ok [Comment "CodeRabbitAI" "Looks good"]) (Raise "unused") in
  ∃ cs, Github.get_coderabbit_comments s = Ok cs ∧
        length (Tracker.collect_findings cs) = 2.
Proof.
  cbn zeta. eexists. split; [reflexivity|].
  destruct (harvested_comments_all_classified
              (Github.Surfaces
                 (Ok [Comment "coderabbitai" "Possible bug"; Comment "octocat" "ok"])
                 (Ok [Comment "CodeRabbitAI" "Looks good"]) (Raise "unused"))
              _ eq_refl) as (_ & _ & _ & Hlen).
  exact Hlen.
Defined.

(** ** The search for the companion pull request
    ([github_client.py], [find_coderabbit_test_pr]) *)

Lemma search_cons (n : nat) (pr : Github.pull) (rest : list Github.pull) :
  Github.search n (pr :: rest) =
  match Github.body_lower pr with
  | Raise e => Raise e
  | Ok _ => if Github.qualifies n pr then Ok (Some pr) else Github.search n rest
  end.
Proof.
  unfold Github.qualifies. simpl.
  destruct (Github.body_lower pr) as [body|e]; [|done]. simpl.
  by destruct (Github.p_number pr =? n).
Qed.

(** A pull request the loop passes over: its body could be lower-cased
    and it does not qualify. *)
Lemma search_found (n : nat) (prs : list Github.pull) (pr : Github.pull) :
  Github.search n prs = Ok (Some pr) ↔
  ∃ pre post,
    prs = pre ++ pr :: post ∧ Github.qualifies n pr = true ∧
    Forall (fun q => is_ok (Github.body_lower q) = true ∧
                     Github.qualifies n q = false) pre.
Proof.
  induction prs as [|q rest IH].
  - split; [done|]. intros (pre & post & Hp & _). by destruct pre.
  - rewrite search_cons. split.
    + destruct (Github.body_lower q) as [body|e] eqn:Hb; [|done].
      destruct (Github.qualifies n q) eqn:Hq.
      * intros [= <-]. by exists [], rest.
      * intros (pre & post & -> & Hpr & Hpre)%IH.
        exists (q :: pre), post. split; [done|]. split; [done|].
        constructor; [by rewrite Hb|done].
    + intros (pre & post & Hp & Hpr & Hpre).
      destruct pre as [|q' pre]; simplify_eq/=.
      * unfold Github.qualifies in Hpr.
        destruct (Github.body_lower pr) as [body|e] eqn:Hb;
          [|by rewrite andb_false_r in Hpr].
        unfold Github.qualifies. by rewrite Hb, Hpr.
      * apply Forall_cons in Hpre as [[Hok Hq] Hpre].
        destruct (Github.body_lower q') as [body|e]; [|done].
        rewrite Hq. apply IH. by exists pre, post.
Qed.

Lemma search_none (n : nat) (prs : list Github.pull) :
  Github.search n prs = Ok None ↔
  Forall (fun q => is_ok (Github.body_lower q) = true ∧
                   Github.qualifies n q = false) prs.
Proof.
  induction prs as [|q rest IH]; [by split|].
  rewrite search_cons, Forall_cons.
  destruct (Github.body_lower q) as [body|e]; simpl; [|by split; [|intros [[? ?] ?]]].
  destruct (Github.qualifies n q); [by split; [|intros [[? ?] ?]]|].
  rewrite IH. by split; [|intros [_ ?]].
Qed.

Lemma search_raises (n : nat) (pre post : list Github.pull) (pr : Github.pull) (e : exn) :
  Forall (fun q => is_ok (Github.body_lower q) = true ∧
                   Github.qualifies n q = false) pre →
  Github.body_lower pr = Raise e →
  Github.search n (pre ++ pr :: post) = Raise e.
Proof.
  intros Hpre Hb. induction Hpre as [|q pre [Hok Hq] _ IH]; simpl app.
  - by rewrite search_cons, Hb.
  - rewrite search_cons. destruct (Github.body_lower q); [|done]. by rewrite Hq.
Qed.

Lemma qualifies_spec (n : nat) (pr : Github.pull) :
  Github.qualifies n pr = true →
  Github.p_number pr ≠ n ∧
  Github.by_some_bot pr = true ∧
  ∃ body, Github.body_lower pr = Ok body ∧
          Github.mentions_tests n (Py.lower (Github.p_title pr)) body = true.
Proof.
  unfold Github.qualifies. intros [Hn Hrest]%andb_true_iff.
  apply negb_true_iff, Nat.eqb_neq in Hn.
  destruct (Github.body_lower pr) as [body|]; [|done].
  apply andb_true_iff in Hrest as [Hm Hb]. eauto.
Qed.

(** X4. A pull request returned by [find_coderabbit_test_pr] is never the
    original one; its title or body has one of the keywords and its
    author's login contains "coderabbit" or "bot". It is the first such
    pull request of the open listing or, when no open one qualifies, the
    first among the ten first closed ones: a closed pull request beyond
    the tenth is never returned. *)
Theorem companion_pr_is_first_match (w : Github.listing) (n : nat) (pr : Github.pull) :
  Github.find_coderabbit_test_pr w n = Ok (Some pr) →
  Github.p_number pr ≠ n ∧
  Github.by_some_bot pr = true ∧
  (∃ body, Github.body_lower pr = Ok body ∧
           Github.mentions_tests n (Py.lower (Github.p_title pr)) body = true) ∧
  ∃ opens,
    Github.open_out w = Ok opens ∧
    ((∃ pre post, opens = pre ++ pr :: post ∧
                  Forall (fun q => Github.qualifies n q = false) pre) ∨
     (Forall (fun q => Github.qualifies n q = false) opens ∧
      ∃ closed pre post,
        Github.closed_out w = Ok closed ∧
        take 10 closed = pre ++ pr :: post ∧
        Forall (fun q => Github.qualifies n q = false) pre)).
Proof.
  unfold Github.find_coderabbit_test_pr.
  destruct (Github.original_out w); [|done]. simpl.
  destruct (Github.open_out w) as [opens|]; [|done]. simpl.
  destruct (Github.search n opens) as [[found|]|] eqn:Ho; [| |done]; simpl.
  - intros [= ->]. apply search_found in Ho as (pre & post & -> & Hq & Hpre).
    destruct (qualifies_spec _ _ Hq) as (? & ? & ?).
    repeat (split; [done|]). eexists. split; [done|]. left.
    exists pre, post. split; [done|]. eapply Forall_impl; [exact Hpre|].
    by intros q [_ ?].
  - apply search_none in Ho.
    destruct (Github.closed_out w) as [closed|]; [|done]. simpl.
    intros (pre & post & Hc & Hq & Hpre)%search_found.
    destruct (qualifies_spec _ _ Hq) as (? & ? & ?).
    repeat (split; [done|]). eexists. split; [done|]. right. split.
    + eapply Forall_impl; [exact Ho|]. by intros q [_ ?].
    + exists closed, pre, post. repeat (split; [done|]).
      eapply Forall_impl; [exact Hpre|]. by intros q [_ ?].
Qed.

Lemma companion_pr_is_first_match_witness :
  let original := Github.Pull 3 "Fix login" (Some (JStr "Adds a check")) "octocat" in
  let tests :=
    Github.Pull 4 "Add unit tests for PR #3" (Some (JStr "")) "coderabbitai[bot]" in
  let w := Github.Listing (Ok tt) (Ok [original; tests]) (Raise "unused") in
  Github.find_coderabbit_test_pr w 3 = Ok (Some tests) ∧
  Github.p_number tests ≠ 3 ∧ Github.by_some_bot tests = true.
Proof.
  cbn zeta.
  set (tests := Github.Pull 4 "Add unit tests for PR #3" (Some (JStr ""))
                  "coderabbitai[bot]").
  set (w := Github.Listing _ _ _).
  assert (Hfind : Github.find_coderabbit_test_pr w 3 = Ok (Some tests))
    by (vm_compute; reflexivity).
  destruct (companion_pr_is_first_match w 3 tests Hfind) as (Hn & Hbot & _).
  by repeat split.
Defined.

Lemma search_as_filter (n : nat) (prs : list Github.pull) :
  Forall (fun q => is_ok (Github.body_lower q) = true) prs →
  Github.search n prs
  = Ok (head (filter (fun q => Github.qualifies n q = true) prs)).
Proof.
  induction 1 as [|q rest Hq _ IH]; [done|].
  rewrite search_cons, filter_cons.
  destruct (Github.body_lower q); [|done].
  destruct (Github.qualifies n q).
  - by rewrite decide_True.
  - by rewrite decide_False.
Qed.

(** X5. When the listings can be read and every listed body is text (or
    absent), [find_coderabbit_test_pr] returns the first qualifying pull
    request of the open ones followed by the ten first closed ones, and
    nothing when none of them qualifies. *)
Theorem companion_pr_search_complete (w : Github.listing) (n : nat)
    (opens closed : list Github.pull) :
  Github.original_out w = Ok tt →
  Github.open_out w = Ok opens →
  Github.closed_out w = Ok closed →
  Forall (fun q => is_ok (Github.body_lower q) = true) (opens ++ take 10 closed) →
  Github.find_coderabbit_test_pr w n
  = Ok (head (filter (fun q => Github.qualifies n q = true)
                (opens ++ take 10 closed))).
Proof.
  intros Hw Ho Hc [Hopens Hclosed]%Forall_app.
  unfold Github.find_coderabbit_test_pr. rewrite Hw, Ho. simpl.
  rewrite (search_as_filter n opens Hopens). simpl. rewrite filter_app.
  destruct (filter _ opens) as [|pr l] eqn:Hf; simpl; [|done].
  rewrite Hc. simpl. by apply search_as_filter.
Qed.

Lemma companion_pr_search_complete_witness :
  let w := Github.Listing (Ok tt)
             (Ok [Github.Pull 3 "Fix login" (Some (JStr "Adds a check")) "octocat";
                  Github.Pull 5 "Bump deps" None "dependabot[bot]"])
             (Ok [Github.Pull 2 "Unit tests" (Some (JStr "old")) "octocat"]) in
  Github.find_coderabbit_test_pr w 3 = Ok None.
Proof.
  cbn zeta.
  rewrite (companion_pr_search_complete
             (Github.Listing (Ok tt)
                (Ok [Github.Pull 3 "Fix login" (Some (JStr "Adds a check")) "octocat";
                     Github.Pull 5 "Bump deps" None "dependabot[bot]"])
                (Ok [Github.Pull 2 "Unit tests" (Some (JStr "old")) "octocat"]))
             3
             [Github.Pull 3 "Fix login" (Some (JStr "Adds a check")) "octocat";
              Github.Pull 5 "Bump deps" None "dependabot[bot]"]
             [Github.Pull 2 "Unit tests" (Some (JStr "old")) "octocat"]
             eq_refl eq_refl eq_refl).
  - vm_compute. reflexivity.
  - repeat constructor.
Defined.

(** X6. The body of every pull request the search looks at is
    lower-cased before anything else is tested. A pull request without
    description ([body] is [null]) makes the search raise when the loop
    reaches it, be it the original one and also when a qualifying pull
    request is listed after it: among the open pull requests, and, when
    no open one qualifies, among the ten first closed ones. *)
Theorem companion_pr_search_null_body (w : Github.listing) (n : nat)
    (pre post : list Github.pull) (pr : Github.pull) :
  Github.original_out w = Ok tt →
  Forall (fun q => is_ok (Github.body_lower q) = true ∧
                   Github.qualifies n q = false) pre →
  Github.p_body pr = Some JNull →
  Github.open_out w = Ok (pre ++ pr :: post) ∨
  (∃ opens closed,
     Github.open_out w = Ok opens ∧
     Forall (fun q => is_ok (Github.body_lower q) = true ∧
                      Github.qualifies n q = false) opens ∧
     Github.closed_out w = Ok closed ∧
     take 10 closed = pre ++ pr :: post) →
  Github.find_coderabbit_test_pr w n
  = Raise "'NoneType' object has no attribute 'lower'".
Proof.
  intros Hw Hpre Hb Hlist. unfold Github.find_coderabbit_test_pr.
  assert (Hraise : Github.search n (pre ++ pr :: post)
                   = Raise "'NoneType' object has no attribute 'lower'").
  { apply search_raises; [done|]. unfold Github.body_lower. by rewrite Hb. }
  rewrite Hw. simpl.
  destruct Hlist as [Ho | (opens & closed & Ho & Hopens & Hc & Htake)].
  - rewrite Ho. simpl. by rewrite Hraise.
  - rewrite Ho. simpl. apply search_none in Hopens. rewrite Hopens. simpl.
    rewrite Hc. simpl. by rewrite Htake.
Qed.

Lemma companion_pr_search_null_body_witness :
  let tests := Github.Pull 4 "Add unit tests for PR #3" (Some (JStr ""))
                 "coderabbitai[bot]" in
  let plain := Github.Pull 3 "Fix login" (Some JNull) "octocat" in
  let old := Github.Pull 2 "Bump version" (Some (JStr "")) "octocat" in
  Github.find_coderabbit_test_pr
    (Github.Listing (Ok tt) (Ok [plain; tests]) (Ok [])) 3
  = Raise "'NoneType' object has no attribute 'lower'" ∧
  Github.find_coderabbit_test_pr
    (Github.Listing (Ok tt) (Ok [old]) (Ok [old; plain; tests])) 2
  = Raise "'NoneType' object has no attribute 'lower'".
Proof.
  cbn zeta. split.
  - apply (companion_pr_search_null_body _ 3 []
             [Github.Pull 4 "Add unit tests for PR #3" (Some (JStr ""))
                "coderabbitai[bot]"]
             (Github.Pull 3 "Fix login" (Some JNull) "octocat"));
      [reflexivity | constructor | reflexivity | by left].
  - apply (companion_pr_search_null_body _ 2
             [Github.Pull 2 "Bump version" (Some (JStr "")) "octocat"]
             [Github.Pull 4 "Add unit tests for PR #3" (Some (JStr ""))
                "coderabbitai[bot]"]
             (Github.Pull 3 "Fix login" (Some JNull) "octocat"));
      [reflexivity | | reflexivity |].
    + repeat constructor.
    + right.
      exists [Github.Pull 2 "Bump version" (Some (JStr "")) "octocat"],
        [Github.Pull 2 "Bump version" (Some (JStr "")) "octocat";
         Github.Pull 3 "Fix login" (Some JNull) "octocat";
         Github.Pull 4 "Add unit tests for PR #3" (Some (JStr ""))
           "coderabbitai[bot]"].
      split; [reflexivity|]. split; [repeat constructor|].
      split; reflexivity.
Defined.

(** ** The repository argument ([main.py], [parse_repo_name]) *)

Lemma prefix_char (c a : ascii) (t : string) :
  String.prefix (String c "") (String a t) = Ascii.eqb a c.
Proof.
  cbn [String.prefix]. destruct (ascii_dec c a) as [->|Hne].
  - rewrite Ascii.eqb_refl. by destruct t.
  - symmetry. apply Ascii.eqb_neq. congruence.
Qed.

Lemma contains_char_cons (c a : ascii) (t : string) :
  Py.contains (String c "") (String a t) = Ascii.eqb a c || Py.contains (String c "") t.
Proof. cbn [Py.contains]. by rewrite prefix_char. Qed.

Lemma contains_char_app (c : ascii) (s t : string) :
  Py.contains (String c "") (s +:+ t)
  = Py.contains (String c "") s || Py.contains (String c "") t.
Proof.
  induction s as [|a s IH]; [done|].
  by rewrite append_cons, !contains_char_cons, IH, orb_assoc.
Qed.

(** Splitting at a character and joining with it gives the string back,
    and no part has the character. *)
Lemma split_nonempty (c : ascii) (s : string) : Py.split c s ≠ [].
Proof.
  destruct s as [|a s]; [done|]. simpl.
  destruct (Ascii.eqb a c); [done|]. by destruct (Py.split c s).
Qed.

Lemma split_join (c : ascii) (s : string) :
  Main.join (String c "") (Py.split c s) = s.
Proof.
  induction s as [|a s IH]; [done|]. simpl.
  pose proof (split_nonempty c s) as Hne.
  destruct (Ascii.eqb a c) eqn:Ha.
  - apply Ascii.eqb_eq in Ha as ->.
    destruct (Py.split c s) as [|w ws] eqn:Hs; [done|].
    change (Main.join (String c "") ("" :: w :: ws))
      with (String c (Main.join (String c "") (w :: ws))).
    by rewrite IH.
  - destruct (Py.split c s) as [|w ws] eqn:Hs; [done|].
    destruct ws as [|w' ws]; simpl in *; by rewrite <- IH.
Qed.

Lemma split_parts (c : ascii) (s w : string) :
  w ∈ Py.split c s → Py.contains (String c "") w = false.
Proof.
  revert w. induction s as [|a s IH]; intros w; simpl.
  - by intros ->%list_elem_of_singleton.
  - destruct (Ascii.eqb a c) eqn:Ha.
    + intros [->|Hw]%elem_of_cons; [done|by apply IH].
    + destruct (Py.split c s) as [|w0 ws] eqn:Hs.
      * intros ->%list_elem_of_singleton. by rewrite contains_char_cons, Ha.
      * intros [->|Hw]%elem_of_cons.
        -- rewrite contains_char_cons, Ha. apply IH. by left.
        -- apply IH. by right.
Qed.

Lemma split_no_sep (c : ascii) (s : string) :
  Py.contains (String c "") s = false → Py.split c s = [s].
Proof.
  induction s as [|a s IH]; [done|].
  rewrite contains_char_cons. intros [Ha Hs]%orb_false_iff.
  simpl. by rewrite Ha, (IH Hs).
Qed.

Lemma split_app_sep (c : ascii) (s t : string) :
  Py.contains (String c "") s = false →
  Py.split c (s +:+ String c t) = s :: Py.split c t.
Proof.
  induction s as [|a s IH].
  - intros _. rewrite append_nil_l. simpl. by rewrite Ascii.eqb_refl.
  - rewrite contains_char_cons. intros [Ha Hs]%orb_false_iff.
    rewrite append_cons. simpl. by rewrite Ha, (IH Hs).
Qed.

(** X7. [parse_repo_name] accepts exactly the names with one slash, and
    splits them at it: it returns [(owner, repo)] if and only if the name
    is [owner/repo] with no slash in either part. Either part may be
    empty. *)
Theorem parse_repo_name_round_trip (repo_name owner repo : string) :
  Main.parse_repo_name repo_name = Ok (owner, repo) ↔
  repo_name = owner +:+ "/" +:+ repo ∧
  Py.contains "/" owner = false ∧ Py.contains "/" repo = false.
Proof.
  unfold Main.parse_repo_name. split.
  - destruct (Py.contains "/" repo_name); [|done].
    destruct (Py.split "/" repo_name) as [|o [|r [|x l]]] eqn:Hs; try done.
    intros [= -> ->].
    pose proof (split_join "/" repo_name) as Hj. rewrite Hs in Hj.
    split; [by rewrite <- Hj|].
    split; apply (split_parts "/" repo_name); rewrite Hs; set_solver.
  - intros (-> & Ho & Hr).
    change ("/" +:+ repo) with (String "/" repo).
    rewrite contains_char_app, Ho, contains_char_cons. simpl.
    by rewrite (split_app_sep "/" owner repo Ho), (split_no_sep "/" repo Hr).
Qed.

Lemma parse_repo_name_round_trip_witness :
  Main.parse_repo_name "danialeyz/ShipSure" = Ok ("danialeyz", "ShipSure").
Proof.
  apply (parse_repo_name_round_trip "danialeyz/ShipSure" "danialeyz" "ShipSure").
  by repeat split.
Defined.

(** ** What escapes [process_pr], and the entries of a batch
    ([pr_processor.py], [process_pr]; [main.py], [main]) *)

Section Batches.
Import TestRunner.
Variable ast_parse : string → option (list Resolver.import_node).
Variable describe_tests : fileset → list test_descr.

Lemma process_pr_cases (w : Pipeline.pr_world) (has_test_runner has_gpt_analyzer : bool)
    (pr_number : nat) (skip_tests skip_gpt : bool) (rn : runner) :
  let run :=
    Pipeline.process_pr ast_parse describe_tests w has_test_runner
      has_gpt_analyzer pr_number skip_tests skip_gpt rn in
  match Pipeline.pr_info_out w with
  | Raise e => run = (Raise e, rn)
  | Ok _ =>
      match Pipeline.has_review_out w with
      | Raise e => run = (Raise e, rn)
      | Ok false => ∃ res rn', run = (Ok res, rn')
      | Ok true =>
          match Pipeline.comments_out w with
          | Raise e => run = (Raise e, rn)
          | Ok _ => ∃ res rn', run = (Ok res, rn')
          end
      end
  end.
Proof.
  cbn zeta. unfold Pipeline.process_pr, mbind, M_bind, bind, lift, ret.
  destruct (Pipeline.pr_info_out w) as [pr_info|]; [|done].
  destruct (Pipeline.has_review_out w) as [[|]|]; [| |done].
  - destruct (Pipeline.comments_out w) as [cs|]; [|done].
    destruct (negb skip_tests && has_test_runner).
    + match goal with
      | |- context [Pipeline.test_step _ _ w ?r rn] =>
          destruct (test_step_total ast_parse describe_tests w r rn)
            as (res1 & rn1 & -> & _)
      end.
      by eexists _, _.
    + by eexists _, _.
  - destruct (negb skip_tests && has_test_runner).
    + match goal with
      | |- context [Pipeline.test_step _ _ w ?r rn] =>
          destruct (test_step_total ast_parse describe_tests w r rn)
            as (res1 & rn1 & -> & _)
      end.
      by eexists _, _.
    + by eexists _, _.
Qed.

(** X8. The only exceptions that escape [process_pr] are those of the
    first three calls: the fetch of the pull request, the check for a bot
    review and, when there is one, the harvest of the bot's comments. It
    then raises before any sandbox call. When these calls succeed it
    returns a result, whatever the test stage and the scoring stage
    meet. *)
Theorem process_pr_raises_iff (w : Pipeline.pr_world)
    (has_test_runner has_gpt_analyzer : bool) (pr_number : nat)
    (skip_tests skip_gpt : bool) (rn : runner) (e : exn) :
  let run :=
    Pipeline.process_pr ast_parse describe_tests w has_test_runner
      has_gpt_analyzer pr_number skip_tests skip_gpt rn in
  (run.1 = Raise e ↔
   Pipeline.pr_info_out w = Raise e ∨
   is_ok (Pipeline.pr_info_out w) = true ∧
   (Pipeline.has_review_out w = Raise e ∨
    Pipeline.has_review_out w = Ok true ∧ Pipeline.comments_out w = Raise e)) ∧
  (is_ok run.1 = false → run.2 = rn).
Proof.
  cbn zeta.
  pose proof (process_pr_cases w has_test_runner has_gpt_analyzer pr_number
                skip_tests skip_gpt rn) as H.
  cbn zeta in H.
  destruct (Pipeline.pr_info_out w) as [pr_info|e0].
  - destruct (Pipeline.has_review_out w) as [[|]|e1].
    + destruct (Pipeline.comments_out w) as [cs|e2].
      * destruct H as (res & rn' & ->). simpl. split; [|done].
        split; [done|]. intros [?|[_ [?|[_ ?]]]]; done.
      * rewrite H. simpl. split; [|done]. split.
        -- intros [= ->]. right. split; [done|]. by right.
        -- intros [?|[_ [?|[_ ?]]]]; congruence.
    + destruct H as (res & rn' & ->). simpl. split; [|done].
      split; [done|]. intros [?|[_ [?|[? _]]]]; done.
    + rewrite H. simpl. split; [|done]. split.
      * intros [= ->]. right. split; [done|]. by left.
      * intros [?|[_ [?|[? _]]]]; congruence.
  - rewrite H. simpl. split; [|done]. split.
    + intros [= ->]. by left.
    + intros [?|[? _]]; congruence.
Qed.

Lemma step_one_entry (skip_tests skip_gpt : bool) (i : nat) (it : Batch.item)
    (rn : runner) :
  (i mod 5 = 0 → is_ok (Batch.it_save_out it) = true) →
  Batch.entry_id <$> (Batch.step ast_parse describe_tests skip_tests skip_gpt i it rn).1
  = [Batch.it_number it].
Proof.
  intros Hsave. unfold Batch.step.
  destruct (Pipeline.process_pr _ _ _ _ _ _ _ _ rn) as [[res|e] rn'] eqn:Hp.
  - destruct (process_pr_risk _ _ _ _ _ _ _ _ _ _ _ Hp) as [Hid _].
    destruct (Nat.eqb_spec (i mod 5) 0) as [H0|_].
    + specialize (Hsave H0). destruct (Batch.it_save_out it); [|done].
      simpl. by rewrite Hid.
    + simpl. by rewrite Hid.
  - done.
Qed.

Lemma loop_one_entry_each (skip_tests skip_gpt : bool) (prs : list Batch.item)
    (i : nat) (rn : runner) :
  (∀ j it, prs !! j = Some it → (i + j) mod 5 = 0 →
           is_ok (Batch.it_save_out it) = true) →
  Batch.entry_id <$> (Batch.loop ast_parse describe_tests skip_tests skip_gpt i prs rn).1
  = Batch.it_number <$> prs.
Proof.
  revert i rn. induction prs as [|it rest IH]; intros i rn Hsave; [done|].
  rewrite loop_cons. cbn [fst]. rewrite fmap_app, fmap_cons.
  rewrite step_one_entry.
  - simpl. f_equal. apply IH. intros j it' Hj Hmod.
    apply (Hsave (S j) it' Hj). by replace (i + S j) with (S i + j) by lia.
  - intros Hmod. apply (Hsave 0 it eq_refl). by rewrite Nat.add_0_r.
Qed.

(** X9. When every checkpoint write succeeds, the results of a batch
    hold exactly one entry per pull request of the listing, in the order
    of the listing: the identifiers of the entries are the numbers of the
    pull requests, whether they were processed or failed. *)
Theorem batch_one_entry_per_pr (skip_tests skip_gpt : bool) (prs : list Batch.item)
    (rn : runner) :
  (∀ j it, prs !! j = Some it → (S j) mod 5 = 0 →
           is_ok (Batch.it_save_out it) = true) →
  Batch.entry_id <$>
    Batch.pull_requests ast_parse describe_tests skip_tests skip_gpt prs rn
  = Batch.it_number <$> prs.
Proof.
  intros Hsave. unfold Batch.pull_requests. apply loop_one_entry_each.
  intros j it Hj Hmod. by apply (Hsave j it Hj).
Qed.

(** X10. With [--max-prs n] for [n] from 1 to 4, the batch has exactly
    as many entries as pull requests were selected, at most [n]: no
    checkpoint is written before the fifth pull request. A value of 0
    selects every pull request. *)
Theorem max_prs_bounds_entries (skip_tests skip_gpt : bool) (prs : list Batch.item)
    (rn : runner) (n : Z) :
  (0 < n < 5)%Z →
  length (Batch.pull_requests ast_parse describe_tests skip_tests skip_gpt
            (Main.select_prs (Some n) prs) rn)
  = Z.to_nat n `min` length prs ∧
  Main.select_prs (Some 0%Z) prs = prs.
Proof.
  intros Hn. split; [|done].
  assert (Hsel : Main.select_prs (Some n) prs = take (Z.to_nat n) prs).
  { unfold Main.select_prs.
    destruct (Z.eqb_spec n 0); [lia|]. destruct (Z.ltb_spec 0 n); [done|lia]. }
  rewrite Hsel. unfold Batch.pull_requests.
  rewrite <- (length_fmap Batch.entry_id), loop_one_entry_each.
  - by rewrite length_fmap, length_take.
  - intros j it Hj Hmod. apply lookup_lt_Some in Hj.
    rewrite length_take in Hj.
    assert (S j < 5) by lia.
    rewrite Nat.mod_small in Hmod by lia. lia.
Qed.

End Batches.

Lemma process_pr_raises_iff_witness :
  let quiet : Pipeline.test_stage :=
    Pipeline.TestStage (Raise "") (Raise "")
      (Resolver.Github (Raise "") (Raise "") (Raise "") (fun _ _ => Raise ""))
      (TestRunner.Daytona (Raise "") (fun _ => Raise "") (fun _ => Raise "")
         (fun _ => Raise "") (fun _ => Raise "")) in
  let w : Pipeline.pr_world :=
    Pipeline.PRWorld
      (Ok (<["title" := JStr "Fix login"]> ∅))
      (Ok true) (Raise "403 Forbidden") (Raise "") (Ok None) quiet (Ok ∅)
      (fun _ => Ok (JObj (<["risk" := JNum 80]> ∅))) in
  let rn := TestRunner.Runner None [] in
  let run := Pipeline.process_pr (fun _ => None) (fun _ => []) w true true 3
               false false rn in
  run.1 = Raise "403 Forbidden" ∧ run.2 = rn.
Proof.
  cbn zeta.
  set (w := Pipeline.PRWorld _ _ _ _ _ _ _ _).
  set (rn := TestRunner.Runner None []).
  destruct (process_pr_raises_iff (fun _ => None) (fun _ => []) w true true 3
              false false rn "403 Forbidden") as [[_ Hraise] Hrn].
  assert (H : (Pipeline.process_pr (fun _ => None) (fun _ => []) w true true 3
                 false false rn).1 = Raise "403 Forbidden").
  { apply Hraise. right. split; [reflexivity|]. right. split; reflexivity. }
  split; [exact H|]. apply Hrn. by rewrite H.
Defined.

Lemma batch_one_entry_per_pr_witness :
  let quiet : Pipeline.test_stage :=
    Pipeline.TestStage (Raise "") (Raise "")
      (Resolver.Github (Raise "") (Raise "") (Raise "") (fun _ _ => Raise ""))
      (TestRunner.Daytona (Raise "") (fun _ => Raise "") (fun _ => Raise "")
         (fun _ => Raise "") (fun _ => Raise "")) in
  let good : Pipeline.pr_world :=
    Pipeline.PRWorld
      (Ok (<["title" := JStr "Fix login"]> ∅))
      (Ok false) (Ok []) (Raise "") (Ok None) quiet (Ok ∅)
      (fun _ => Ok (JObj (<["risk" := JNum 80]> ∅))) in
  let gone : Pipeline.pr_world :=
    Pipeline.PRWorld (Raise "404 Not Found")
      (Ok false) (Ok []) (Raise "") (Ok None) quiet (Ok ∅)
      (fun _ => Raise "") in
  let prs :=
    [Batch.Item 11 (JStr "a") (JStr "") good (Raise "disk full");
     Batch.Item 12 (JStr "b") (JStr "") gone (Raise "disk full");
     Batch.Item 14 (JStr "c") (JStr "") good (Raise "disk full");
     Batch.Item 15 (JStr "d") (JStr "") gone (Raise "disk full");
     Batch.Item 17 (JStr "e") (JStr "") good (Ok ())] in
  Batch.entry_id <$>
    Batch.pull_requests (fun _ => None) (fun _ => []) true false prs
      (TestRunner.Runner None [])
  = [11; 12; 14; 15; 17].
Proof.
  cbn zeta.
  apply (batch_one_entry_per_pr (fun _ => None) (fun _ => []) true false).
  intros j it Hj Hmod.
  destruct j as [|[|[|[|[|j]]]]]; simpl in Hj; try discriminate.
  by injection Hj as <-.
Defined.

Lemma max_prs_bounds_entries_witness :
  let quiet : Pipeline.test_stage :=
    Pipeline.TestStage (Raise "") (Raise "")
      (Resolver.Github (Raise "") (Raise "") (Raise "") (fun _ _ => Raise ""))
      (TestRunner.Daytona (Raise "") (fun _ => Raise "") (fun _ => Raise "")
         (fun _ => Raise "") (fun _ => Raise "")) in
  let gone : Pipeline.pr_world :=
    Pipeline.PRWorld (Raise "404 Not Found")
      (Ok false) (Ok []) (Raise "") (Ok None) quiet (Ok ∅)
      (fun _ => Raise "") in
  let prs :=
    [Batch.Item 11 (JStr "a") (JStr "") gone (Ok ());
     Batch.Item 12 (JStr "b") (JStr "") gone (Ok ());
     Batch.Item 14 (JStr "c") (JStr "") gone (Ok ())] in
  length (Batch.pull_requests (fun _ => None) (fun _ => []) true true
            (Main.select_prs (Some 2%Z) prs) (TestRunner.Runner None []))
  = 2.
Proof.
  cbn zeta.
  refine (proj1 (max_prs_bounds_entries (fun _ => None) (fun _ => []) true true
                   _ (TestRunner.Runner None []) 2%Z _)).
  lia.
Defined.

(** ** Fetching the files of a pull request
    ([run_tests_daytona.py], [prepare_files_from_pr]) *)

Lemma fetch_lookup (w : Files.source) (st : Files.state) (q p c : string) :
  Files.files (Files.fetch w st q) !! p = Some c →
  Files.files st !! p = Some c ∨
  (p = q ∧ ∃ k, Files.content_out w k p = Ok c).
Proof.
  unfold Files.fetch.
  destruct (Files.content_out w (length (Files.requests st)) q) as [content|e] eqn:Hc;
    simpl; [|by left].
  destruct (decide (q = p)) as [->|Hne].
  - rewrite lookup_insert_eq. intros [= ->]. right. eauto.
  - rewrite lookup_insert_ne by done. by left.
Qed.

Lemma foldl_fetch_lookup (w : Files.source) (paths : list string)
    (st : Files.state) (p c : string) :
  Files.files (foldl (Files.fetch w) st paths) !! p = Some c →
  Files.files st !! p = Some c ∨
  (p ∈ paths ∧ ∃ k, Files.content_out w k p = Ok c).
Proof.
  revert st. induction paths as [|q rest IH]; intros st; simpl; [by left|].
  intros [H|[Hin Hk]]%IH.
  - apply fetch_lookup in H as [H|[-> Hk]]; [by left|].
    right. split; [by left|done].
  - right. split; [by right|done].
Qed.

(** X11. Every file [prepare_files_from_pr] returns was asked for and
    delivered: its content is what a content request for that path
    answered. When the whole branch is fetched and the listing is
    available, the path is a [.py] path of the listing without [test] in
    its lower-cased form; otherwise it is a changed file whose status is
    [added] or [modified]. A deleted or renamed file is never returned. *)
Theorem prepared_files_provenance (w : Files.source) (fetch_all : bool)
    (files : fileset) (p c : string) :
  Files.prepare_files_from_pr w fetch_all = Ok files →
  files !! p = Some c →
  (∃ k, Files.content_out w k p = Ok c) ∧
  ((fetch_all = true ∧
    ∃ tree, Files.tree_out w = Ok tree ∧ p ∈ tree ∧
            Py.endswith p ".py" = true ∧
            Py.contains "test" (Py.lower p) = false) ∨
   ((fetch_all = false ∨ is_ok (Files.tree_out w) = false) ∧
    ∃ pr_files f,
      Files.changed_out w = Ok pr_files ∧ f ∈ pr_files ∧
      Files.cf_filename f = p ∧
      (Files.cf_status f = "added" ∨ Files.cf_status f = "modified"))).
Proof.
  unfold Files.prepare_files_from_pr, Files.prepare.
  destruct (Files.info_out w) as [sha|]; [|done]. cbn [mbind result_bind].
  assert (Hchanged : ∀ files,
    Files.files <$> Files.changed_files w Files.init = Ok files →
    files !! p = Some c →
    (∃ k, Files.content_out w k p = Ok c) ∧
    ∃ pr_files f,
      Files.changed_out w = Ok pr_files ∧ f ∈ pr_files ∧
      Files.cf_filename f = p ∧
      (Files.cf_status f = "added" ∨ Files.cf_status f = "modified")).
  { intros fs. unfold Files.changed_files.
    destruct (Files.changed_out w) as [pr_files|]; [|done]. simpl.
    intros [= <-] [H|[Hin Hk]]%foldl_fetch_lookup; [done|].
    split; [done|].
    apply list_elem_of_fmap in Hin as (f & -> & Hf).
    apply list_elem_of_filter in Hf as [Hkept Hf].
    exists pr_files, f. repeat split; [done|].
    unfold Files.is_kept in Hkept. apply bool_decide_eq_true in Hkept.
    rewrite !elem_of_cons, elem_of_nil in Hkept. tauto. }
  destruct fetch_all.
  - destruct (Files.tree_out w) as [tree|e] eqn:Ht.
    + simpl. intros [= <-] [H|[Hin Hk]]%foldl_fetch_lookup; [done|].
      split; [done|]. left. split; [done|]. exists tree.
      apply list_elem_of_filter in Hin as [Hsrc Hin].
      unfold Files.is_source_path in Hsrc.
      apply andb_true_iff in Hsrc as [Hpy Htest].
      apply negb_true_iff in Htest. done.
    + intros Hfs Hp. destruct (Hchanged _ Hfs Hp) as [Hk Hc].
      split; [done|]. right. split; [by right|done].
  - intros Hfs Hp. destruct (Hchanged _ Hfs Hp) as [Hk Hc].
    split; [done|]. right. split; [by left|done].
Qed.

Lemma foldl_fetch_stable (w : Files.source) (contents : string → result string)
    (paths : list string) (st : Files.state) (p : string) :
  (∀ k q, Files.content_out w k q = contents q) →
  Files.files (foldl (Files.fetch w) st paths) !! p =
  if bool_decide (p ∈ paths) then
    match contents p with
    | Ok c => Some c
    | Raise _ => Files.files st !! p
    end
  else Files.files st !! p.
Proof.
  intros Hstable. revert st.
  induction paths as [|q rest IH]; intros st; simpl; [done|].
  rewrite IH.
  assert (Hq : Files.files (Files.fetch w st q) !! p =
               if bool_decide (p = q) then
                 match contents p with
                 | Ok c => Some c
                 | Raise _ => Files.files st !! p
                 end
               else Files.files st !! p).
  { unfold Files.fetch. rewrite Hstable.
    destruct (decide (p = q)) as [->|Hpq].
    - rewrite bool_decide_eq_true_2 by done.
      destruct (contents q); simpl; [by rewrite lookup_insert_eq|done].
    - rewrite bool_decide_eq_false_2 by done.
      destruct (contents q); simpl; [by rewrite lookup_insert_ne|done]. }
  rewrite Hq. clear Hq IH.
  destruct (decide (p = q)) as [->|Hpq].
  - rewrite (bool_decide_eq_true_2 (q = q)) by done.
    rewrite (bool_decide_eq_true_2 (q ∈ q :: rest)) by (by left).
    destruct (bool_decide (q ∈ rest)); by destruct (contents q).
  - rewrite (bool_decide_eq_false_2 (p = q)) by done.
    destruct (decide (p ∈ rest)) as [Hin|Hin].
    + rewrite (bool_decide_eq_true_2 (p ∈ rest)) by done.
      by rewrite (bool_decide_eq_true_2 (p ∈ q :: rest)) by (by right).
    + rewrite (bool_decide_eq_false_2 (p ∈ rest)) by done.
      rewrite (bool_decide_eq_false_2 (p ∈ q :: rest)); [done|].
      by intros [?|?]%elem_of_cons.
Qed.

(** X12. On a branch whose files do not change while they are fetched,
    [prepare_files_from_pr] returns exactly the candidate files whose
    download succeeds, each with its content; a failed download only
    leaves the file out. The candidates are the non-test [.py] paths of
    the listing when the whole branch is asked for, and the added or
    modified changed files otherwise; a listing that cannot be fetched
    falls back to the changed files. *)
Theorem prepared_files_of_stable_branch (w : Files.source)
    (contents : string → result string) :
  (∀ k q, Files.content_out w k q = contents q) →
  is_ok (Files.info_out w) = true →
  let delivered p :=
    match contents p with Ok c => Some c | Raise _ => None end in
  (∀ tree, Files.tree_out w = Ok tree →
     ∃ files, Files.prepare_files_from_pr w true = Ok files ∧
       ∀ p, files !! p =
            if bool_decide (p ∈ tree) && Py.endswith p ".py"
               && negb (Py.contains "test" (Py.lower p))
            then delivered p else None) ∧
  (∀ pr_files, Files.changed_out w = Ok pr_files →
     ∃ files, Files.prepare_files_from_pr w false = Ok files ∧
       (is_ok (Files.tree_out w) = false →
        Files.prepare_files_from_pr w true = Ok files) ∧
       ∀ p,
         ((∃ f, f ∈ pr_files ∧ Files.cf_filename f = p ∧
                Files.cf_status f ∈ ["added"; "modified"]) →
          files !! p = delivered p) ∧
         ((∀ f, f ∈ pr_files → Files.cf_filename f = p →
                Files.cf_status f ∉ ["added"; "modified"]) →
          files !! p = None)).
Proof.
  intros Hstable Hinfo. cbn zeta.
  unfold Files.prepare_files_from_pr, Files.prepare.
  destruct (Files.info_out w) as [sha|]; [|done]. cbn [mbind result_bind].
  split.
  - intros tree ->. eexists. split; [reflexivity|]. intros p.
    rewrite (foldl_fetch_stable w contents) by done. simpl.
    unfold Files.is_source_path.
    rewrite lookup_empty.
    case_bool_decide as Hin.
    + apply list_elem_of_filter in Hin as [Hsrc Hin].
      rewrite bool_decide_eq_true_2 by done.
      unfold Files.is_source_path in Hsrc. rewrite <- andb_assoc, Hsrc. simpl.
      by destruct (contents p).
    + destruct (bool_decide (p ∈ tree)) eqn:Hp; [|done].
      apply bool_decide_eq_true in Hp.
      destruct (Py.endswith p ".py" && negb (Py.contains "test" (Py.lower p)))
        eqn:Hsrc; rewrite <- andb_assoc, Hsrc; [|done].
      exfalso. apply Hin. by apply list_elem_of_filter.
  - intros pr_files Hch. unfold Files.changed_files. rewrite Hch. simpl.
    eexists. split; [reflexivity|]. split.
    { by destruct (Files.tree_out w). }
    intros p. rewrite (foldl_fetch_stable w contents) by done. simpl.
    rewrite lookup_empty.
    assert (Hiff : p ∈ Files.cf_filename <$>
                     filter (fun f => Files.is_kept f = true) pr_files ↔
                   ∃ f, f ∈ pr_files ∧ Files.cf_filename f = p ∧
                        Files.cf_status f ∈ ["added"; "modified"]).
    { rewrite list_elem_of_fmap. split.
      - intros (f & -> & [Hk Hf]%list_elem_of_filter). exists f.
        repeat split; [done|]. by apply bool_decide_eq_true in Hk.
      - intros (f & Hf & <- & Hk). exists f. split; [done|].
        apply list_elem_of_filter. split; [|done].
        by apply bool_decide_eq_true. }
    split.
    + intros Hex. apply Hiff in Hex. rewrite bool_decide_eq_true_2 by done.
      by destruct (contents p).
    + intros Hno. rewrite bool_decide_eq_false_2; [done|].
      intros (f & Hf & Hname & Hk)%Hiff. by apply (Hno f).
Qed.

Lemma prepared_files_provenance_witness :
  let w : Files.source :=
    Files.Source (Ok "4f2a")
      (Ok ["app/auth.py"; "tests/test_auth.py"; "README.md"]) (Raise "")
      (fun _ p => if String.eqb p "app/auth.py" then Ok "code" else Raise "404") in
  Files.prepare_files_from_pr w true = Ok (<["app/auth.py" := "code"]> ∅) ∧
  ∃ k, Files.content_out w k "app/auth.py" = Ok "code".
Proof.
  cbn zeta.
  set (w := Files.Source _ _ _ _).
  assert (Hrun : Files.prepare_files_from_pr w true
                 = Ok (<["app/auth.py" := "code"]> ∅))
    by (vm_compute; reflexivity).
  split; [exact Hrun|].
  exact (proj1 (prepared_files_provenance w true _ "app/auth.py" "code"
                  Hrun eq_refl)).
Defined.

Lemma prepared_files_of_stable_branch_witness :
  let contents p :=
    if String.eqb p "app/auth.py" then Ok "code" else Raise "404" in
  let w : Files.source :=
    Files.Source (Ok "4f2a")
      (Ok ["app/auth.py"; "app/models.py"; "tests/test_auth.py"]) (Raise "")
      (fun _ => contents) in
  ∃ files,
    Files.prepare_files_from_pr w true = Ok files ∧
    files !! "app/auth.py" = Some "code" ∧
    files !! "app/models.py" = None ∧
    files !! "tests/test_auth.py" = None.
Proof.
  cbn zeta.
  set (contents := fun p : string =>
         if String.eqb p "app/auth.py" then Ok "code" else Raise "404").
  set (w := Files.Source _ _ _ _).
  destruct (prepared_files_of_stable_branch w contents) as [Htree _];
    [done | reflexivity |].
  destruct (Htree _ eq_refl) as (files & Hrun & Hfiles).
  exists files. split; [exact Hrun|].
  rewrite !Hfiles. repeat split; vm_compute; reflexivity.
Defined.

(** ** The requests of the source resolver
    ([run_tests_daytona.py], [fetch_source_files_from_imports]) *)

Section Requests.
Variable gh : Resolver.github.
Variable existing_files : fileset.
Variable modules : list string.
Variable P : Resolver.state → Prop.

(** A property of the resolver's state that every content request keeps
    holds all along the two loops. *)
Hypothesis P_request : ∀ file_path module record_match st,
  P st →
  module ∈ modules →
  existing_files !! file_path = None →
  Resolver.source_files st !! file_path = None →
  Py.contains "test" (Py.lower file_path) = false →
  Py.endswith file_path ".py" = true →
  Resolver.matches_file (Py.basename file_path)
    (Py.splitext_root (Py.basename file_path)) module
  || bool_decide (module ∈ Resolver.path_parts file_path) = true →
  P (Resolver.try_fetch gh file_path module record_match st).2.

Lemma try_fetch_failed (file_path module : string) (record_match : bool)
    (st st' : Resolver.state) :
  Resolver.try_fetch gh file_path module record_match st = (false, st') →
  Resolver.source_files st' = Resolver.source_files st.
Proof.
  unfold Resolver.try_fetch.
  destruct (Resolver.content_out gh _ _); [done|]. by intros [= <-].
Qed.

Lemma scan_modules_keeps (file_path : string) (mods : list string)
    (st : Resolver.state) :
  (∀ m, m ∈ mods → m ∈ modules) →
  existing_files !! file_path = None →
  Resolver.source_files st !! file_path = None →
  Py.contains "test" (Py.lower file_path) = false →
  Py.endswith file_path ".py" = true →
  P st →
  P (Resolver.scan_modules gh file_path mods st) ∧
  P (Resolver.scan_modules_fallback gh file_path mods st).
Proof using P_request.
  intros Hsub Hex Hsrc Htest Hpy. revert st Hsrc.
  induction mods as [|m rest IH]; intros st Hsrc HP; [done|].
  assert (Hrest : ∀ m', m' ∈ rest → m' ∈ modules)
    by (intros m' Hm'; apply Hsub; by right).
  assert (Hm : m ∈ modules) by (apply Hsub; by left).
  cbn [Resolver.scan_modules Resolver.scan_modules_fallback]. cbn zeta.
  destruct (Resolver.matches_file _ _ m || bool_decide (m ∈ _)) eqn:Hmatch;
    [|by apply IH].
  split.
  - pose proof (P_request file_path m true st HP Hm Hex Hsrc Htest Hpy Hmatch) as HP'.
    destruct (Resolver.try_fetch gh file_path m true st) as [[|] st'] eqn:Hf;
      [done|].
    apply IH; [done| |done]. by rewrite (try_fetch_failed _ _ _ _ _ Hf).
  - pose proof (P_request file_path m false st HP Hm Hex Hsrc Htest Hpy Hmatch) as HP'.
    destruct (Resolver.try_fetch gh file_path m false st) as [[|] st'] eqn:Hf;
      [done|].
    apply IH; [done| |done]. by rewrite (try_fetch_failed _ _ _ _ _ Hf).
Qed.

Lemma not_fetched_yet (file_path : string) (st : Resolver.state) :
  Resolver.already_fetched existing_files file_path st = false →
  existing_files !! file_path = None ∧
  Resolver.source_files st !! file_path = None.
Proof.
  unfold Resolver.already_fetched.
  intros [H1 H2]%orb_false_iff.
  apply bool_decide_eq_false in H1, H2.
  split; apply eq_None_not_Some; done.
Qed.

Lemma visit_keeps (st : Resolver.state) (file_path : string) :
  P st →
  P (Resolver.visit gh existing_files modules st file_path) ∧
  P (Resolver.visit_fallback gh existing_files modules st file_path).
Proof using P_request.
  intros HP. unfold Resolver.visit, Resolver.visit_fallback.
  destruct (Resolver.already_fetched existing_files file_path st) eqn:Hf; [done|].
  apply not_fetched_yet in Hf as [Hex Hsrc].
  unfold Resolver.is_test_path.
  destruct (Py.contains "test" (Py.lower file_path)) eqn:Htest; [done|].
  destruct (Py.endswith file_path ".py") eqn:Hpy;
    [|simpl; by destruct (_ || _)].
  simpl. split.
  - destruct (_ || _); [done|]. by apply scan_modules_keeps.
  - by apply scan_modules_keeps.
Qed.

Lemma foldl_visit_keeps (paths : list string) (st : Resolver.state) :
  P st →
  P (foldl (Resolver.visit gh existing_files modules) st paths) ∧
  P (foldl (Resolver.visit_fallback gh existing_files modules) st paths).
Proof using P_request.
  revert st. induction paths as [|p rest IH]; intros st HP; [done|]. simpl.
  destruct (visit_keeps st p HP) as [H1 H2].
  split; [apply (IH _ H1) | apply (IH _ H2)].
Qed.

End Requests.

Lemma resolve_keeps (gh : Resolver.github) (existing_files : fileset)
    (imported_modules : list string) (P : Resolver.state → Prop)
    (st : Resolver.state) :
  P Resolver.init →
  (∀ file_path module record_match st,
     P st →
     module ∈ imported_modules → module ∉ Resolver.stdlib_modules →
     existing_files !! file_path = None →
     Resolver.source_files st !! file_path = None →
     Py.contains "test" (Py.lower file_path) = false →
     Py.endswith file_path ".py" = true →
     Resolver.matches_file (Py.basename file_path)
       (Py.splitext_root (Py.basename file_path)) module
     || bool_decide (module ∈ Resolver.path_parts file_path) = true →
     P (Resolver.try_fetch gh file_path module record_match st).2) →
  Resolver.resolve gh existing_files imported_modules = Ok st →
  P st.
Proof.
  intros Hinit Hstep. unfold Resolver.resolve.
  destruct imported_modules as [|m0 ms] eqn:Himp; [by intros [= <-]|].
  rewrite <- Himp in *. clear Himp.
  destruct (Resolver.head_sha_out gh); [|done]. cbn [mbind result_bind].
  set (filtered := filter _ imported_modules).
  assert (Hkeep : ∀ paths,
    P (foldl (Resolver.visit gh existing_files filtered) Resolver.init paths) ∧
    P (foldl (Resolver.visit_fallback gh existing_files filtered) Resolver.init paths)).
  { intros paths. apply foldl_visit_keeps; [|done].
    intros p m b st0 HP [Hstd Hm]%list_elem_of_filter. by apply Hstep. }
  destruct filtered as [|m1 ms1] eqn:Hfil; [by intros [= <-]|].
  rewrite <- Hfil in *.
  destruct (Resolver.tree_out gh) as [tree|].
  - intros [= <-]. apply Hkeep.
  - destruct (Resolver.pr_files_out gh) as [pr_files|]; [|done].
    intros [= <-]. apply Hkeep.
Qed.

Lemma try_fetch_log (gh : Resolver.github) (file_path module : string)
    (record_match : bool) (st : Resolver.state) :
  ∃ b, Resolver.fetches (Resolver.try_fetch gh file_path module record_match st).2
       = Resolver.fetches st ++ [Resolver.Fetch file_path module b] ∧
       match Resolver.content_out gh (length (Resolver.fetches st)) file_path with
       | Ok c =>
           b = true ∧
           Resolver.source_files
             (Resolver.try_fetch gh file_path module record_match st).2
           = <[file_path := c]> (Resolver.source_files st)
       | Raise _ =>
           b = false ∧
           Resolver.source_files
             (Resolver.try_fetch gh file_path module record_match st).2
           = Resolver.source_files st
       end.
Proof.
  unfold Resolver.try_fetch.
  destruct (Resolver.content_out gh _ _); eexists; simpl; done.
Qed.

(** X13. The resolver asks for the content of a file only on behalf of an
    imported module that is not one of the listed standard-library
    modules and that the file matches (by its name, or as one of the
    directories of its path); the file is a [.py] file, has no [test] in
    its lower-cased path and is not among the files fetched before. So a
    repository file [os.py] is never fetched because of [import os]. *)
Theorem requests_only_for_imported_modules (gh : Resolver.github)
    (existing_files : fileset) (imported_modules : list string)
    (st : Resolver.state) (f : Resolver.fetch) :
  Resolver.resolve gh existing_files imported_modules = Ok st →
  f ∈ Resolver.fetches st →
  let file_name := Py.basename (Resolver.f_path f) in
  Resolver.f_module f ∈ imported_modules ∧
  (Resolver.f_module f ∉ Resolver.stdlib_modules) ∧
  (Py.splitext_root file_name = Resolver.f_module f ∨
   file_name = Resolver.f_module f +:+ ".py" ∨
   Resolver.f_module f ∈ Resolver.path_parts (Resolver.f_path f)) ∧
  Py.endswith (Resolver.f_path f) ".py" = true ∧
  Py.contains "test" (Py.lower (Resolver.f_path f)) = false ∧
  existing_files !! Resolver.f_path f = None.
Proof.
  intros Hres. cbn zeta. revert f.
  apply (resolve_keeps gh existing_files imported_modules
           (fun st => ∀ f, f ∈ Resolver.fetches st → _) st); [| |exact Hres].
  - intros f Hf. by apply elem_of_nil in Hf.
  - intros p m b st0 IH Hm Hstd Hex Hsrc Htest Hpy Hmatch f.
    destruct (try_fetch_log gh p m b st0) as (b' & -> & _).
    intros [Hf | ->%list_elem_of_singleton]%elem_of_app; [by apply IH|].
    simpl. repeat split; try done.
    apply orb_true_iff in Hmatch as [Hmatch|Hmatch].
    + unfold Resolver.matches_file in Hmatch.
      apply orb_true_iff in Hmatch as [H|H]; apply String.eqb_eq in H; tauto.
    + apply bool_decide_eq_true in Hmatch. tauto.
Qed.

(** X14. Every file the resolver returns carries the content that a
    request for that very path delivered, and it matches an imported
    module outside the standard-library list. *)
Theorem resolved_content_provenance (gh : Resolver.github)
    (existing_files : fileset) (imported_modules : list string)
    (source_files : fileset) (p c : string) :
  Resolver.fetch_source_files_from_imports gh existing_files imported_modules
  = Ok source_files →
  source_files !! p = Some c →
  ∃ k module,
    Resolver.content_out gh k p = Ok c ∧
    module ∈ imported_modules ∧ (module ∉ Resolver.stdlib_modules) ∧
    (Py.splitext_root (Py.basename p) = module ∨
     Py.basename p = module +:+ ".py" ∨
     module ∈ Resolver.path_parts p).
Proof.
  unfold Resolver.fetch_source_files_from_imports.
  destruct (Resolver.resolve gh existing_files imported_modules) as [st|] eqn:Hres;
    [|done].
  simpl. intros [= <-]. revert p c.
  apply (resolve_keeps gh existing_files imported_modules
           (fun st => ∀ p c, Resolver.source_files st !! p = Some c → _) st);
    [| |exact Hres].
  - intros p c. unfold Resolver.init. simpl. by rewrite lookup_empty.
  - intros q m b st0 IH Hm Hstd Hex Hsrc Htest Hpy Hmatch p c.
    destruct (try_fetch_log gh q m b st0) as (b' & _ & Hc).
    destruct (Resolver.content_out gh (length (Resolver.fetches st0)) q)
      as [content|e] eqn:Hq; destruct Hc as [_ ->]; [|by apply IH].
    destruct (decide (q = p)) as [->|Hne].
    + rewrite lookup_insert_eq. intros [= ->].
      exists (length (Resolver.fetches st0)), m. repeat split; try done.
      apply orb_true_iff in Hmatch as [Hmatch|Hmatch].
      * unfold Resolver.matches_file in Hmatch.
        apply orb_true_iff in Hmatch as [H|H]; apply String.eqb_eq in H; tauto.
      * apply bool_decide_eq_true in Hmatch. tauto.
    + rewrite lookup_insert_ne by done. by apply IH.
Qed.

Lemma requests_only_for_imported_modules_witness :
  let gh : Resolver.github :=
    Resolver.Github (Ok "4f2a") (Ok ["os.py"; "app/auth.py"]) (Raise "")
      (fun _ _ => Ok "code") in
  ∃ st,
    Resolver.resolve gh ∅ ["os"; "app"] = Ok st ∧
    Resolver.fetches st = [Resolver.Fetch "app/auth.py" "app" true] ∧
    ∀ f, f ∈ Resolver.fetches st →
         Resolver.f_module f ∉ Resolver.stdlib_modules.
Proof.
  cbn zeta.
  set (gh := Resolver.Github _ _ _ _).
  destruct (Resolver.resolve gh ∅ ["os"; "app"]) as [st|e] eqn:Hres.
  - exists st. split; [done|]. split.
    + vm_compute in Hres. by injection Hres as <-.
    + intros f Hf.
      by destruct (requests_only_for_imported_modules gh ∅ ["os"; "app"] st f
                     Hres Hf) as (_ & Hstd & _).
  - vm_compute in Hres. discriminate.
Defined.

Lemma resolved_content_provenance_witness :
  let gh : Resolver.github :=
    Resolver.Github (Ok "4f2a") (Ok ["os.py"; "app/auth.py"]) (Raise "")
      (fun _ _ => Ok "code") in
  Resolver.fetch_source_files_from_imports gh ∅ ["os"; "app"]
  = Ok (<["app/auth.py" := "code"]> ∅) ∧
  ∃ k module,
    Resolver.content_out gh k "app/auth.py" = Ok "code" ∧
    module ∈ ["os"; "app"] ∧ (module ∉ Resolver.stdlib_modules).
Proof.
  cbn zeta.
  set (gh := Resolver.Github _ _ _ _).
  assert (Hrun : Resolver.fetch_source_files_from_imports gh ∅ ["os"; "app"]
                 = Ok (<["app/auth.py" := "code"]> ∅))
    by (vm_compute; reflexivity).
  split; [exact Hrun|].
  destruct (resolved_content_provenance gh ∅ ["os"; "app"] _ "app/auth.py" "code"
              Hrun eq_refl) as (k & module & Hk & Hin & Hstd & _).
  by exists k, module.
Defined.

Lemma try_fetch_one_request (gh : Resolver.github) (file_path module : string)
    (record_match : bool) (st : Resolver.state) :
  length (Resolver.fetches (Resolver.try_fetch gh file_path module record_match st).2)
  = S (length (Resolver.fetches st)).
Proof.
  unfold Resolver.try_fetch.
  destruct (Resolver.content_out gh _ _); simpl; rewrite length_app; simpl; lia.
Qed.

Lemma scan_modules_requests (gh : Resolver.github) (file_path : string)
    (mods : list string) (st : Resolver.state) :
  length (Resolver.fetches (Resolver.scan_modules gh file_path mods st))
  ≤ length (Resolver.fetches st) + length mods ∧
  length (Resolver.fetches (Resolver.scan_modules_fallback gh file_path mods st))
  ≤ length (Resolver.fetches st) + length mods.
Proof.
  revert st. induction mods as [|m rest IH]; intros st; [simpl; lia|].
  cbn [Resolver.scan_modules Resolver.scan_modules_fallback length]. cbn zeta.
  destruct (Resolver.matches_file _ _ m || bool_decide (m ∈ _)).
  - split.
    + pose proof (try_fetch_one_request gh file_path m true st) as H1.
      destruct (Resolver.try_fetch gh file_path m true st) as [[|] st'];
        simpl in H1; [lia|].
      destruct (IH st') as [H _]. lia.
    + pose proof (try_fetch_one_request gh file_path m false st) as H1.
      destruct (Resolver.try_fetch gh file_path m false st) as [[|] st'];
        simpl in H1; [lia|].
      destruct (IH st') as [_ H]. lia.
  - destruct (IH st) as [H1 H2]. lia.
Qed.

Lemma visit_requests (gh : Resolver.github) (existing_files : fileset)
    (modules : list string) (st : Resolver.state) (file_path : string) :
  length (Resolver.fetches (Resolver.visit gh existing_files modules st file_path))
  ≤ length (Resolver.fetches st) + length modules ∧
  length (Resolver.fetches
            (Resolver.visit_fallback gh existing_files modules st file_path))
  ≤ length (Resolver.fetches st) + length modules.
Proof.
  unfold Resolver.visit, Resolver.visit_fallback.
  destruct (scan_modules_requests gh file_path modules st) as [H1 H2].
  destruct (Resolver.already_fetched existing_files file_path st); [lia|].
  destruct (Resolver.is_test_path file_path),
    (Py.contains "test" (Py.lower file_path)),
    (negb (Py.endswith file_path ".py")); lia.
Qed.

Lemma foldl_visit_requests (gh : Resolver.github) (existing_files : fileset)
    (modules paths : list string) (st : Resolver.state) :
  length (Resolver.fetches
            (foldl (Resolver.visit gh existing_files modules) st paths))
  ≤ length (Resolver.fetches st) + length paths * length modules ∧
  length (Resolver.fetches
            (foldl (Resolver.visit_fallback gh existing_files modules) st paths))
  ≤ length (Resolver.fetches st) + length paths * length modules.
Proof.
  revert st. induction paths as [|p rest IH]; intros st; [simpl; lia|].
  cbn [foldl length].
  destruct (visit_requests gh existing_files modules st p) as [H1 H2].
  destruct (IH (Resolver.visit gh existing_files modules st p)) as [H3 _].
  destruct (IH (Resolver.visit_fallback gh existing_files modules st p)) as [_ H4].
  lia.
Qed.

(** X15. The resolver makes at most one content request per file of the
    listing and imported non-standard module: their number is bounded by
    the product of the two counts. In particular no content is requested
    when only standard-library modules are imported. *)
Theorem resolver_request_bound (gh : Resolver.github) (existing_files : fileset)
    (imported_modules : list string) (st : Resolver.state) :
  Resolver.resolve gh existing_files imported_modules = Ok st →
  let modules :=
    filter (fun m => m ∉ Resolver.stdlib_modules) imported_modules in
  let listing :=
    match Resolver.tree_out gh with
    | Ok tree => tree
    | Raise _ => default [] (match Resolver.pr_files_out gh with
                             | Ok pr_files => Some pr_files
                             | Raise _ => None
                             end)
    end in
  length (Resolver.fetches st) ≤ length listing * length modules.
Proof.
  cbn zeta. unfold Resolver.resolve.
  destruct imported_modules as [|m0 ms] eqn:Himp; [intros [= <-]; simpl; lia|].
  rewrite <- Himp. clear Himp.
  destruct (Resolver.head_sha_out gh); [|done]. cbn [mbind result_bind].
  set (filtered := filter _ imported_modules).
  pose proof (foldl_visit_requests gh existing_files filtered) as Hb.
  destruct filtered as [|m1 ms1] eqn:Hfil; [intros [= <-]; simpl; lia|].
  rewrite <- Hfil in *.
  destruct (Resolver.tree_out gh) as [tree|].
  - intros [= <-]. destruct (Hb tree Resolver.init) as [H _]. simpl in H. lia.
  - destruct (Resolver.pr_files_out gh) as [pr_files|]; [|done].
    intros [= <-]. destruct (Hb pr_files Resolver.init) as [_ H]. simpl in *. lia.
Qed.

(** ** The resolver on a stable branch *)

Section Stable.
Variable gh : Resolver.github.
Variable existing_files : fileset.
Variable contents : string → result string.
Hypothesis stable : ∀ k q, Resolver.content_out gh k q = contents q.

Lemma scan_modules_stable (file_path : string) (mods : list string)
    (st : Resolver.state) :
  let hit :=
    existsb (fun m =>
               Resolver.matches_file (Py.basename file_path)
                 (Py.splitext_root (Py.basename file_path)) m
               || bool_decide (m ∈ Resolver.path_parts file_path)) mods in
  let after :=
    if hit then
      match contents file_path with
      | Ok c => <[file_path := c]> (Resolver.source_files st)
      | Raise _ => Resolver.source_files st
      end
    else Resolver.source_files st in
  Resolver.source_files (Resolver.scan_modules gh file_path mods st) = after ∧
  Resolver.source_files (Resolver.scan_modules_fallback gh file_path mods st) = after.
Proof using stable.
  cbn zeta. revert st. induction mods as [|m rest IH]; intros st; [done|].
  cbn [Resolver.scan_modules Resolver.scan_modules_fallback existsb]. cbn zeta.
  destruct (Resolver.matches_file _ _ m || bool_decide (m ∈ _)); [|apply IH].
  cbn [orb]. unfold Resolver.try_fetch. rewrite stable.
  destruct (contents file_path) as [c|e] eqn:Hc; [done|].
  split.
  - destruct (IH (Resolver.State (Resolver.source_files st)
                    (Resolver.matched_modules st)
                    (Resolver.fetches st ++ [Resolver.Fetch file_path m false])))
      as [-> _].
    simpl. by destruct (existsb _ rest).
  - destruct (IH (Resolver.State (Resolver.source_files st)
                    (Resolver.matched_modules st)
                    (Resolver.fetches st ++ [Resolver.Fetch file_path m false])))
      as [_ ->].
    simpl. by destruct (existsb _ rest).
Qed.

Lemma visit_stable (modules : list string) (st : Resolver.state)
    (file_path q : string) :
  let hit p :=
    existsb (fun m =>
               Resolver.matches_file (Py.basename p)
                 (Py.splitext_root (Py.basename p)) m
               || bool_decide (m ∈ Resolver.path_parts p)) modules in
  let delivered p := match contents p with Ok c => Some c | Raise _ => None end in
  Resolver.source_files (Resolver.visit gh existing_files modules st file_path) !! q
  = match Resolver.source_files st !! q with
    | Some c => Some c
    | None =>
        if bool_decide (q = file_path)
           && (bool_decide (existing_files !! q = None)
               && negb (Resolver.is_test_path q)
               && Py.endswith q ".py" && hit q)
        then delivered q else None
    end ∧
  Resolver.source_files
    (Resolver.visit_fallback gh existing_files modules st file_path) !! q
  = match Resolver.source_files st !! q with
    | Some c => Some c
    | None =>
        if bool_decide (q = file_path)
           && (bool_decide (existing_files !! q = None)
               && negb (Py.contains "test" (Py.lower q))
               && Py.endswith q ".py" && hit q)
        then delivered q else None
    end.
Proof using stable.
  cbn zeta. unfold Resolver.visit, Resolver.visit_fallback.
  destruct (scan_modules_stable file_path modules st) as [Hs Hf].
  cbn zeta in Hs, Hf.
  unfold Resolver.already_fetched.
  destruct (decide (q = file_path)) as [->|Hne].
  - rewrite (bool_decide_eq_true_2 (file_path = file_path)) by done. cbn [andb].
    destruct (Resolver.source_files st !! file_path) as [c|] eqn:Hsrc.
    + rewrite (bool_decide_eq_true_2 (is_Some (Some c))) by eauto.
      by rewrite orb_true_r.
    + rewrite (bool_decide_eq_false_2 (is_Some None)) by (by intros [? ?]).
      rewrite orb_false_r.
      destruct (existing_files !! file_path) as [c0|] eqn:Hex.
      * rewrite (bool_decide_eq_true_2 (is_Some (Some c0))) by eauto.
        by rewrite (bool_decide_eq_false_2 (Some c0 = None)) by done.
      * rewrite (bool_decide_eq_false_2 (is_Some None)) by (by intros [? ?]).
        rewrite (bool_decide_eq_true_2 (None = None)) by done. cbn [andb].
        split.
        -- destruct (Resolver.is_test_path file_path); [done|].
           destruct (Py.endswith file_path ".py"); [|done].
           cbn [negb andb]. rewrite Hs.
           destruct (existsb _ modules); [|done].
           destruct (contents file_path); [by rewrite lookup_insert_eq|done].
        -- destruct (Py.contains "test" (Py.lower file_path)); [done|].
           destruct (Py.endswith file_path ".py"); [|done].
           cbn [negb andb]. rewrite Hf.
           destruct (existsb _ modules); [|done].
           destruct (contents file_path); [by rewrite lookup_insert_eq|done].
  - rewrite (bool_decide_eq_false_2 (q = file_path)) by done. cbn [andb].
    assert (Hsame : ∀ m : fileset,
      (m = Resolver.source_files st ∨
       ∃ c, m = <[file_path := c]> (Resolver.source_files st)) →
      m !! q = match Resolver.source_files st !! q with
               | Some c => Some c
               | None => None
               end).
    { intros m [->|[c ->]]; [|rewrite lookup_insert_ne by done];
        by destruct (Resolver.source_files st !! q). }
    split; apply Hsame.
    + destruct (_ || _); [by left|].
      destruct (Resolver.is_test_path file_path); [by left|].
      destruct (negb _); [by left|]. rewrite Hs.
      destruct (existsb _ _); [|by left].
      destruct (contents file_path); [right; eauto | by left].
    + destruct (_ || _); [by left|].
      destruct (Py.contains "test" (Py.lower file_path)); [by left|].
      destruct (negb _); [by left|]. rewrite Hf.
      destruct (existsb _ _); [|by left].
      destruct (contents file_path); [right; eauto | by left].
Qed.

End Stable.

Lemma foldl_stable (g : Resolver.state → string → Resolver.state)
    (eligible : string → bool) (delivered : string → option string) :
  (∀ st p q,
     Resolver.source_files (g st p) !! q =
     match Resolver.source_files st !! q with
     | Some c => Some c
     | None => if bool_decide (q = p) && eligible q then delivered q else None
     end) →
  ∀ paths st q,
    Resolver.source_files (foldl g st paths) !! q =
    match Resolver.source_files st !! q with
    | Some c => Some c
    | None => if bool_decide (q ∈ paths) && eligible q then delivered q else None
    end.
Proof.
  intros Hg. induction paths as [|p rest IH]; intros st q.
  - simpl. by destruct (Resolver.source_files st !! q).
  - cbn [foldl]. rewrite IH, Hg.
    destruct (Resolver.source_files st !! q) as [c|]; [done|].
    destruct (decide (q = p)) as [->|Hne].
    + rewrite (bool_decide_eq_true_2 (p = p)) by done.
      rewrite (bool_decide_eq_true_2 (p ∈ p :: rest)) by (by left).
      cbn [andb]. destruct (eligible p); [|by rewrite andb_false_r].
      destruct (delivered p); [done|]. by destruct (bool_decide (p ∈ rest)).
    + rewrite (bool_decide_eq_false_2 (q = p)) by done. cbn [andb].
      destruct (decide (q ∈ rest)) as [Hin|Hin].
      * rewrite (bool_decide_eq_true_2 (q ∈ rest)) by done.
        by rewrite (bool_decide_eq_true_2 (q ∈ p :: rest)) by (by right).
      * rewrite (bool_decide_eq_false_2 (q ∈ rest)) by done.
        rewrite (bool_decide_eq_false_2 (q ∈ p :: rest)); [done|].
        by intros [?|?]%elem_of_cons.
Qed.

(** X16. On a branch whose files do not change while they are fetched,
    the resolver returns exactly the files of the listing that are not
    fetched already, are not test files, are [.py] files, match one of
    the imported non-standard modules and can be downloaded, each with
    its content. With the branch listing a test file is one with [test]
    in its lower-cased path or a name ending in [_test.py] or [tests.py];
    when the listing fails, the changed files are used with the first
    test only. *)
Theorem resolved_files_of_stable_branch (gh : Resolver.github)
    (existing_files : fileset) (imported_modules : list string)
    (contents : string → result string) :
  (∀ k q, Resolver.content_out gh k q = contents q) →
  is_ok (Resolver.head_sha_out gh) = true →
  let modules :=
    filter (fun m => m ∉ Resolver.stdlib_modules) imported_modules in
  let matched p :=
    existsb (fun m =>
               Resolver.matches_file (Py.basename p)
                 (Py.splitext_root (Py.basename p)) m
               || bool_decide (m ∈ Resolver.path_parts p)) modules in
  let delivered p := match contents p with Ok c => Some c | Raise _ => None end in
  (∀ tree, Resolver.tree_out gh = Ok tree →
     ∃ source_files,
       Resolver.fetch_source_files_from_imports gh existing_files imported_modules
       = Ok source_files ∧
       ∀ p, source_files !! p =
            if bool_decide (p ∈ tree)
               && (bool_decide (existing_files !! p = None)
                   && negb (Resolver.is_test_path p)
                   && Py.endswith p ".py" && matched p)
            then delivered p else None) ∧
  (∀ pr_files, is_ok (Resolver.tree_out gh) = false →
     Resolver.pr_files_out gh = Ok pr_files →
     ∃ source_files,
       Resolver.fetch_source_files_from_imports gh existing_files imported_modules
       = Ok source_files ∧
       ∀ p, source_files !! p =
            if bool_decide (p ∈ pr_files)
               && (bool_decide (existing_files !! p = None)
                   && negb (Py.contains "test" (Py.lower p))
                   && Py.endswith p ".py" && matched p)
            then delivered p else None).
Proof.
  intros Hstable Hsha. cbn zeta.
  unfold Resolver.fetch_source_files_from_imports, Resolver.resolve.
  destruct (Resolver.head_sha_out gh); [|done]. cbn [mbind result_bind].
  assert (Hempty : ∀ (b c : bool) (o : option string) (p : string),
    (∅ : fileset) !! p = if b && (c && false) then o else None).
  { intros b c o p. by rewrite lookup_empty, andb_false_r, andb_false_r. }
  set (filtered := filter _ imported_modules).
  assert (Hnil : imported_modules = [] → filtered = []) by (by intros ->).
  split.
  - intros tree Htree.
    destruct imported_modules as [|m0 ms] eqn:Himp.
    { rewrite (Hnil eq_refl). eexists. split; [reflexivity|]. intros p.
      simpl. apply Hempty. }
    rewrite <- Himp in *. clear Himp Hnil.
    destruct filtered as [|m1 ms1] eqn:Hfil.
    { eexists. split; [reflexivity|]. intros p. simpl. apply Hempty. }
    rewrite <- Hfil. rewrite Htree. eexists. split; [reflexivity|]. intros p.
    cbn [fmap result_fmap].
    rewrite (foldl_stable (Resolver.visit gh existing_files filtered) _ _
               (fun st p q => proj1 (visit_stable gh existing_files contents
                                       Hstable filtered st p q))).
    done.
  - intros pr_files Htree Hfiles.
    destruct imported_modules as [|m0 ms] eqn:Himp.
    { rewrite (Hnil eq_refl). eexists. split; [reflexivity|]. intros p.
      simpl. apply Hempty. }
    rewrite <- Himp in *. clear Himp Hnil.
    destruct filtered as [|m1 ms1] eqn:Hfil.
    { eexists. split; [reflexivity|]. intros p. simpl. apply Hempty. }
    rewrite <- Hfil.
    destruct (Resolver.tree_out gh) as [tree|e]; [done|].
    rewrite Hfiles. eexists. split; [reflexivity|]. intros p.
    cbn [fmap result_fmap mbind result_bind].
    rewrite (foldl_stable (Resolver.visit_fallback gh existing_files filtered) _ _
               (fun st p q => proj2 (visit_stable gh existing_files contents
                                       Hstable filtered st p q))).
    done.
Qed.

Lemma resolver_request_bound_witness :
  let gh : Resolver.github :=
    Resolver.Github (Ok "4f2a") (Ok ["os.py"; "app/auth.py"]) (Raise "")
      (fun _ _ => Raise "404") in
  ∃ st,
    Resolver.resolve gh ∅ ["os"; "app"; "auth"] = Ok st ∧
    length (Resolver.fetches st) = 2 ∧
    length (Resolver.fetches st) ≤ 4.
Proof.
  cbn zeta.
  set (gh := Resolver.Github _ _ _ _).
  destruct (Resolver.resolve gh ∅ ["os"; "app"; "auth"]) as [st|e] eqn:Hres.
  - exists st. split; [done|]. split.
    + vm_compute in Hres. by injection Hres as <-.
    + exact (resolver_request_bound gh ∅ ["os"; "app"; "auth"] st Hres).
  - vm_compute in Hres. discriminate.
Defined.

Lemma resolved_files_of_stable_branch_witness :
  let contents p :=
    if String.eqb p "app/auth.py" then Ok "code" else Raise "404" in
  let gh : Resolver.github :=
    Resolver.Github (Ok "4f2a")
      (Ok ["app/auth.py"; "app/models.py"; "lib/util.py"; "app/test_auth.py"])
      (Raise "") (fun _ => contents) in
  ∃ source_files,
    Resolver.fetch_source_files_from_imports gh ∅ ["app.auth"; "app"; "pytest"]
    = Ok source_files ∧
    source_files !! "app/auth.py" = Some "code" ∧
    source_files !! "app/models.py" = None ∧
    source_files !! "lib/util.py" = None ∧
    source_files !! "app/test_auth.py" = None.
Proof.
  cbn zeta.
  set (contents := fun p : string =>
         if String.eqb p "app/auth.py" then Ok "code" else Raise "404").
  set (gh := Resolver.Github _ _ _ _).
  destruct (resolved_files_of_stable_branch gh ∅ ["app.auth"; "app"; "pytest"]
              contents) as [Htree _]; [done | reflexivity |].
  destruct (Htree _ eq_refl) as (source_files & Hrun & Hfiles).
  exists source_files. split; [exact Hrun|].
  rewrite !Hfiles. repeat split; vm_compute; reflexivity.
Defined.

(** ** The set of imported modules *)

Lemma first_segment_plain (module : string) :
  Py.contains "." (List.hd "" (Py.split "." module)) = false.
Proof.
  apply (split_parts "." module).
  pose proof (split_nonempty "." module).
  destruct (Py.split "." module); [done|]. by left.
Qed.

Lemma with_first_segment_closed (module m : string) :
  m ∈ Resolver.with_first_segment module →
  List.hd "" (Py.split "." m) ∈ Resolver.with_first_segment module.
Proof.
  unfold Resolver.with_first_segment.
  destruct (Py.contains "." module) eqn:Hdot.
  - intros [->%elem_of_singleton | ->%elem_of_singleton]%elem_of_union.
    + apply elem_of_union. right. by apply elem_of_singleton.
    + rewrite (split_no_sep "." _ (first_segment_plain module)). simpl.
      apply elem_of_union. right. by apply elem_of_singleton.
  - intros [->%elem_of_singleton | []%elem_of_empty]%elem_of_union.
    rewrite (split_no_sep "." _ Hdot). simpl.
    apply elem_of_union. left. by apply elem_of_singleton.
Qed.

(** X17. The set of imported modules is closed under taking the first
    segment: with every module it holds the part of its name before the
    first dot (for a name without a dot, the name itself), whether the
    file was parsed or read line by line. This is what lets the resolver
    match a package directory for [from app.auth import x]. *)
Theorem imports_closed_under_first_segment
    (ast_parse : string → option (list Resolver.import_node))
    (test_files : fileset) (m : string) :
  m ∈ Resolver.parse_imports_from_test_files ast_parse test_files →
  Py.contains "." (List.hd "" (Py.split "." m)) = false ∧
  List.hd "" (Py.split "." m)
  ∈ Resolver.parse_imports_from_test_files ast_parse test_files.
Proof.
  intros Hm. split; [apply first_segment_plain|]. revert Hm.
  unfold Resolver.parse_imports_from_test_files.
  rewrite !elem_of_union_list.
  intros (X & HX & Hm). exists X. split; [done|].
  apply list_elem_of_fmap in HX as ([file_path content] & -> & _).
  revert Hm. simpl. unfold Resolver.file_imports.
  destruct (negb (Py.endswith file_path ".py")); [by intros []%elem_of_empty|].
  destruct (ast_parse content) as [nodes|].
  - rewrite !elem_of_union_list.
    intros (Y & HY & Hm). exists Y. split; [done|].
    apply list_elem_of_fmap in HY as (node & -> & _).
    revert Hm. destruct node as [names|[module|]]; simpl.
    + rewrite !elem_of_union_list.
      intros (Z & HZ & Hm). exists Z. split; [done|].
      apply list_elem_of_fmap in HZ as (name & -> & _).
      by apply with_first_segment_closed.
    + destruct (String.eqb module ""); [by intros []%elem_of_empty|].
      apply with_first_segment_closed.
    + by intros []%elem_of_empty.
  - rewrite !elem_of_union_list.
    intros (Y & HY & Hm). exists Y. split; [done|].
    apply list_elem_of_fmap in HY as (line & -> & _).
    revert Hm. unfold Resolver.line_imports.
    destruct (Resolver.match_import_pattern _) as [module|];
      [apply with_first_segment_closed | by intros []%elem_of_empty].
Qed.

Lemma imports_closed_under_first_segment_witness :
  "app"
  ∈ Resolver.parse_imports_from_test_files
      (fun _ => Some [Resolver.ImportFrom (Some "app.auth.tokens")])
      (<["tests/test_auth.py" := "from app.auth.tokens import issue"]> ∅).
Proof.
  apply (imports_closed_under_first_segment
           (fun _ => Some [Resolver.ImportFrom (Some "app.auth.tokens")])
           (<["tests/test_auth.py" := "from app.auth.tokens import issue"]> ∅)
           "app.auth.tokens").
  vm_compute. tauto.
Defined.

(** ** The test command *)

Lemma existsb_filter_true {A : Type} (P Q : A → bool) (l : list A) :
  existsb P (filter (fun x => Q x) l) = true ↔
  ∃ x, x ∈ l ∧ Q x = true ∧ P x = true.
Proof.
  rewrite existsb_exists. split.
  - intros (x & Hx & HP). apply list_elem_of_In, list_elem_of_filter in Hx.
    destruct Hx as [HQ%Is_true_true Hx]. by exists x.
  - intros (x & Hx & HQ & HP). exists x. split; [|done].
    apply list_elem_of_In, list_elem_of_filter. split; [|done].
    by apply Is_true_true.
Qed.

Lemma elem_of_keys (files : fileset) (f : string) :
  f ∈ (map_to_list files).*1 ↔ is_Some (files !! f).
Proof.
  rewrite list_elem_of_fmap. split.
  - intros ([k v] & -> & Hkv%elem_of_map_to_list). simpl. eauto.
  - intros [v Hv]. exists (f, v). split; [done|]. by apply elem_of_map_to_list.
Qed.

Lemma contains_cons (needle : string) (a : ascii) (hay : string) :
  Py.contains needle hay = true → Py.contains needle (String a hay) = true.
Proof.
  intros H. cbn [Py.contains]. rewrite H. apply orb_true_r.
Qed.

Lemma contains_prefix (needle hay : string) :
  String.prefix needle hay = true → Py.contains needle hay = true.
Proof. intros H. destruct hay; cbn [Py.contains]; by rewrite H. Qed.

Lemma prefix_app_needle (p needle hay : string) :
  String.prefix (p +:+ needle) hay = true → Py.contains needle hay = true.
Proof.
  revert hay. induction p as [|c p IH]; intros hay.
  - rewrite append_nil_l. apply contains_prefix.
  - rewrite append_cons. destruct hay as [|a hay]; [done|].
    cbn [String.prefix]. destruct (ascii_dec c a); [|done].
    intros H. apply contains_cons. by apply IH.
Qed.

(** A text that contains a phrase contains the end of the phrase. *)
Lemma contains_end_of_needle (p needle hay : string) :
  Py.contains (p +:+ needle) hay = true → Py.contains needle hay = true.
Proof.
  induction hay as [|a hay IH]; cbn [Py.contains].
  - rewrite orb_false_r. apply prefix_app_needle.
  - intros [H|H]%orb_true_iff.
    + by apply prefix_app_needle in H.
    + apply contains_cons. by apply IH.
Qed.

(** X18. [detect_test_command] answers [python -m unittest discover] in
    one case only: some file named like a test (with [test] or [spec] in
    its lower-cased path) is a [.py] file, no file named like a test
    mentions [pytest], and one of them mentions [unittest]. Files not
    named like a test never count, whatever they contain; without any
    test-named file the command is [python -m pytest]. *)
Theorem unittest_chosen_iff (files : fileset) :
  let named_test f :=
    Py.contains "test" (Py.lower f) || Py.contains "spec" (Py.lower f) in
  (Resolver.detect_test_command files = "python -m unittest discover" ↔
   (∃ f c, files !! f = Some c ∧ named_test f = true ∧
           Py.endswith f ".py" = true) ∧
   (∀ f c, files !! f = Some c → named_test f = true →
           Py.contains "pytest" c = false) ∧
   (∃ f c, files !! f = Some c ∧ named_test f = true ∧
           Py.contains "unittest" c = true)) ∧
  ((∀ f, is_Some (files !! f) → named_test f = false) →
   Resolver.detect_test_command files = "python -m pytest").
Proof.
  cbn zeta. unfold Resolver.detect_test_command. cbn zeta.
  set (test_files := filter _ (map_to_list files).*1).
  assert (Hex : ∀ P : string → bool,
    existsb P test_files = true ↔
    ∃ f c, files !! f = Some c ∧
           Py.contains "test" (Py.lower f) || Py.contains "spec" (Py.lower f) = true ∧
           P f = true).
  { intros P. subst test_files.
    rewrite (existsb_filter_true P
               (fun f => Py.contains "test" (Py.lower f)
                         || Py.contains "spec" (Py.lower f))).
    split.
    - intros (f & [c Hc]%elem_of_keys & Hn & HP). by exists f, c.
    - intros (f & c & Hc & Hn & HP). exists f. split; [|done].
      apply elem_of_keys. eauto. }
  assert (Hpytest : ∀ c, Py.contains "pytest" c
                         || Py.contains "import pytest" c = true →
                         Py.contains "pytest" c = true).
  { intros c [H|H]%orb_true_iff; [done|].
    by apply (contains_end_of_needle "import " "pytest"). }
  assert (Hunittest : ∀ c, Py.contains "unittest" c
                           || Py.contains "import unittest" c = true →
                           Py.contains "unittest" c = true).
  { intros c [H|H]%orb_true_iff; [done|].
    by apply (contains_end_of_needle "import " "unittest"). }
  split.
  - destruct (existsb (fun f => Py.endswith f ".py") test_files) eqn:Hpy.
    + destruct (existsb (fun f => Py.contains "pytest" (dict_get files f "")
                                  || Py.contains "import pytest" (dict_get files f ""))
                        test_files) eqn:Hpt.
      * split; [done|]. intros (_ & Hno & _). exfalso.
        apply Hex in Hpt as (f & c & Hc & Hn & Hp).
        unfold dict_get in Hp. rewrite Hc in Hp. simpl in Hp.
        apply Hpytest in Hp. by rewrite (Hno f c Hc Hn) in Hp.
      * destruct (existsb (fun f => Py.contains "unittest" (dict_get files f "")
                                    || Py.contains "import unittest" (dict_get files f ""))
                          test_files) eqn:Hut.
        -- split; [intros _|done]. split; [|split].
           ++ apply Hex in Hpy as (f & c & Hc & Hn & Hp). by exists f, c.
           ++ intros f c Hc Hn. apply not_true_is_false. intros Hp.
              assert (Htrue : existsb
                        (fun f => Py.contains "pytest" (dict_get files f "")
                                  || Py.contains "import pytest" (dict_get files f ""))
                        test_files = true); [|congruence].
              apply Hex. exists f, c. repeat split; [done..|].
              unfold dict_get. rewrite Hc. simpl. by rewrite Hp.
           ++ apply Hex in Hut as (f & c & Hc & Hn & Hp).
              unfold dict_get in Hp. rewrite Hc in Hp. simpl in Hp.
              exists f, c. repeat split; [done..|]. by apply Hunittest.
        -- split; [done|]. intros (_ & _ & (f & c & Hc & Hn & Hp)). exfalso.
           assert (Htrue : existsb
                     (fun f => Py.contains "unittest" (dict_get files f "")
                               || Py.contains "import unittest" (dict_get files f ""))
                     test_files = true); [|congruence].
           apply Hex. exists f, c. repeat split; [done..|].
           unfold dict_get. rewrite Hc. simpl. by rewrite Hp.
    + split.
      * repeat match goal with
               | |- context [if ?b then _ else _] => destruct b
               end; done.
      * intros ((f & c & Hc & Hn & Hp) & _). exfalso.
        assert (Htrue : existsb (fun f => Py.endswith f ".py") test_files = true);
          [|congruence].
        apply Hex. by exists f, c.
  - intros Hnone.
    assert (Hnil : ∀ P, existsb P test_files = false).
    { intros P. apply not_true_is_false. intros (f & c & Hc & Hn & _)%Hex.
      rewrite Hnone in Hn by eauto. done. }
    by rewrite !Hnil.
Qed.

Lemma unittest_chosen_iff_witness :
  Resolver.detect_test_command
    (<["tests/test_auth.py" := "import unittest"]>
       (<["app/auth.py" := "import pytest"]> ∅))
  = "python -m unittest discover".
Proof.
  apply (unittest_chosen_iff
           (<["tests/test_auth.py" := "import unittest"]>
              (<["app/auth.py" := "import pytest"]> ∅))).
  split; [|split].
  - exists "tests/test_auth.py", "import unittest". by vm_compute.
  - intros f c Hc Hn.
    destruct (decide (f = "tests/test_auth.py")) as [->|Hne1].
    + rewrite lookup_insert_eq in Hc. by injection Hc as <-.
    + rewrite lookup_insert_ne in Hc by done.
      destruct (decide (f = "app/auth.py")) as [->|Hne2].
      * by vm_compute in Hn.
      * rewrite lookup_insert_ne in Hc by done. by rewrite lookup_empty in Hc.
  - exists "tests/test_auth.py", "import unittest". by vm_compute.
Defined.

(** X19. The command [detect_test_command] picks is one of four, and
    the runner's quoting leaves each of them unchanged: the snippet sent
    to the sandbox runs exactly the detected command. *)
Theorem detected_command_runs_verbatim (files : fileset) :
  let test_command := Resolver.detect_test_command files in
  test_command ∈ ["python -m pytest"; "python -m unittest discover";
                  "npm test"; "mvn test"] ∧
  TestRunner.escape_command test_command = test_command ∧
  PyLex.command_in (TestRunner.test_code test_command)
  = PyLex.Parsed test_command TestRunner.snippet_tail.
Proof.
  cbn zeta.
  assert (Hin : Resolver.detect_test_command files
                ∈ ["python -m pytest"; "python -m unittest discover";
                   "npm test"; "mvn test"]).
  { unfold Resolver.detect_test_command. cbn zeta.
    repeat match goal with
           | |- context [if ?b then _ else _] => destruct b
           end; set_solver. }
  split; [exact Hin|].
  rewrite !elem_of_cons, elem_of_nil in Hin.
  destruct Hin as [->|[->|[->|[->|[]]]]]; split; vm_compute; reflexivity.
Qed.

(** ** The lives of the sandboxes *)

Section Lives.
Import TestRunner.
Variable ast_parse : string → option (list Resolver.import_node).
Variable describe_tests : fileset → list test_descr.

Lemma bracketed_app (current : option handle) (evs1 evs2 : list event) :
  Calls.bracketed current evs1 = true →
  Calls.bracketed current (evs1 ++ evs2) = Calls.bracketed None evs2.
Proof.
  revert current. induction evs1 as [|ev evs1 IH]; intros current.
  - by destruct current.
  - destruct ev, current as [h'|]; simpl; try done;
      try (intros [-> H]%andb_true_iff; simpl; by apply IH).
    apply IH.
Qed.

Lemma lives_trans (r r' r'' : runner) :
  (∃ evs, trace r' = trace r ++ evs ∧ Calls.bracketed None evs = true) →
  (∃ evs, trace r'' = trace r' ++ evs ∧ Calls.bracketed None evs = true) →
  ∃ evs, trace r'' = trace r ++ evs ∧ Calls.bracketed None evs = true.
Proof.
  intros (evs1 & H1 & B1) (evs2 & H2 & B2). exists (evs1 ++ evs2). split.
  - by rewrite H2, H1, app_assoc.
  - by rewrite (bracketed_app None evs1 evs2 B1).
Qed.

Lemma lives_refl (r : runner) :
  ∃ evs, trace r = trace r ++ evs ∧ Calls.bracketed None evs = true.
Proof. exists []. by rewrite app_nil_r. Qed.

Lemma sandbox_run_lives (d : daytona) (code_files test_files : fileset)
    (r : runner) :
  ∃ evs,
    trace (Pipeline.sandbox_run describe_tests d code_files test_files r).2
    = trace r ++ evs ∧
    Calls.bracketed None evs = true.
Proof.
  unfold Pipeline.sandbox_run, mbind, M_bind, bind, create_sandbox, try_finally.
  destruct (create_out d) as [h|e]; [|apply lives_refl].
  unfold setup_environment, install_dependencies, run_tests, cleanup, try_except,
    delete_sandbox, log, ret; simpl.
  destruct (materialize_out d _) as [[? ?]|?]; simpl;
    [destruct (install_out d _) as [[? ?]|?]; simpl;
     [destruct (execute_out d _) as [[? ?]|?]; simpl|]|];
    destruct (delete_out d h); simpl;
    eexists; (split; [rewrite <- ?app_assoc; simpl; reflexivity|]);
    simpl; by rewrite ?Nat.eqb_refl.
Qed.

Lemma run_tests_in_daytona_lives (w : Pipeline.test_stage) (r : runner) :
  ∃ evs,
    trace (Pipeline._run_tests_in_daytona ast_parse describe_tests w r).2
    = trace r ++ evs ∧
    Calls.bracketed None evs = true.
Proof.
  unfold Pipeline._run_tests_in_daytona, try_except, mbind, M_bind, bind, lift, ret.
  destruct (Pipeline.code_files_out w) as [code_files|e]; [|apply lives_refl].
  destruct (Pipeline.test_files_out w) as [test_files|e]; [|apply lives_refl].
  case_bool_decide; [apply lives_refl|].
  assert (Hrun : ∀ cf,
    ∃ evs,
      trace (match Pipeline.sandbox_run describe_tests (Pipeline.sandbox_service w)
                     cf test_files r with
             | (Ok a, r') => (Ok a, r')
             | (Raise e, r') =>
                 (Ok (ExecResult "error" None "" [] (Some e)), r')
             end).2 = trace r ++ evs ∧
      Calls.bracketed None evs = true).
  { intros cf.
    pose proof (sandbox_run_lives (Pipeline.sandbox_service w) cf test_files r) as Hl.
    by destruct (Pipeline.sandbox_run _ _ _ _ r) as [[?|?] ?]. }
  case_bool_decide; [apply Hrun|].
  destruct (Resolver.fetch_source_files_from_imports _ _ _) as [src|e];
    [apply Hrun | apply lives_refl].
Qed.

Lemma test_step_lives (w : Pipeline.pr_world) (res : pipeline_result) (r : runner) :
  ∃ evs,
    trace (Pipeline.test_step ast_parse describe_tests w res r).2 = trace r ++ evs ∧
    Calls.bracketed None evs = true.
Proof.
  unfold Pipeline.test_step, try_except, mbind, M_bind, bind, lift, ret.
  destruct (Pipeline.trigger_out w); [|apply lives_refl].
  destruct (Pipeline.test_pr_out w) as [[n|]|]; [|apply lives_refl..].
  pose proof (run_tests_in_daytona_lives (Pipeline.stage w) r) as Hl.
  by destruct (Pipeline._run_tests_in_daytona _ _ _ r) as [[?|?] ?].
Qed.

Lemma process_pr_lives (w : Pipeline.pr_world) (has_test_runner has_gpt_analyzer : bool)
    (pr_number : nat) (skip_tests skip_gpt : bool) (rn : runner) :
  let rn' :=
    (Pipeline.process_pr ast_parse describe_tests w has_test_runner
       has_gpt_analyzer pr_number skip_tests skip_gpt rn).2 in
  (∃ evs, trace rn' = trace rn ++ evs ∧ Calls.bracketed None evs = true) ∧
  (skip_tests = true ∨ has_test_runner = false → rn' = rn).
Proof.
  cbn zeta. unfold Pipeline.process_pr, mbind, M_bind, bind, lift, ret.
  destruct (Pipeline.pr_info_out w) as [pr_info|]; [|split; [apply lives_refl|done]].
  destruct (Pipeline.has_review_out w) as [[|]|];
    [destruct (Pipeline.comments_out w) as [cs|]| |];
    try (split; [apply lives_refl|done]).
  - destruct (negb skip_tests && has_test_runner) eqn:Hrun.
    + split.
      * match goal with
        | |- context [Pipeline.test_step _ _ w ?r rn] =>
            pose proof (test_step_lives w r rn) as Hl;
            destruct (Pipeline.test_step ast_parse describe_tests w r rn)
              as [[?|?] ?]
        end; exact Hl.
      * intros [->| ->]; [done|]. by rewrite andb_false_r in Hrun.
    + split; [apply lives_refl|done].
  - destruct (negb skip_tests && has_test_runner) eqn:Hrun.
    + split.
      * match goal with
        | |- context [Pipeline.test_step _ _ w ?r rn] =>
            pose proof (test_step_lives w r rn) as Hl;
            destruct (Pipeline.test_step ast_parse describe_tests w r rn)
              as [[?|?] ?]
        end; exact Hl.
      * intros [->| ->]; [done|]. by rewrite andb_false_r in Hrun.
    + split; [apply lives_refl|done].
Qed.

Lemma step_lives (skip_tests skip_gpt : bool) (i : nat) (it : Batch.item)
    (rn : runner) :
  let rn' := (Batch.step ast_parse describe_tests skip_tests skip_gpt i it rn).2 in
  (∃ evs, trace rn' = trace rn ++ evs ∧ Calls.bracketed None evs = true) ∧
  (skip_tests = true → rn' = rn).
Proof.
  cbn zeta. unfold Batch.step.
  pose proof (process_pr_lives (Batch.it_world it) (negb skip_tests) (negb skip_gpt)
                (Batch.it_number it) skip_tests skip_gpt rn) as [H1 H2].
  cbn zeta in H1, H2.
  destruct (Pipeline.process_pr _ _ _ _ _ _ _ _ rn) as [[res|e] rn'].
  - assert (Hsnd :
      (if i mod 5 =? 0
       then match Batch.it_save_out it with
            | Ok _ => ([Batch.Processed res], rn')
            | Raise e =>
                ([Batch.Processed res; Batch.error_entry it e], rn')
            end
       else ([Batch.Processed res], rn')).2 = rn').
    { destruct (i mod 5 =? 0); [|done]. by destruct (Batch.it_save_out it). }
    rewrite Hsnd. simpl in *. split; [done|].
    intros ->. apply H2. by left.
  - simpl in *. split; [done|]. intros ->. apply H2. by left.
Qed.

(** X20. Over a whole batch the sandbox calls come as a sequence of
    separate lives: each starts with the creation of a sandbox, every
    call up to its deletion addresses that sandbox, and the deletion is
    requested before the next sandbox is created and before the batch
    ends. With [--skip-tests] no sandbox call is made at all. *)
Theorem batch_sandbox_lives_never_overlap (skip_tests skip_gpt : bool)
    (prs : list Batch.item) (i : nat) (rn : runner) :
  let rn' := (Batch.loop ast_parse describe_tests skip_tests skip_gpt i prs rn).2 in
  (∃ evs, trace rn' = trace rn ++ evs ∧ Calls.bracketed None evs = true) ∧
  (skip_tests = true → rn' = rn).
Proof.
  cbn zeta. revert i rn. induction prs as [|it rest IH]; intros i rn.
  - simpl. split; [apply lives_refl|done].
  - rewrite loop_cons. cbn [snd].
    destruct (step_lives skip_tests skip_gpt i it rn) as [H1 H2]. cbn zeta in H1, H2.
    destruct (IH (S i) (Batch.step ast_parse describe_tests skip_tests skip_gpt
                          i it rn).2) as [H3 H4].
    split.
    + by apply (lives_trans rn _ _ H1).
    + intros Hs. by rewrite (H4 Hs), (H2 Hs).
Qed.

End Lives.

Lemma batch_sandbox_lives_never_overlap_witness :
  let stage : Pipeline.test_stage :=
    Pipeline.TestStage (Ok ∅) (Ok (<["tests/test_auth.py" := "import pytest"]> ∅))
      (Resolver.Github (Raise "") (Raise "") (Raise "") (fun _ _ => Raise ""))
      (TestRunner.Daytona (Ok 7) (fun _ => Ok (0%Z, ""))
         (fun _ => Raise "no network") (fun _ => Ok (0%Z, "1 passed"))
         (fun _ => Raise "gone")) in
  let w : Pipeline.pr_world :=
    Pipeline.PRWorld (Ok ∅) (Ok false) (Ok []) (Ok ∅) (Ok (Some 9)) stage
      (Ok ∅) (fun _ => Raise "") in
  let prs :=
    [Batch.Item 3 (JStr "a") (JStr "") w (Ok ());
     Batch.Item 4 (JStr "b") (JStr "") w (Ok ())] in
  Calls.bracketed None
    (TestRunner.trace
       (Batch.loop (fun _ => Some []) (fun _ => []) false true 1 prs
          (TestRunner.Runner None [])).2) = true.
Proof.
  cbn zeta.
  match goal with
  | |- Calls.bracketed None
         (TestRunner.trace (Batch.loop ?p ?d ?st ?sg ?i ?prs ?rn).2) = true =>
      destruct (batch_sandbox_lives_never_overlap p d st sg prs i rn)
        as [(evs & Htrace & Hlives) _]
  end.
  rewrite Htrace. exact Hlives.
Defined.

(** ** A failed scoring call *)


Section Scoring.
Import TestRunner.
Variable ast_parse : string → option (list Resolver.import_node).
Variable describe_tests : fileset → list test_descr.


End Scoring.


(** ** The code-type label ([gpt_analyzer.py], [_analyze_code_type]) *)

Lemma lower_app (s t : string) : Py.lower (s +:+ t) = Py.lower s +:+ Py.lower t.
Proof.
  induction s as [|c s IH]; [done|].
  rewrite append_cons. cbn [Py.lower]. by rewrite IH, append_cons.
Qed.

Lemma prefix_app_l (needle s t : string) :
  String.prefix needle s = true → String.prefix needle (s +:+ t) = true.
Proof.
  revert s. induction needle as [|c needle IH]; intros s.
  - intros _. by destruct (s +:+ t).
  - destruct s as [|a s]; [done|]. rewrite append_cons. cbn [String.prefix].
    destruct (ascii_dec c a); [apply IH|done].
Qed.

Lemma contains_app_l (needle s t : string) :
  Py.contains needle s = true → Py.contains needle (s +:+ t) = true.
Proof.
  induction s as [|a s IH].
  - cbn [Py.contains]. rewrite orb_false_r, append_nil_l.
    destruct needle; [|done]. intros _. by destruct t.
  - rewrite append_cons. cbn [Py.contains].
    intros [H|H]%orb_true_iff.
    + rewrite <- append_cons, (prefix_app_l _ _ _ H). done.
    + rewrite (IH H). apply orb_true_r.
Qed.

Lemma contains_app_r (needle s t : string) :
  Py.contains needle t = true → Py.contains needle (s +:+ t) = true.
Proof.
  intros H. induction s as [|a s IH]; [done|].
  rewrite append_cons. cbn [Py.contains]. rewrite IH. apply orb_true_r.
Qed.

Lemma join_contains (needle sep : string) (parts : list string) (part : string) :
  part ∈ parts →
  Py.contains needle (Py.lower part) = true →
  Py.contains needle (Py.lower (Main.join sep parts)) = true.
Proof.
  intros Hin Hc. induction parts as [|p rest IH]; [by apply elem_of_nil in Hin|].
  destruct rest as [|p' rest].
  - apply list_elem_of_singleton in Hin as ->. done.
  - change (Main.join sep (p :: p' :: rest))
      with (p +:+ sep +:+ Main.join sep (p' :: rest)).
    rewrite lower_app. apply elem_of_cons in Hin as [->|Hin].
    + by apply contains_app_l.
    + apply contains_app_r. rewrite lower_app. apply contains_app_r. by apply IH.
Qed.

(** X22. The code-type label is [authentication] as soon as one of the
    words [auth], [login], [token], [password], [session] occurs, in any
    letter case, in the path of any file or in the content of one of the
    first three files; whatever else the change contains, no other label
    is then considered. *)
Theorem authentication_label_wins (code_files : list (string * string))
    (keyword text : string) :
  keyword ∈ ["auth"; "login"; "token"; "password"; "session"] →
  text ∈ code_files.*1 ∨ text ∈ take 3 code_files.*2 →
  Py.contains keyword (Py.lower text) = true →
  CodeType._analyze_code_type code_files = "authentication".
Proof.
  intros Hk Htext Hc. unfold CodeType._analyze_code_type. cbn zeta.
  assert (Hany : ∀ combined, Py.contains keyword combined = true →
    Py.contains_any ["auth"; "login"; "token"; "password"; "session"] combined
    = true).
  { intros combined H. by apply (contains_any_elem _ keyword). }
  rewrite Hany; [done|].
  destruct Htext as [Hname|Hcontent].
  - apply contains_app_l. by apply (join_contains _ _ _ text).
  - apply contains_app_r, contains_app_r.
    destruct code_files as [|kv rest]; [by apply elem_of_nil in Hcontent|].
    by apply (join_contains _ _ _ text).
Qed.

Lemma authentication_label_wins_witness :
  CodeType._analyze_code_type
    [("billing/stripe.py", "charge the card"); ("docs/AUTHORS.md", "")]
  = "authentication".
Proof.
  apply (authentication_label_wins
           [("billing/stripe.py", "charge the card"); ("docs/AUTHORS.md", "")]
           "auth" "docs/AUTHORS.md").
  - by left.
  - left. simpl. by right; left.
  - vm_compute. reflexivity.
Defined.

(** ** The status of the sandbox stage, and failed checkpoints *)

Section Reports.
Import TestRunner.
Variable ast_parse : string → option (list Resolver.import_node).
Variable describe_tests : fileset → list test_descr.

Lemma sandbox_run_result (d : daytona) (code_files test_files : fileset)
    (r : runner) :
  match (Pipeline.sandbox_run describe_tests d code_files test_files r).1 with
  | Ok res =>
      ∃ c, t_status res = (if (c =? 0)%Z then "passed" else "failed") ∧
           t_exitCode res = Some c ∧ t_error res = None
  | Raise _ => True
  end.
Proof.
  unfold Pipeline.sandbox_run, mbind, M_bind, bind, create_sandbox, try_finally.
  destruct (create_out d) as [h|e]; [|done].
  unfold setup_environment, install_dependencies, run_tests, cleanup, try_except,
    delete_sandbox, log, ret; simpl.
  destruct (materialize_out d _) as [[? ?]|?]; simpl;
    [destruct (install_out d _) as [[? ?]|?]; simpl;
     [destruct (execute_out d _) as [[c out]|?]; simpl|]|];
    destruct (delete_out d h); simpl; try done; by exists c.
Qed.

(** X23. The sandbox stage always returns, and with a definite status:
    [no_tests], [passed], [failed] or [error], never the initial
    [unknown]. The status is [error] exactly when an error text is
    recorded, and [passed] exactly when the test command's exit code is
    0; with [no_tests] no sandbox call was made. *)
Theorem sandbox_stage_reports_status (w : Pipeline.test_stage) (r : runner) :
  ∃ res r',
    Pipeline._run_tests_in_daytona ast_parse describe_tests w r = (Ok res, r') ∧
    t_status res ∈ ["no_tests"; "passed"; "failed"; "error"] ∧
    (t_status res = "error" ↔ is_Some (t_error res)) ∧
    (t_status res = "passed" ↔ t_exitCode res = Some 0%Z) ∧
    (t_status res = "no_tests" → r' = r).
Proof.
  unfold Pipeline._run_tests_in_daytona, try_except, mbind, M_bind, bind, lift, ret.
  assert (Herr : ∀ (e : exn) (r0 : runner),
    ∃ res r', (Ok (ExecResult "error" None "" [] (Some e)), r0) = (Ok res, r') ∧
      t_status res ∈ ["no_tests"; "passed"; "failed"; "error"] ∧
      (t_status res = "error" ↔ is_Some (t_error res)) ∧
      (t_status res = "passed" ↔ t_exitCode res = Some 0%Z) ∧
      (t_status res = "no_tests" → r' = r)).
  { intros e r0. eexists _, _. split; [reflexivity|]. simpl.
    split; [set_solver|]. split; [by split; eauto|]. by split. }
  destruct (Pipeline.code_files_out w) as [code_files|e]; [|apply Herr].
  destruct (Pipeline.test_files_out w) as [test_files|e]; [|apply Herr].
  case_bool_decide.
  { eexists _, _. split; [reflexivity|]. simpl.
    split; [set_solver|]. split; [by split; [|intros [? ?]]|]. by split. }
  assert (Hrun : ∀ cf,
    ∃ res r',
      match Pipeline.sandbox_run describe_tests (Pipeline.sandbox_service w)
              cf test_files r with
      | (Ok a, r') => (Ok a, r')
      | (Raise e, r') =>
          (Ok (ExecResult "error" None "" [] (Some e)), r')
      end = (Ok res, r') ∧
      t_status res ∈ ["no_tests"; "passed"; "failed"; "error"] ∧
      (t_status res = "error" ↔ is_Some (t_error res)) ∧
      (t_status res = "passed" ↔ t_exitCode res = Some 0%Z) ∧
      (t_status res = "no_tests" → r' = r)).
  { intros cf.
    pose proof (sandbox_run_result (Pipeline.sandbox_service w) cf test_files r) as Hres.
    destruct (Pipeline.sandbox_run _ _ _ _ r) as [[res|e] r']; [|apply Herr].
    simpl in Hres. destruct Hres as (c & Hs & Hc & He).
    exists res, r'. split; [done|]. rewrite Hs, Hc, He.
    destruct (c =? 0)%Z eqn:Hz.
    - apply Z.eqb_eq in Hz. subst c.
      split; [set_solver|]. split; [by split; [|intros [? ?]]|]. by split.
    - apply Z.eqb_neq in Hz.
      split; [set_solver|]. split; [by split; [|intros [? ?]]|].
      split; [|done]. split; [done|]. intros [= Hc0]. done. }
  case_bool_decide; [apply Hrun|].
  destruct (Resolver.fetch_source_files_from_imports _ _ _) as [src|e];
    [apply Hrun | apply Herr].
Qed.

Lemma loop_holds_step (skip_tests skip_gpt : bool) (prs : list Batch.item)
    (i j : nat) (it : Batch.item) (rn : runner) :
  prs !! j = Some it →
  ∃ rn0, ∀ e,
    e ∈ (Batch.step ast_parse describe_tests skip_tests skip_gpt (i + j) it rn0).1 →
    e ∈ (Batch.loop ast_parse describe_tests skip_tests skip_gpt i prs rn).1.
Proof.
  revert i j rn. induction prs as [|it0 rest IH]; intros i j rn Hj; [done|].
  rewrite loop_cons. cbn [fst]. destruct j as [|j].
  - injection Hj as ->. exists rn. intros e He. rewrite Nat.add_0_r in He.
    apply elem_of_app. by left.
  - destruct (IH (S i) j
                (Batch.step ast_parse describe_tests skip_tests skip_gpt
                   i it0 rn).2 Hj) as [rn0 Hrn0].
    exists rn0. intros e He. apply elem_of_app. right. apply Hrn0.
    by replace (S i + j) with (i + S j) by lia.
Qed.

(** X24. A checkpoint that cannot be written is charged to the pull
    request just processed: when the write after every fifth pull
    request raises, the results keep the entry of the processed pull
    request and receive, in addition, an error entry with the same
    number and risk 0. The pull request then appears twice. *)
Theorem failed_checkpoint_duplicates_entry (skip_tests skip_gpt : bool)
    (prs : list Batch.item) (rn : runner) (j : nat) (it : Batch.item) (e : exn) :
  prs !! j = Some it →
  (S j) mod 5 = 0 →
  Batch.it_save_out it = Raise e →
  is_ok (Pipeline.pr_info_out (Batch.it_world it)) = true →
  Pipeline.has_review_out (Batch.it_world it) = Ok false ∨
  (Pipeline.has_review_out (Batch.it_world it) = Ok true ∧
   is_ok (Pipeline.comments_out (Batch.it_world it)) = true) →
  let results :=
    Batch.pull_requests ast_parse describe_tests skip_tests skip_gpt prs rn in
  Batch.ErrorEntry (Batch.it_number it) (Batch.it_title it) (Batch.it_link it)
    e (JNum 0) ∈ results ∧
  ∃ res, Batch.Processed res ∈ results ∧ r_id res = Batch.it_number it.
Proof.
  intros Hj Hmod Hsave Hinfo Hrev. cbn zeta. unfold Batch.pull_requests.
  destruct (loop_holds_step skip_tests skip_gpt prs 1 j it rn Hj) as [rn0 Hin].
  assert (Hstep : ∃ res,
    (Batch.step ast_parse describe_tests skip_tests skip_gpt (1 + j) it rn0).1
    = [Batch.Processed res; Batch.error_entry it e] ∧
    r_id res = Batch.it_number it).
  { unfold Batch.step.
    pose proof (process_pr_cases ast_parse describe_tests (Batch.it_world it)
                  (negb skip_tests) (negb skip_gpt) (Batch.it_number it)
                  skip_tests skip_gpt rn0) as Hcases.
    cbn zeta in Hcases.
    destruct (Pipeline.pr_info_out (Batch.it_world it)); [|done].
    assert (Hok : ∃ res rn',
      Pipeline.process_pr ast_parse describe_tests (Batch.it_world it)
        (negb skip_tests) (negb skip_gpt) (Batch.it_number it)
        skip_tests skip_gpt rn0 = (Ok res, rn')).
    { destruct Hrev as [Hr|[Hr Hc]]; rewrite Hr in Hcases; [done|].
      by destruct (Pipeline.comments_out (Batch.it_world it)). }
    destruct Hok as (res & rn' & Hrun). rewrite Hrun.
    destruct (process_pr_risk _ _ _ _ _ _ _ _ _ _ _ Hrun) as [Hid _].
    exists res. change (1 + j) with (S j). rewrite Hmod, Hsave. by split. }
  destruct Hstep as (res & Hstep & Hid). rewrite Hstep in Hin.
  split.
  - apply Hin. apply elem_of_cons. right. by apply elem_of_cons; left.
  - exists res. split; [|done]. apply Hin. by apply elem_of_cons; left.
Qed.

End Reports.

Lemma failed_checkpoint_duplicates_entry_witness :
  let quiet : Pipeline.test_stage :=
    Pipeline.TestStage (Raise "") (Raise "")
      (Resolver.Github (Raise "") (Raise "") (Raise "") (fun _ _ => Raise ""))
      (TestRunner.Daytona (Raise "") (fun _ => Raise "") (fun _ => Raise "")
         (fun _ => Raise "") (fun _ => Raise "")) in
  let good : Pipeline.pr_world :=
    Pipeline.PRWorld
      (Ok (<["title" := JStr "Fix login"]> ∅))
      (Ok false) (Ok []) (Raise "") (Ok None) quiet (Ok ∅)
      (fun _ => Raise "") in
  let prs :=
    [Batch.Item 11 (JStr "a") (JStr "") good (Ok ());
     Batch.Item 12 (JStr "b") (JStr "") good (Ok ());
     Batch.Item 14 (JStr "c") (JStr "") good (Ok ());
     Batch.Item 15 (JStr "d") (JStr "") good (Ok ());
     Batch.Item 17 (JStr "e") (JStr "") good (Raise "disk full")] in
  Batch.ErrorEntry 17 (JStr "e") (JStr "") "disk full" (JNum 0)
  ∈ Batch.pull_requests (fun _ => None) (fun _ => []) true true prs
      (TestRunner.Runner None []).
Proof.
  cbn zeta.
  match goal with
  | |- _ ∈ Batch.pull_requests ?p ?d ?st ?sg ?prs ?rn =>
      refine (proj1 (failed_checkpoint_duplicates_entry p d st sg prs rn 4
                       (Batch.Item 17 (JStr "e") (JStr "") _ (Raise "disk full"))
                       "disk full" eq_refl eq_refl eq_refl eq_refl _))
  end.
  by left.
Defined.
